(** * budget-bot: access list, value cache and the admin conversation

    A shallow embedding of [bot.py].  The handlers are functions in a small
    state-and-exception monad over a [world] that holds everything the
    Python process shares between calls: the users file on disk, the
    module-level [cell_cache], the per-chat [chat_data] bag, the
    [ConversationHandler]'s own table of conversations, and the two things
    an observer can see from outside, the replies sent and the log.

    The Telegram transport, the spreadsheet and the disk are capabilities:
    a reply always goes out, a spreadsheet call or a write to disk may
    fail, and how they behave at each event is part of the event. *)

From Stdlib Require Import Ascii String ZArith.
From stdpp Require Import gmap strings list pretty.

(** ** Python values and builtins *)

(** What [Cell.value] holds: [None] or a [str]. *)
Inductive pyval :=
  | PyNone
  | PyStr (s : string).

(** Python truthiness, as used by [value or na]. *)
Definition truthy (v : pyval) : bool :=
  match v with
  | PyNone => false
  | PyStr s => negb (String.eqb s "")
  end.

(** [a or b] on a cell value with a string alternative, then [str.format]. *)
Definition py_or (v : pyval) (alt : string) : string :=
  match v with
  | PyStr s => if truthy v then s else alt
  | PyNone => alt
  end.

Definition nl : string := String "010"%char "".

(** [str.lower()] on the letters a command name can have, A to Z. *)
Definition lower_char (c : ascii) : ascii :=
  let n := nat_of_ascii c in
  if ((65 <=? n) && (n <=? 90))%nat then ascii_of_nat (n + 32) else c.

Fixpoint lower (s : string) : string :=
  match s with
  | EmptyString => EmptyString
  | String c r => String (lower_char c) (lower r)
  end.

(** ["sep".join(parts)] *)
Fixpoint join (sep : string) (parts : list string) : string :=
  match parts with
  | [] => ""
  | [p] => p
  | p :: rest => p +:+ sep +:+ join sep rest
  end.

(** [int(text)] on plain ASCII text: surrounding white space, an optional
    sign, then decimal digits with single underscores between digits. *)
Definition is_space (c : ascii) : bool :=
  let n := nat_of_ascii c in
  ((9 <=? n) && (n <=? 13) || (28 <=? n) && (n <=? 32))%nat.

Definition digit_of (c : ascii) : option Z :=
  let n := nat_of_ascii c in
  if ((48 <=? n) && (n <=? 57))%nat then Some (Z.of_nat n - 48)%Z else None.

Fixpoint lstrip (s : string) : string :=
  match s with
  | String c r => if is_space c then lstrip r else s
  | EmptyString => s
  end.

Definition strip (s : string) : string :=
  String.rev (lstrip (String.rev (lstrip s))).

(** [digits acc after_digit s]: [after_digit] tells whether the previous
    character was a digit, the only place an underscore may stand. *)
Fixpoint digits (acc : Z) (after_digit : bool) (s : string) : option Z :=
  match s with
  | EmptyString => if after_digit then Some acc else None
  | String c r =>
      match digit_of c with
      | Some d => digits (10 * acc + d)%Z true r
      | None =>
          if (Ascii.eqb c "_"%char && after_digit)%bool then
            match r with
            | String c' _ =>
                match digit_of c' with
                | Some _ => digits acc false r
                | None => None
                end
            | EmptyString => None
            end
          else None
      end
  end.

Definition ascii_int (text : string) : option Z :=
  match strip text with
  | String "-"%char r => Z.opp <$> digits 0 false r
  | String "+"%char r => digits 0 false r
  | s => digits 0 false s
  end.

(** What the process gets from outside the file: the [ADMIN_ID] environment
    variable read by [Config], and the builtin [int] on text ([None] where
    it raises [ValueError]). *)
Class Runtime := {
  ADMIN_ID : Z;
  py_int : string -> option Z;
}.

(** ** Config *)

Module Config.

Record sheet_config := {
  sheet_name : string;
  search_phrase : string;
  title : string;
}.

Definition SHEET_CONFIG : list (string * sheet_config) :=
  [ ("income",
      {| sheet_name := "Лист1"; search_phrase := "Всего доходы"; title := "доходы" |});
    ("consumption",
      {| sheet_name := "Лист2"; search_phrase := "Всего расходы"; title := "расходы" |});
    ("cash",
      {| sheet_name := "Лист3"; search_phrase := "Всего в кассе"; title := "в кассе" |}) ].

Definition start_message : string := "Нажмите кнопку:".
Definition main_button : string := "📊 Получить итог".
Definition add_button : string := "➕ Добавить пользователя".
Definition remove_button : string := "➖ Удалить пользователя".
Definition error_message : string := "🚫 Произошла ошибка при обработке".
Definition na_value : string := "Н/Д".
Definition admin_only : string := "🚫 Только для администратора!".
Definition add_user_message : string := "Введите ID пользователя:".
Definition remove_user_message : string := "Введите ID пользователя:".
Definition invalid_id : string := "❌ Неверный формат ID. Введите целое число:".
Definition cancel_message : string := "🚫 Операция отменена".

(** ["Всего {title}: {value}".format(title=..., value=...)] *)
Definition response_template (title value : string) : string :=
  "Всего " +:+ title +:+ ": " +:+ value.

(** ["🚫 Доступ запрещен! Ваш ID: {user_id}".format(user_id=...)] *)
Definition access_denied (user_id : Z) : string :=
  "🚫 Доступ запрещен! Ваш ID: " +:+ pretty user_id.

End Config.

(** ** States *)

Inductive States :=
  | AWAIT_USER_ID_ADD      (* 1 *)
  | AWAIT_USER_ID_REMOVE.  (* 2 *)

Global Instance States_eq_dec : EqDecision States.
Proof. solve_decision. Defined.

(** What a handler callback returns to the [ConversationHandler]:
    [None], one of [States], or [ConversationHandler.END]. *)
Inductive handler_ret :=
  | RetNone
  | RetState (s : States)
  | END.

(** ** The world *)

(** [Config.ALLOWED_USERS_FILE] as [load_users] can find it: absent,
    present but not loadable (not JSON, not an object, an entry [int]
    rejects), or a JSON object whose two keys may each be missing. *)
Inductive file_state :=
  | FileMissing
  | FileUnreadable
  | FileJson (admin_id : option Z) (allowed_users : option (list Z)).

Record user_data := {
  admin_id : Z;
  allowed_users : list Z;
}.

(** One value of [cell_cache]: [{"sheet": ..., "pos": ..., "value": ...}].
    A worksheet object is known by its title. *)
Record cache_entry := {
  sheet : option string;
  pos : option (Z * Z);
  value : pyval;
}.

Record message := {
  to_chat : Z;
  body : string;
  reply_markup : option (list (list string));
}.

Inductive level := INFO | WARNING | ERROR.

Record world := {
  users_file : file_state;
  cell_cache : gmap string cache_entry;
  chat_data : gmap Z States;            (* chat_data["current_state"], per chat *)
  conversations : gmap (Z * Z) States;  (* ConversationHandler, per (chat, user) *)
  outbox : list message;                (* oldest first *)
  log : list (level * string);          (* oldest first *)
}.

Definition set_users_file (f : file_state) (w : world) : world :=
  {| users_file := f; cell_cache := cell_cache w; chat_data := chat_data w;
     conversations := conversations w; outbox := outbox w; log := log w |}.

Definition set_cell_cache (c : gmap string cache_entry) (w : world) : world :=
  {| users_file := users_file w; cell_cache := c; chat_data := chat_data w;
     conversations := conversations w; outbox := outbox w; log := log w |}.

Definition set_chat_data (c : gmap Z States) (w : world) : world :=
  {| users_file := users_file w; cell_cache := cell_cache w; chat_data := c;
     conversations := conversations w; outbox := outbox w; log := log w |}.

Definition set_conversations (c : gmap (Z * Z) States) (w : world) : world :=
  {| users_file := users_file w; cell_cache := cell_cache w; chat_data := chat_data w;
     conversations := c; outbox := outbox w; log := log w |}.

Definition set_outbox (o : list message) (w : world) : world :=
  {| users_file := users_file w; cell_cache := cell_cache w; chat_data := chat_data w;
     conversations := conversations w; outbox := o; log := log w |}.

Definition set_log (l : list (level * string)) (w : world) : world :=
  {| users_file := users_file w; cell_cache := cell_cache w; chat_data := chat_data w;
     conversations := conversations w; outbox := outbox w; log := l |}.

(** ** The monad of handlers: state and Python exceptions *)

Inductive exn :=
  | ValueError
  | KeyError (key : string)
  | NameError (name : string)
  | CellNotFound
  | AttributeError (name : string)
  | APIError.

Inductive outcome (A : Type) :=
  | Ret (a : A)
  | Raise (e : exn).
Global Arguments Ret {A} a.
Global Arguments Raise {A} e.

Definition M (A : Type) : Type := world -> outcome A * world.

Global Instance M_ret : MRet M := fun A a w => (Ret a, w).

Global Instance M_bind : MBind M := fun A B f m w =>
  match m w with
  | (Ret a, w') => f a w'
  | (Raise e, w') => (Raise e, w')
  end.

Global Instance M_throw : MThrow exn M := fun A e w => (Raise e, w).

(** [try: body / except <those the guard accepts>: handler] *)
Definition try_except {A} (body : M A) (caught : exn -> bool) (handler : exn -> M A) : M A :=
  fun w =>
    match body w with
    | (Raise e, w') => if caught e then handler e w' else (Raise e, w')
    | r => r
    end.

Definition Exception (e : exn) : bool := true.

Definition get_world : M world := fun w => (Ret w, w).
Definition modify (f : world -> world) : M unit := fun w => (Ret (), f w).

Definition exec {A} (m : M A) (w : world) : world := snd (m w).
Definition result {A} (m : M A) (w : world) : outcome A := fst (m w).

Definition logging (l : level) (msg : string) : M unit :=
  modify (fun w => set_log (log w ++ [(l, msg)]) w).

(** ** Incoming updates *)

(** A message as the transport hands it over.  [command] is the name of
    the bot command the text starts with, when it starts with one. *)
Record update := {
  chat_id : Z;
  user_id : Z;
  text : string;
  command : option string;
}.

(** The message that [update.message.reply_text(text, reply_markup=...)]
    sends: it goes to the chat the update came from. *)
Definition answer (u : update) (t : string) (markup : option (list (list string))) : message :=
  {| to_chat := chat_id u; body := t; reply_markup := markup |}.

Definition reply_text (u : update) (t : string) (markup : option (list (list string))) : M unit :=
  modify (fun w => set_outbox (outbox w ++ [answer u t markup]) w).

(** How a write to [ALLOWED_USERS_FILE] ends: done, [open] raises (the
    file stays as it was), or the dump raises after [open] truncated it. *)
Inductive write_outcome :=
  | WriteOk
  | OpenFails
  | DumpFails.

(** The gspread library and the spreadsheet as the process sees them at
    one moment.  Each call may raise: [open_by_key] is whether
    [initialize_google_sheets] returns, [worksheet] and [cell] give
    [None] where the call raises.  What [find] does with a phrase that
    is not there depends on the library: before gspread 5 it raises
    [CellNotFound] ([NotFound]), since then it returns [None]
    ([FoundNone]); [FindFails] is any other exception of the call.
    [has_CellNotFound] tells whether the installed library still has the
    name [gspread.exceptions.CellNotFound], which gspread 6 removed. *)
Inductive find_result :=
  | Found (row col : Z)
  | FoundNone
  | NotFound
  | FindFails.

Record gsheets := {
  has_CellNotFound : bool;
  open_by_key : bool;
  worksheet : string -> option string;
  find : string -> string -> find_result;
  cell : string -> Z -> Z -> option pyval;
}.

(** A registered handler: the filter that [check_update] applies and the
    callback. *)
Record Handler := {
  check_update : update -> bool;
  callback : write_outcome -> update -> M handler_ret;
}.

(** What the process reacts to after start-up: a message from a chat
    (with what the disk does if the handler writes), or the job queue
    running [update_cache] (with the spreadsheet as it answers then). *)
Inductive event :=
  | Incoming (u : update) (disk : write_outcome)
  | Job (g : gsheets).

Definition lift_opt {A} (o : option A) (e : exn) : M A :=
  match o with
  | Some a => mret a
  | None => mthrow e
  end.

(** [for x in xs: body(x)] *)
Fixpoint for_each {A} (xs : list A) (body : A -> M unit) : M unit :=
  match xs with
  | [] => mret ()
  | x :: rest => body x;; for_each rest body
  end.

(** [[body(x) for x in xs]], also the loop that appends to a list *)
Fixpoint map_M {A B} (body : A -> M B) (xs : list A) : M (list B) :=
  match xs with
  | [] => mret []
  | x :: rest => y ← body x; ys ← map_M body rest; mret (y :: ys)
  end.

Definition set_value (v : pyval) (e : cache_entry) : cache_entry :=
  {| sheet := sheet e; pos := pos e; value := v |}.

(** [cell_cache] as the module creates it. *)
Definition cell_cache_init : gmap string cache_entry :=
  list_to_map
    (map (fun kc => (fst kc, {| sheet := None; pos := None; value := PyNone |}))
         Config.SHEET_CONFIG).

Section Bot.
Context `{RT : Runtime}.

(** *** The access list *)

Definition load_users : M user_data :=
  w ← get_world;
  match users_file w with
  | FileMissing => mret {| admin_id := ADMIN_ID; allowed_users := [] |}
  | FileJson a l =>
      mret {| admin_id := default ADMIN_ID a; allowed_users := default [] l |}
  | FileUnreadable =>
      logging ERROR "Ошибка загрузки пользователей";;
      mret {| admin_id := ADMIN_ID; allowed_users := [] |}
  end.

Definition save_users (disk : write_outcome) (data : user_data) : M unit :=
  match disk with
  | WriteOk =>
      modify (set_users_file (FileJson (Some (admin_id data)) (Some (allowed_users data))))
  | OpenFails =>
      logging ERROR "Ошибка сохранения пользователей"
  | DumpFails =>
      modify (set_users_file FileUnreadable);;
      logging ERROR "Ошибка сохранения пользователей"
  end.

(** What [load_users] returns for a file, whichever branch it takes. *)
Definition access_list (f : file_state) : user_data :=
  match f with
  | FileJson a l => {| admin_id := default ADMIN_ID a; allowed_users := default [] l |}
  | _ => {| admin_id := ADMIN_ID; allowed_users := [] |}
  end.

(** The record a failed [save_users] leaves in the log, and the users
    file after [save_users disk data], from the file before. *)
Definition save_error : level * string := (ERROR, "Ошибка сохранения пользователей").

Definition saved (disk : write_outcome) (data : user_data) (f : file_state) : file_state :=
  match disk with
  | WriteOk => FileJson (Some (admin_id data)) (Some (allowed_users data))
  | OpenFails => f
  | DumpFails => FileUnreadable
  end.

(** [x in list] *)
Definition py_in (x : Z) (l : list Z) : bool := bool_decide (x ∈ l).

(** [list.remove(x)]: the first occurrence goes ([ValueError] when there
    is none). *)
Fixpoint list_remove (x : Z) (l : list Z) : option (list Z) :=
  match l with
  | [] => None
  | y :: r => if bool_decide (y = x) then Some r else cons y <$> list_remove x r
  end.

Definition check_access (u : update) : M bool :=
  data ← load_users;
  let uid := user_id u in
  if (negb (bool_decide (uid = admin_id data)) && negb (py_in uid (allowed_users data)))%bool then
    reply_text u (Config.access_denied uid) None;;
    mret false
  else mret true.

Definition create_keyboard (uid : Z) : M (list (list string)) :=
  data ← load_users;
  let is_admin := bool_decide (uid = admin_id data) in
  let buttons := [[Config.main_button]] in
  mret (if is_admin then buttons ++ [[Config.add_button; Config.remove_button]] else buttons).

(** *** The value cache *)

(** [cell_cache[key]] *)
Definition cache_get (key : string) : M cache_entry :=
  w ← get_world;
  lift_opt (cell_cache w !! key) (KeyError key).

Definition cache_put (key : string) (e : cache_entry) : M unit :=
  modify (fun w => set_cell_cache (<[key := e]> (cell_cache w)) w).

(** The body of the loop of [init_cache], with its two [except] clauses.
    When [find] returned [None], reading [cell.row] raises.  An
    exception that reaches the clauses first has the expression of the
    first clause evaluated, [gspread.exceptions.CellNotFound]: where the
    library has no such name this raises [AttributeError], which leaves
    the [try] statement and with it the loop. *)
Definition init_key (g : gsheets) (kc : string * Config.sheet_config) : M unit :=
  let '(key, config) := kc in
  try_except
    (sh ← lift_opt (worksheet g (Config.sheet_name config)) APIError;
     found ← match find g sh (Config.search_phrase config) with
             | Found r c => mret (Some (r, c))
             | FoundNone => mret None
             | NotFound => mthrow CellNotFound
             | FindFails => mthrow APIError
             end;
     _ ← cache_get key;
     rc ← lift_opt found (AttributeError "row");
     v ← lift_opt (cell g sh (fst rc) (snd rc + 1)%Z) APIError;
     cache_put key {| sheet := Some sh; pos := Some (fst rc, (snd rc + 1)%Z); value := v |})
    Exception
    (fun e =>
       if has_CellNotFound g then
         match e with
         | CellNotFound => logging WARNING ("Ячейка для " +:+ key +:+ " не найдена")
         | _ => logging ERROR ("Ошибка инициализации кеша " +:+ key)
         end
       else mthrow (AttributeError "CellNotFound")).

Definition initialize_google_sheets (g : gsheets) : M unit :=
  if open_by_key g then mret ()
  else logging ERROR "Ошибка инициализации Google Sheets";; mthrow APIError.

Definition init_cache (g : gsheets) : M unit :=
  try_except
    (initialize_google_sheets g;;
     for_each Config.SHEET_CONFIG (init_key g))
    Exception
    (fun _ => logging ERROR "Ошибка инициализации кеша").

(** The body of the loop of [update_cache]. *)
Definition update_key (g : gsheets) (key : string) : M unit :=
  e ← cache_get key;
  match pos e, sheet e with
  | Some (r, c), Some sh =>
      v ← lift_opt (cell g sh r c) APIError;
      e' ← cache_get key;
      cache_put key (set_value v e')
  | _, _ => mret ()
  end.

Definition update_cache (g : gsheets) : M unit :=
  try_except
    (for_each (map fst Config.SHEET_CONFIG) (update_key g))
    Exception
    (fun _ => logging ERROR "Ошибка обновления кеша").

(** *** Handlers *)

Definition start (u : update) : M handler_ret :=
  ok ← check_access u;
  if negb ok then mret RetNone
  else
    try_except
      (keyboard ← create_keyboard (user_id u);
       reply_text u Config.start_message (Some keyboard);;
       mret RetNone)
      Exception
      (fun _ =>
         logging ERROR "Ошибка в команде /start";;
         reply_text u Config.error_message None;;
         mret RetNone).

(** One line of the answer of [get_result]. *)
Definition result_line (kc : string * Config.sheet_config) : M string :=
  e ← cache_get (fst kc);
  mret (Config.response_template (Config.title (snd kc)) (py_or (value e) Config.na_value)).

Definition get_result (u : update) : M handler_ret :=
  ok ← check_access u;
  if negb ok then mret RetNone
  else
    try_except
      (keyboard ← create_keyboard (user_id u);
       response ← map_M result_line Config.SHEET_CONFIG;
       reply_text u (join nl response) (Some keyboard);;
       mret RetNone)
      Exception
      (fun _ =>
         logging ERROR "Ошибка получения данных";;
         reply_text u Config.error_message None;;
         mret RetNone).

Definition users_list (data : user_data) : string :=
  match allowed_users data with
  | [] => "📋 Список пользователей пуст"
  | l => "📋 Текущий список пользователей:" +:+ nl
         +:+ join nl (map (fun uid : Z => "▫️ " +:+ pretty uid) l)
  end.

Definition set_state (u : update) (s : States) : M unit :=
  modify (fun w => set_chat_data (<[chat_id u := s]> (chat_data w)) w).

(** [chat_data.get("current_state")] *)
Definition get_state (u : update) : M (option States) :=
  w ← get_world;
  mret (chat_data w !! chat_id u).

(** [del chat_data["current_state"]] *)
Definition del_state (u : update) : M unit :=
  s ← get_state u;
  match s with
  | Some _ => modify (fun w => set_chat_data (delete (chat_id u) (chat_data w)) w)
  | None => mthrow (KeyError "current_state")
  end.

Definition add_user (u : update) : M handler_ret :=
  keyboard ← create_keyboard (user_id u);
  set_state u AWAIT_USER_ID_ADD;;
  data ← load_users;
  reply_text u (users_list data +:+ nl +:+ " " +:+ Config.add_user_message) (Some keyboard);;
  mret (RetState AWAIT_USER_ID_ADD).

Definition remove_user (u : update) : M handler_ret :=
  keyboard ← create_keyboard (user_id u);
  set_state u AWAIT_USER_ID_REMOVE;;
  data ← load_users;
  reply_text u (users_list data +:+ nl +:+ " " +:+ Config.remove_user_message) (Some keyboard);;
  mret (RetState AWAIT_USER_ID_REMOVE).

Definition user_added (uid : Z) : string := "✅ Пользователь " +:+ pretty uid +:+ " добавлен".
Definition user_removed (uid : Z) : string := "✅ Пользователь " +:+ pretty uid +:+ " удален".
Definition user_exists : string := "ℹ️ Пользователь уже существует".
Definition user_not_found : string := "ℹ️ Пользователь не найден".
Definition unknown_state : string := "⚠️ Неизвестное состояние".

(** [str] of what [chat_data.get("current_state")] gives. *)
Definition state_repr (s : option States) : string :=
  match s with
  | Some AWAIT_USER_ID_ADD => "1"
  | Some AWAIT_USER_ID_REMOVE => "2"
  | None => "None"
  end.

Definition process_user_id (disk : write_outcome) (u : update) (uid : Z) : M handler_ret :=
  current_state ← get_state u;
  logging INFO ("Processing user ID " +:+ pretty uid +:+ " for state "
              +:+ state_repr current_state);;
  data ← load_users;
  match current_state with
  | Some AWAIT_USER_ID_ADD =>
      (if py_in uid (allowed_users data) then
         reply_text u user_exists None
       else
         save_users disk {| admin_id := admin_id data;
                            allowed_users := allowed_users data ++ [uid] |};;
         reply_text u (user_added uid) None);;
      del_state u;;
      mret END
  | Some AWAIT_USER_ID_REMOVE =>
      (if py_in uid (allowed_users data) then
         l ← lift_opt (list_remove uid (allowed_users data)) ValueError;
         save_users disk {| admin_id := admin_id data; allowed_users := l |};;
         reply_text u (user_removed uid) None
       else
         reply_text u user_not_found None);;
      del_state u;;
      mret END
  | None =>
      reply_text u unknown_state None;;
      mret END
  end.

Definition is_ValueError (e : exn) : bool :=
  match e with
  | ValueError => true
  | _ => false
  end.

Definition handle_user_id_input (disk : write_outcome) (u : update) : M handler_ret :=
  try_except
    (uid ← lift_opt (py_int (text u)) ValueError;
     process_user_id disk u uid)
    is_ValueError
    (fun _ =>
       reply_text u Config.invalid_id None;;
       s ← get_state u;
       mret (match s with
             | Some st => RetState st
             | None => END
             end)).

(** [keyboard] is bound neither in [cancel] nor in the module: building
    the arguments of [reply_text] raises [NameError]. *)
Definition cancel (u : update) : M handler_ret :=
  s ← get_state u;
  (if s is Some _ then del_state u else mret ());;
  keyboard ← mthrow (NameError "keyboard");
  reply_text u Config.cancel_message (Some keyboard);;
  mret END.

Definition handle_buttons (u : update) : M handler_ret :=
  data ← load_users;
  if (bool_decide (text u ∈ [Config.add_button; Config.remove_button])
      && negb (bool_decide (user_id u = admin_id data)))%bool then
    reply_text u Config.admin_only None;;
    mret RetNone
  else if bool_decide (text u = Config.main_button) then get_result u
  else if bool_decide (text u = Config.add_button) then add_user u
  else if bool_decide (text u = Config.remove_button) then remove_user u
  else mret RetNone.

(** *** The application of [main] *)

(** [filters.TEXT], [filters.COMMAND] and [filters.Regex(rf"^{button}$")]:
    without [re.MULTILINE], [$] matches at the end and before a final
    newline. *)
Definition TEXT (u : update) : bool := negb (String.eqb (text u) "").
Definition COMMAND (u : update) : bool := bool_decide (is_Some (command u)).
Definition Regex (button : string) (u : update) : bool :=
  (String.eqb (text u) button || String.eqb (text u) (button +:+ nl))%bool.

Definition MessageHandler (f : update -> bool)
    (cb : write_outcome -> update -> M handler_ret) : Handler :=
  {| check_update := f; callback := cb |}.

(** [CommandHandler] keeps its command names lower-cased and lower-cases
    the command of the message before it looks it up. *)
Definition CommandHandler (name : string)
    (cb : write_outcome -> update -> M handler_ret) : Handler :=
  {| check_update := fun u => bool_decide (lower <$> command u = Some (lower name));
     callback := cb |}.

Definition entry_points : list Handler :=
  [ MessageHandler (fun u => TEXT u && Regex Config.add_button u)%bool (fun _ => add_user);
    MessageHandler (fun u => TEXT u && Regex Config.remove_button u)%bool (fun _ => remove_user) ].

Definition states (s : States) : list Handler :=
  match s with
  | AWAIT_USER_ID_ADD =>
      [ MessageHandler (fun u => TEXT u && negb (COMMAND u))%bool handle_user_id_input ]
  | AWAIT_USER_ID_REMOVE =>
      [ MessageHandler (fun u => TEXT u && negb (COMMAND u))%bool handle_user_id_input ]
  end.

Definition fallbacks : list Handler :=
  [ CommandHandler "cancel" (fun _ => cancel) ].

Definition first_match (hs : list Handler) (u : update) : option Handler :=
  List.find (fun h => check_update h u) hs.

(** The key of a conversation: [per_chat] and [per_user] are both on. *)
Definition conv_key (u : update) : Z * Z := (chat_id u, user_id u).

(** [ConversationHandler.check_update]: with no conversation under the
    key, the entry points; with one, the handlers of its state and then
    the fallbacks. *)
Definition conv_check_update (w : world) (u : update) : option Handler :=
  match conversations w !! conv_key u with
  | None => first_match entry_points u
  | Some s =>
      match first_match (states s) u with
      | Some h => Some h
      | None => first_match fallbacks u
      end
  end.

(** [ConversationHandler.handle_update]: run the callback and record the
    state it returns; a callback that raises records nothing. *)
Definition conv_handle_update (h : Handler) (disk : write_outcome) (u : update) : M unit :=
  r ← callback h disk u;
  match r with
  | END => modify (fun w => set_conversations (delete (conv_key u) (conversations w)) w)
  | RetState s => modify (fun w => set_conversations (<[conv_key u := s]> (conversations w)) w)
  | RetNone => mret ()
  end.

(** The handlers added after the conversation handler, in order. *)
Definition plain_handlers : list Handler :=
  [ MessageHandler (fun u => TEXT u && negb (COMMAND u))%bool (fun _ => handle_buttons);
    CommandHandler "start" (fun _ => start);
    MessageHandler (fun u => TEXT u && Regex Config.main_button u)%bool (fun _ => get_result) ].

(** [Application.process_update] for the one handler group of [main]: the
    first handler that accepts the update runs, and an exception it
    raises is logged, no error handler being registered. *)
Definition process_update (disk : write_outcome) (u : update) : M unit :=
  w ← get_world;
  try_except
    (match conv_check_update w u with
     | Some h => conv_handle_update h disk u
     | None =>
         match first_match plain_handlers u with
         | Some h => callback h disk u;; mret ()
         | None => mret ()
         end
     end)
    Exception
    (fun _ => logging ERROR "No error handlers are registered, logging exception.").

Definition step (w : world) (e : event) : world :=
  match e with
  | Incoming u disk => exec (process_update disk u) w
  | Job g => exec (update_cache g) w
  end.

Definition run (w : world) (trace : list event) : world := fold_left step trace w.

(** The process right after start-up: the users file as found on disk,
    the cache as the module creates it and [init_cache] fills it. *)
Definition fresh (f : file_state) : world :=
  {| users_file := f; cell_cache := cell_cache_init; chat_data := ∅;
     conversations := ∅; outbox := []; log := [] |}.

Definition boot (f : file_state) (g : gsheets) : world := exec (init_cache g) (fresh f).

End Bot.

(** ** A concrete runtime and sample inputs *)

Module Sample.

(** The administrator is user 1; text is read as ASCII. *)
Definition rt : Runtime := {| ADMIN_ID := 1; py_int := ascii_int |}.

Definition says (chat user : Z) (t : string) : update :=
  {| chat_id := chat; user_id := user; text := t; command := None |}.

Definition slash (chat user : Z) (name : string) : update :=
  {| chat_id := chat; user_id := user; text := "/" +:+ name; command := Some name |}.

(** A spreadsheet where every phrase stands in row 3, column 1, and every
    cell reads [v]. *)
Definition all_cells (v : string) : gsheets :=
  {| has_CellNotFound := true; open_by_key := true;
     worksheet := fun name => Some name;
     find := fun _ _ => Found 3 1;
     cell := fun _ _ _ => Some (PyStr v) |}.

(** The same spreadsheet when reading the first worksheet fails. *)
Definition first_sheet_down (v : string) : gsheets :=
  {| has_CellNotFound := true; open_by_key := true;
     worksheet := fun name => Some name;
     find := fun _ _ => Found 3 1;
     cell := fun sh _ _ => if String.eqb sh "Лист1" then None else Some (PyStr v) |}.

(** A chat of the administrator in which an add, or a remove, is pending. *)
Definition pending (f : file_state) (s : States) : world :=
  {| users_file := f; cell_cache := cell_cache_init;
     chat_data := {[ 1%Z := s ]}; conversations := {[ (1%Z, 1%Z) := s ]};
     outbox := []; log := [] |}.

(** A chat whose stored state is gone while the conversation handler
    still holds one for the administrator. *)
Definition stale (f : file_state) (s : States) : world :=
  {| users_file := f; cell_cache := cell_cache_init;
     chat_data := ∅; conversations := {[ (1%Z, 1%Z) := s ]};
     outbox := []; log := [] |}.

Definition income : string * Config.sheet_config :=
  ("income",
   {| Config.sheet_name := "Лист1"; Config.search_phrase := "Всего доходы";
      Config.title := "доходы" |}).

(** The process started on a spreadsheet in which every cell reads 100. *)
Definition started : world := boot FileMissing (all_cells "100").

Definition cash : string * Config.sheet_config :=
  ("cash",
   {| Config.sheet_name := "Лист3"; Config.search_phrase := "Всего в кассе";
      Config.title := "в кассе" |}).

(** A spreadsheet that cannot be opened, one that has the third
    worksheet only, and one where reading the second worksheet fails. *)
Definition closed : gsheets :=
  {| has_CellNotFound := true; open_by_key := false;
     worksheet := fun _ => None;
     find := fun _ _ => FindFails;
     cell := fun _ _ _ => None |}.

Definition third_sheet_only (v : string) : gsheets :=
  {| has_CellNotFound := true; open_by_key := true;
     worksheet := fun name => if String.eqb name "Лист3" then Some name else None;
     find := fun _ _ => Found 3 1;
     cell := fun _ _ _ => Some (PyStr v) |}.

(** The spreadsheet without its first worksheet, read through a gspread
    that has no [CellNotFound]. *)
Definition no_first_sheet (v : string) : gsheets :=
  {| has_CellNotFound := false; open_by_key := true;
     worksheet := fun name => if String.eqb name "Лист1" then None else Some name;
     find := fun _ _ => Found 3 1;
     cell := fun _ _ _ => Some (PyStr v) |}.

Definition second_sheet_down (v : string) : gsheets :=
  {| has_CellNotFound := true; open_by_key := true;
     worksheet := fun name => Some name;
     find := fun _ _ => Found 3 1;
     cell := fun sh _ _ => if String.eqb sh "Лист2" then None else Some (PyStr v) |}.

(** Two private chats with a pending action each, and a group chat 9 in
    which user 1 is in a conversation after the add trigger. *)
Definition two_chats : world :=
  {| users_file := FileMissing; cell_cache := cell_cache_init;
     chat_data := {[ 1%Z := AWAIT_USER_ID_ADD; 2%Z := AWAIT_USER_ID_REMOVE ]};
     conversations := {[ (1%Z, 1%Z) := AWAIT_USER_ID_ADD; (2%Z, 2%Z) := AWAIT_USER_ID_REMOVE ]};
     outbox := []; log := [] |}.

Definition group_chat : world :=
  {| users_file := FileJson (Some 1%Z) (Some [5%Z; 7%Z]); cell_cache := cell_cache_init;
     chat_data := {[ 9%Z := AWAIT_USER_ID_ADD ]};
     conversations := {[ (9%Z, 1%Z) := AWAIT_USER_ID_ADD ]};
     outbox := []; log := [] |}.

End Sample.

(** ** Observations used to state the properties *)

(** Where an entry points: the worksheet and the position. *)
Definition location (e : cache_entry) : option string * option (Z * Z) := (sheet e, pos e).

(** Every key of [Config.SHEET_CONFIG] has its entry in the cache. *)
Definition cache_wf (w : world) : Prop :=
  forall key, key ∈ map fst Config.SHEET_CONFIG -> is_Some (cell_cache w !! key).

(** No read of a resolved location fails in the spreadsheet [g]. *)
Definition reads_ok (g : gsheets) (w : world) : Prop :=
  forall key e sh r c,
    cell_cache w !! key = Some e -> sheet e = Some sh -> pos e = Some (r, c) ->
    is_Some (cell g sh r c).

(** [w'] is [w] where some resolved entries took the value [g] reads at
    their location; nothing else differs but possibly the log. *)
Definition refreshes (g : gsheets) (w w' : world) : Prop :=
  users_file w' = users_file w /\ chat_data w' = chat_data w /\
  conversations w' = conversations w /\ outbox w' = outbox w /\
  forall key,
    cell_cache w' !! key = cell_cache w !! key \/
    exists e sh r c v,
      cell_cache w !! key = Some e /\ sheet e = Some sh /\ pos e = Some (r, c) /\
      cell g sh r c = Some v /\ cell_cache w' !! key = Some (set_value v e).

(** The record a failed run of [update_cache] leaves in the log. *)
Definition refresh_error : level * string := (ERROR, "Ошибка обновления кеша").

(** A computation that leaves an observation of the world as it was. *)
Definition keeps {B A} (proj : world -> B) (m : M A) : Prop :=
  forall w, proj (exec m w) = proj w.

(** A computation that keeps a property of the world once it holds. *)
Definition preserves {A} (I : world -> Prop) (m : M A) : Prop :=
  forall w, I w -> I (exec m w).

(** Every handler that [main] registers, inside the conversation handler
    or after it. *)
Definition all_handlers `{RT : Runtime} : list Handler :=
  entry_points ++ states AWAIT_USER_ID_ADD ++ states AWAIT_USER_ID_REMOVE
    ++ fallbacks ++ plain_handlers.

(** One change of the users file as [process_user_id] can make it: none,
    the file left unreadable, or a file written with the administrator
    it had and its list with a new identity appended or a listed one
    removed. *)
Definition file_step `{RT : Runtime} (f f' : file_state) : Prop :=
  f' = f \/ f' = FileUnreadable \/
  exists l',
    f' = FileJson (Some (admin_id (access_list f))) (Some l') /\
    ((exists n, (n ∉ allowed_users (access_list f)) /\ l' = allowed_users (access_list f) ++ [n]) \/
     (exists n, list_remove n (allowed_users (access_list f)) = Some l')).

(** The keyboard [create_keyboard] builds for a caller of a list. *)
Definition keyboard_of `{RT : Runtime} (data : user_data) (uid : Z) : list (list string) :=
  [[Config.main_button]]
    ++ (if bool_decide (uid = admin_id data)
        then [[Config.add_button; Config.remove_button]] else []).

(** The line of [get_result] for a key whose entry is [e]. *)
Definition line_of (cfg : Config.sheet_config) (e : cache_entry) : string :=
  Config.response_template (Config.title cfg) (py_or (value e) Config.na_value).

(** The list [load_users] falls back to. *)
Definition default_users `{RT : Runtime} : user_data :=
  {| admin_id := ADMIN_ID; allowed_users := [] |}.

(** The resolution of a key succeeds in [g]: its worksheet opens, the
    phrase is found and the cell beside it reads. *)
Definition resolves (g : gsheets) (cfg : Config.sheet_config) : bool :=
  match worksheet g (Config.sheet_name cfg) with
  | Some sh =>
      match find g sh (Config.search_phrase cfg) with
      | Found r c => match cell g sh r (c + 1)%Z with Some _ => true | None => false end
      | _ => false
      end
  | None => false
  end.

(** The record a start-up that did not complete leaves in the log. *)
Definition init_error : level * string := (ERROR, "Ошибка инициализации кеша").

(** An event during which no write of the users file can succeed: a
    refresh of the cache, or a message while the disk fails. *)
Definition no_write (e : event) : bool :=
  match e with
  | Incoming _ WriteOk => false
  | _ => true
  end.

(** ** Proof tools *)

Ltac unfold_M :=
  unfold exec, result, mbind, M_bind, mret, M_ret, mthrow, M_throw, try_except,
    get_world, modify, logging, reply_text, lift_opt in *.

Ltac run_handler :=
  unfold handle_user_id_input, process_user_id, add_user, remove_user, cancel,
    check_access, create_keyboard, load_users, save_users, get_state, set_state,
    del_state in *;
  unfold_M; simpl in *.

Ltac by_deciding := apply (bool_decide_unpack _); vm_compute; exact I.

Ltac by_cases_on_file w :=
  let Hfile := fresh "Hfile" in
  destruct (users_file w) as [| |[?|] [?|]] eqn:Hfile; simpl in *; rewrite ?Hfile.

(** ** Properties *)

Section Properties.
Context `{RT : Runtime}.

(** *** The access list *)

Lemma load_users_result (w : world) :
  result load_users w = Ret (access_list (users_file w)).
Proof. run_handler. destruct (users_file w); reflexivity. Qed.

Lemma load_users_reads_only (w : world) :
  let w' := exec load_users w in
  users_file w' = users_file w /\ chat_data w' = chat_data w /\
  conversations w' = conversations w /\ cell_cache w' = cell_cache w /\
  outbox w' = outbox w.
Proof. cbv zeta. run_handler. destruct (users_file w) eqn:E; simpl; rewrite ?E; repeat split. Qed.

Lemma py_in_spec (x : Z) (l : list Z) : py_in x l = true <-> x ∈ l.
Proof. unfold py_in. apply bool_decide_eq_true. Qed.

Lemma py_in_spec' (x : Z) (l : list Z) : x ∉ l <-> py_in x l = false.
Proof. unfold py_in. symmetry. apply bool_decide_eq_false. Qed.

Lemma list_remove_in (x : Z) (l : list Z) : x ∈ l -> is_Some (list_remove x l).
Proof.
  induction l as [|y r IH]; intros Hin.
  - inversion Hin.
  - simpl. case_bool_decide; [eauto|].
    destruct IH as [r' Hr'].
    + apply elem_of_cons in Hin as [->|Hin]; [congruence | exact Hin].
    + rewrite Hr'. simpl. eauto.
Qed.

Lemma list_remove_some (x : Z) (l l' : list Z) : list_remove x l = Some l' -> x ∈ l.
Proof.
  revert l'. induction l as [|y r IH]; intros l' Hrm; simpl in Hrm; [discriminate|].
  case_bool_decide as Hyx.
  - subst. by apply elem_of_cons; left.
  - destruct (list_remove x r) as [r'|]; simpl in Hrm; [|discriminate].
    apply elem_of_cons; right. by eapply IH.
Qed.

Lemma list_remove_NoDup (x : Z) (l l' : list Z) :
  NoDup l -> list_remove x l = Some l' -> (x ∉ l') /\ NoDup l'.
Proof.
  revert l'. induction l as [|y r IH]; intros l' Hnd Hrm; simpl in Hrm; [discriminate|].
  apply NoDup_cons in Hnd as [Hy Hnd].
  case_bool_decide as Hyx.
  - inversion Hrm; subst. auto.
  - destruct (list_remove x r) as [r'|] eqn:Hr; simpl in Hrm; [|discriminate].
    inversion Hrm; subst. destruct (IH r' Hnd eq_refl) as [Hx Hnd'].
    assert (Hsub : forall z, z ∈ r' -> z ∈ r).
    { clear -Hr. revert r' Hr. induction r as [|a r IH]; intros r' Hr z Hz; simpl in Hr; [discriminate|].
      case_bool_decide.
      - inversion Hr; subst. by apply elem_of_cons; right.
      - destruct (list_remove x r) as [r''|]; simpl in Hr; [|discriminate].
        inversion Hr; subst. apply elem_of_cons in Hz as [->|Hz].
        + by apply elem_of_cons; left.
        + apply elem_of_cons; right. by eapply IH. }
    split.
    + intros Hin. apply elem_of_cons in Hin as [->|Hin]; [congruence | auto].
    + apply NoDup_cons. split; [|exact Hnd']. intros Hin. apply Hy, Hsub, Hin.
Qed.

(** *** Malformed input *)

Lemma handle_user_id_input_invalid (w : world) (u : update) (disk : write_outcome) :
  py_int (text u) = None ->
  handle_user_id_input disk u w =
    (Ret (match chat_data w !! chat_id u with
          | Some st => RetState st
          | None => END
          end),
     set_outbox (outbox w ++ [answer u Config.invalid_id None]) w).
Proof.
  intros Hparse. run_handler. rewrite Hparse. simpl. reflexivity.
Qed.

Lemma plain_text (u : update) :
  text u <> "" -> command u = None -> (TEXT u && negb (COMMAND u))%bool = true.
Proof.
  intros Htext Hcmd. unfold TEXT, COMMAND. rewrite Hcmd.
  destruct (String.eqb (text u) "") eqn:E.
  - apply String.eqb_eq in E. contradiction.
  - reflexivity.
Qed.

Lemma first_match_states (s : States) (u : update) :
  first_match (states s) u =
    if (TEXT u && negb (COMMAND u))%bool
    then Some (MessageHandler (fun u => TEXT u && negb (COMMAND u))%bool handle_user_id_input)
    else None.
Proof. destruct s; reflexivity. Qed.

(** C8. In a chat that awaits an identity for an add or a remove, text
    that [int] rejects is answered with the invalid-format message and
    nothing else happens: the handler returns the state the chat is in,
    the chat's stored state and the users file stay as they were.  When
    the conversation handler holds the same state for the sender, it
    still holds it after the update has been dispatched. *)
Theorem invalid_input_keeps_state (w : world) (u : update) (disk : write_outcome) (s : States) :
  chat_data w !! chat_id u = Some s ->
  py_int (text u) = None ->
  (let w' := exec (handle_user_id_input disk u) w in
   result (handle_user_id_input disk u) w = Ret (RetState s) /\
   outbox w' = outbox w ++ [answer u Config.invalid_id None] /\
   chat_data w' = chat_data w /\
   users_file w' = users_file w) /\
  (conversations w !! conv_key u = Some s -> text u <> "" -> command u = None ->
   let w' := step w (Incoming u disk) in
   conversations w' !! conv_key u = Some s /\
   chat_data w' !! chat_id u = Some s /\
   outbox w' = outbox w ++ [answer u Config.invalid_id None] /\
   users_file w' = users_file w).
Proof.
  intros Hs Hparse. split.
  - unfold exec, result. rewrite handle_user_id_input_invalid by exact Hparse.
    rewrite Hs. simpl. auto.
  - intros Hconv Htext Hcmd. simpl.
    unfold process_update. unfold_M. unfold conv_check_update. rewrite Hconv.
    rewrite first_match_states, plain_text by assumption. unfold conv_handle_update. unfold_M. simpl.
    rewrite handle_user_id_input_invalid by exact Hparse.
    rewrite Hs. simpl. rewrite lookup_insert_eq. auto.
Qed.

(** *** Processing an identity *)

Lemma process_user_id_add_new (w : world) (u : update) (disk : write_outcome) (uid : Z) :
  chat_data w !! chat_id u = Some AWAIT_USER_ID_ADD ->
  uid ∉ allowed_users (access_list (users_file w)) ->
  let data := access_list (users_file w) in
  let w' := exec (process_user_id disk u uid) w in
  result (process_user_id disk u uid) w = Ret END /\
  outbox w' = outbox w ++ [answer u (user_added uid) None] /\
  chat_data w' = delete (chat_id u) (chat_data w) /\
  users_file w' =
    saved disk {| admin_id := admin_id data; allowed_users := allowed_users data ++ [uid] |}
          (users_file w) /\
  (disk <> WriteOk -> save_error ∈ log w') /\
  conversations w' = conversations w /\ cell_cache w' = cell_cache w.
Proof.
  intros Hs Hnew. cbv zeta. apply py_in_spec' in Hnew.
  run_handler. rewrite Hs.
  by_cases_on_file w; rewrite ?Hnew; simpl; destruct disk; simpl; rewrite ?Hs; simpl;
    repeat split; try congruence; intros _; unfold save_error; set_solver.
Qed.

Lemma process_user_id_add_known (w : world) (u : update) (disk : write_outcome) (uid : Z) :
  chat_data w !! chat_id u = Some AWAIT_USER_ID_ADD ->
  uid ∈ allowed_users (access_list (users_file w)) ->
  let w' := exec (process_user_id disk u uid) w in
  result (process_user_id disk u uid) w = Ret END /\
  outbox w' = outbox w ++ [answer u user_exists None] /\
  chat_data w' = delete (chat_id u) (chat_data w) /\
  users_file w' = users_file w /\
  conversations w' = conversations w /\ cell_cache w' = cell_cache w.
Proof.
  intros Hs Hold. cbv zeta. apply py_in_spec in Hold.
  run_handler. rewrite Hs.
  by_cases_on_file w; rewrite ?Hold; simpl; rewrite ?Hs; simpl;
    repeat split; try congruence; try discriminate.
Qed.

Lemma process_user_id_remove_known (w : world) (u : update) (disk : write_outcome)
    (uid : Z) (l : list Z) :
  chat_data w !! chat_id u = Some AWAIT_USER_ID_REMOVE ->
  list_remove uid (allowed_users (access_list (users_file w))) = Some l ->
  let data := access_list (users_file w) in
  let w' := exec (process_user_id disk u uid) w in
  result (process_user_id disk u uid) w = Ret END /\
  outbox w' = outbox w ++ [answer u (user_removed uid) None] /\
  chat_data w' = delete (chat_id u) (chat_data w) /\
  users_file w' =
    saved disk {| admin_id := admin_id data; allowed_users := l |} (users_file w) /\
  (disk <> WriteOk -> save_error ∈ log w') /\
  conversations w' = conversations w /\ cell_cache w' = cell_cache w.
Proof.
  intros Hs Hrm. cbv zeta.
  assert (Hin : py_in uid (allowed_users (access_list (users_file w))) = true).
  { apply py_in_spec. eapply list_remove_some, Hrm. }
  run_handler. rewrite Hs.
  by_cases_on_file w; rewrite ?Hin; simpl; try discriminate;
    rewrite ?Hrm; simpl; destruct disk; simpl; rewrite ?Hs; simpl;
    repeat split; try congruence; intros _; unfold save_error; set_solver.
Qed.

Lemma process_user_id_remove_unknown (w : world) (u : update) (disk : write_outcome) (uid : Z) :
  chat_data w !! chat_id u = Some AWAIT_USER_ID_REMOVE ->
  uid ∉ allowed_users (access_list (users_file w)) ->
  let w' := exec (process_user_id disk u uid) w in
  result (process_user_id disk u uid) w = Ret END /\
  outbox w' = outbox w ++ [answer u user_not_found None] /\
  chat_data w' = delete (chat_id u) (chat_data w) /\
  users_file w' = users_file w /\
  conversations w' = conversations w /\ cell_cache w' = cell_cache w.
Proof.
  intros Hs Hnew. cbv zeta. apply py_in_spec' in Hnew.
  run_handler. rewrite Hs.
  by_cases_on_file w; rewrite ?Hnew; simpl; rewrite ?Hs; simpl;
    repeat split; try congruence.
Qed.

Lemma process_user_id_idle (w : world) (u : update) (disk : write_outcome) (uid : Z) :
  chat_data w !! chat_id u = None ->
  let w' := exec (process_user_id disk u uid) w in
  result (process_user_id disk u uid) w = Ret END /\
  outbox w' = outbox w ++ [answer u unknown_state None] /\
  chat_data w' = chat_data w /\
  users_file w' = users_file w /\
  conversations w' = conversations w /\ cell_cache w' = cell_cache w.
Proof.
  intros Hs. cbv zeta. run_handler. rewrite Hs.
  by_cases_on_file w; repeat split; congruence.
Qed.

(** [int] accepted the text: the handler is [process_user_id], whose
    branches raise no [ValueError] for the [except] clause to catch. *)
Lemma handle_user_id_input_valid (w : world) (u : update) (disk : write_outcome) (uid : Z) :
  py_int (text u) = Some uid ->
  handle_user_id_input disk u w = process_user_id disk u uid w.
Proof.
  intros Hparse. unfold handle_user_id_input. unfold_M. rewrite Hparse. unfold_M. simpl.
  destruct (chat_data w !! chat_id u) as [[]|] eqn:Hs.
  - destruct (decide (uid ∈ allowed_users (access_list (users_file w)))) as [Hin|Hin].
    + pose proof (process_user_id_add_known w u disk uid Hs Hin) as (Hr & _).
      unfold result in Hr. destruct (process_user_id disk u uid w) as [[]]; simpl in *; congruence.
    + pose proof (process_user_id_add_new w u disk uid Hs Hin) as (Hr & _).
      unfold result in Hr. destruct (process_user_id disk u uid w) as [[]]; simpl in *; congruence.
  - destruct (decide (uid ∈ allowed_users (access_list (users_file w)))) as [Hin|Hin].
    + destruct (list_remove_in _ _ Hin) as [l Hl].
      pose proof (process_user_id_remove_known w u disk uid l Hs Hl) as (Hr & _).
      unfold result in Hr. destruct (process_user_id disk u uid w) as [[]]; simpl in *; congruence.
    + pose proof (process_user_id_remove_unknown w u disk uid Hs Hin) as (Hr & _).
      unfold result in Hr. destruct (process_user_id disk u uid w) as [[]]; simpl in *; congruence.
  - pose proof (process_user_id_idle w u disk uid Hs) as (Hr & _).
    unfold result in Hr. destruct (process_user_id disk u uid w) as [[]]; simpl in *; congruence.
Qed.

Lemma process_user_id_idle_any_disk (w : world) (u : update) (d d' : write_outcome) (uid : Z) :
  chat_data w !! chat_id u = None ->
  process_user_id d u uid w = process_user_id d' u uid w.
Proof.
  intros Hs. run_handler. rewrite Hs. by_cases_on_file w; reflexivity.
Qed.

(** *** The triggers *)

Lemma add_user_effect (w : world) (u : update) :
  let w' := exec (add_user u) w in
  result (add_user u) w = Ret (RetState AWAIT_USER_ID_ADD) /\
  chat_data w' = <[chat_id u := AWAIT_USER_ID_ADD]> (chat_data w) /\
  users_file w' = users_file w /\
  conversations w' = conversations w /\ cell_cache w' = cell_cache w /\
  exists m, outbox w' = outbox w ++ [m].
Proof.
  cbv zeta. run_handler. by_cases_on_file w; repeat split; try congruence; eauto.
Qed.

Lemma remove_user_effect (w : world) (u : update) :
  let w' := exec (remove_user u) w in
  result (remove_user u) w = Ret (RetState AWAIT_USER_ID_REMOVE) /\
  chat_data w' = <[chat_id u := AWAIT_USER_ID_REMOVE]> (chat_data w) /\
  users_file w' = users_file w /\
  conversations w' = conversations w /\ cell_cache w' = cell_cache w /\
  exists m, outbox w' = outbox w ++ [m].
Proof.
  cbv zeta. run_handler. by_cases_on_file w; repeat split; try congruence; eauto.
Qed.

(** *** Dispatch inside a conversation *)

(** With a conversation under the sender's key, plain text goes to
    [handle_user_id_input] and what it returns becomes the state. *)
Lemma step_in_conversation (w w1 : world) (u : update) (disk : write_outcome)
    (s : States) (r : handler_ret) :
  conversations w !! conv_key u = Some s ->
  text u <> "" -> command u = None ->
  handle_user_id_input disk u w = (Ret r, w1) ->
  step w (Incoming u disk) =
    match r with
    | END => set_conversations (delete (conv_key u) (conversations w1)) w1
    | RetState s' => set_conversations (<[conv_key u := s']> (conversations w1)) w1
    | RetNone => w1
    end.
Proof.
  intros Hconv Htext Hcmd Hrun. simpl.
  unfold process_update. unfold_M. unfold conv_check_update. rewrite Hconv.
  rewrite first_match_states, plain_text by assumption.
  unfold conv_handle_update. unfold_M. simpl. rewrite Hrun.
  destruct r; reflexivity.
Qed.

(** C10. An identity that [int] accepts, arriving in a chat with no
    pending add or remove, is answered with the unknown-state message;
    the handler returns [END], so the conversation handler drops the
    sender's conversation; the users file and the chat's stored state
    are as before, whatever the disk would have done with a write. *)
Theorem input_without_pending_action (w : world) (u : update) (disk : write_outcome) (uid : Z) :
  chat_data w !! chat_id u = None ->
  py_int (text u) = Some uid ->
  (let w' := exec (handle_user_id_input disk u) w in
   result (handle_user_id_input disk u) w = Ret END /\
   outbox w' = outbox w ++ [answer u unknown_state None] /\
   users_file w' = users_file w /\
   chat_data w' = chat_data w /\
   forall disk', exec (handle_user_id_input disk' u) w = w') /\
  (text u <> "" -> command u = None -> is_Some (conversations w !! conv_key u) ->
   let w' := step w (Incoming u disk) in
   conversations w' !! conv_key u = None /\
   outbox w' = outbox w ++ [answer u unknown_state None] /\
   users_file w' = users_file w).
Proof.
  intros Hs Hparse.
  pose proof (process_user_id_idle w u disk uid Hs) as (Hr & Hout & Hchat & Hfile & _).
  unfold exec, result in *. split.
  - cbv zeta. rewrite handle_user_id_input_valid with (uid := uid) by exact Hparse.
    repeat split; try assumption.
    intros disk'. rewrite handle_user_id_input_valid with (uid := uid) by exact Hparse.
    by rewrite (process_user_id_idle_any_disk w u disk' disk).
  - intros Htext Hcmd [s Hconv]. cbv zeta.
    assert (Hrun : handle_user_id_input disk u w
                   = (Ret END, snd (process_user_id disk u uid w))).
    { rewrite handle_user_id_input_valid with (uid := uid) by exact Hparse.
      destruct (process_user_id disk u uid w); simpl in *; congruence. }
    rewrite (step_in_conversation w _ u disk s END Hconv Htext Hcmd Hrun).
    simpl. rewrite lookup_delete_eq. auto.
Qed.

(** C2, as the code has it.  When the write of the users file fails
    during an add of a new identity or a remove of a listed one, the
    failure is recorded in the log and nothing more: the reply sent is
    the success message of that action, and the file is left as it was
    ([open] failed) or unreadable (the dump failed). *)
Theorem save_failure_is_only_logged (w : world) (u : update) (disk : write_outcome) (uid : Z) :
  disk <> WriteOk ->
  py_int (text u) = Some uid ->
  let w' := exec (handle_user_id_input disk u) w in
  (chat_data w !! chat_id u = Some AWAIT_USER_ID_ADD ->
   uid ∉ allowed_users (access_list (users_file w)) ->
   outbox w' = outbox w ++ [answer u (user_added uid) None] /\
   save_error ∈ log w' /\
   (disk = OpenFails -> users_file w' = users_file w) /\
   (disk = DumpFails -> users_file w' = FileUnreadable)) /\
  (chat_data w !! chat_id u = Some AWAIT_USER_ID_REMOVE ->
   uid ∈ allowed_users (access_list (users_file w)) ->
   outbox w' = outbox w ++ [answer u (user_removed uid) None] /\
   save_error ∈ log w' /\
   (disk = OpenFails -> users_file w' = users_file w) /\
   (disk = DumpFails -> users_file w' = FileUnreadable)).
Proof.
  intros Hdisk Hparse. cbv zeta. unfold exec.
  rewrite handle_user_id_input_valid with (uid := uid) by exact Hparse.
  split.
  - intros Hs Hnew.
    pose proof (process_user_id_add_new w u disk uid Hs Hnew) as (_ & Hout & _ & Hfile & Hlog & _).
    unfold exec in *.
    split; [exact Hout|]. split; [auto|].
    rewrite Hfile. split; intros ->; reflexivity.
  - intros Hs Hin. destruct (list_remove_in _ _ Hin) as [l Hl].
    pose proof (process_user_id_remove_known w u disk uid l Hs Hl) as (_ & Hout & _ & Hfile & Hlog & _).
    unfold exec in *.
    split; [exact Hout|]. split; [auto|].
    rewrite Hfile. split; intros ->; reflexivity.
Qed.

(** C9. From any users file that does not list [n]: the add trigger and
    then text that [int] reads as [n], with the write succeeding, leave a
    users file that lists what it listed before followed by [n], answer
    that [n] was added and clear the chat's state; the same two steps
    again answer that the user exists, write nothing (whatever the disk
    would do) and clear the state again, so the list after two rounds is
    the list after one. *)
Theorem add_twice_adds_once (w : world) (u v : update) (disk : write_outcome) (n : Z) :
  chat_id v = chat_id u ->
  py_int (text v) = Some n ->
  n ∉ allowed_users (access_list (users_file w)) ->
  let data := access_list (users_file w) in
  let w1 := exec (add_user u) w in
  let once := exec (handle_user_id_input WriteOk v) w1 in
  let w3 := exec (add_user u) once in
  let twice := exec (handle_user_id_input disk v) w3 in
  (chat_data w1 !! chat_id u = Some AWAIT_USER_ID_ADD /\
   result (handle_user_id_input WriteOk v) w1 = Ret END /\
   last (outbox once) = Some (answer v (user_added n) None) /\
   users_file once = FileJson (Some (admin_id data)) (Some (allowed_users data ++ [n])) /\
   access_list (users_file once)
     = {| admin_id := admin_id data; allowed_users := allowed_users data ++ [n] |} /\
   chat_data once !! chat_id u = None) /\
  (chat_data w3 !! chat_id u = Some AWAIT_USER_ID_ADD /\
   result (handle_user_id_input disk v) w3 = Ret END /\
   last (outbox twice) = Some (answer v user_exists None) /\
   users_file twice = users_file once /\
   allowed_users (access_list (users_file twice)) = allowed_users (access_list (users_file once)) /\
   chat_data twice !! chat_id u = None).
Proof.
  intros Hchat Hparse Hnew. cbv zeta.
  pose proof (add_user_effect w u) as (_ & Hc1 & Hf1 & _ & _ & _).
  set (w1 := exec (add_user u) w) in *.
  assert (Hs1 : chat_data w1 !! chat_id v = Some AWAIT_USER_ID_ADD).
  { rewrite Hc1, Hchat. apply lookup_insert_eq. }
  assert (Hnew1 : n ∉ allowed_users (access_list (users_file w1))) by (by rewrite Hf1).
  pose proof (process_user_id_add_new w1 v WriteOk n Hs1 Hnew1) as (Hr2 & Ho2 & Hc2 & Hf2 & _).
  unfold exec, result in Hr2, Ho2, Hc2, Hf2.
  rewrite <- (handle_user_id_input_valid w1 v WriteOk n Hparse) in Hr2, Ho2, Hc2, Hf2.
  fold (exec (handle_user_id_input WriteOk v) w1) in Ho2, Hc2, Hf2.
  fold (result (handle_user_id_input WriteOk v) w1) in Hr2.
  set (once := exec (handle_user_id_input WriteOk v) w1) in *.
  simpl in Hf2. rewrite Hf1 in Hf2.
  split.
  { rewrite <- Hchat. repeat split; try assumption.
    - rewrite Ho2. apply last_snoc.
    - rewrite Hf2. reflexivity.
    - rewrite Hc2. apply lookup_delete_eq. }
  pose proof (add_user_effect once u) as (_ & Hc3 & Hf3 & _ & _ & _).
  set (w3 := exec (add_user u) once) in *.
  assert (Hs3 : chat_data w3 !! chat_id v = Some AWAIT_USER_ID_ADD).
  { rewrite Hc3, Hchat. apply lookup_insert_eq. }
  assert (Hold3 : n ∈ allowed_users (access_list (users_file w3))).
  { rewrite Hf3, Hf2. simpl. set_solver. }
  pose proof (process_user_id_add_known w3 v disk n Hs3 Hold3) as (Hr4 & Ho4 & Hc4 & Hf4 & _).
  unfold exec, result in Hr4, Ho4, Hc4, Hf4.
  rewrite <- (handle_user_id_input_valid w3 v disk n Hparse) in Hr4, Ho4, Hc4, Hf4.
  fold (exec (handle_user_id_input disk v) w3) in Ho4, Hc4, Hf4.
  fold (result (handle_user_id_input disk v) w3) in Hr4.
  rewrite <- Hchat. repeat split; try assumption.
  - rewrite Ho4. apply last_snoc.
  - by rewrite Hf4.
  - by rewrite Hf4, Hf3.
  - rewrite Hc4. apply lookup_delete_eq.
Qed.

(** *** The access check *)

Lemma check_access_result (w : world) (u : update) :
  let data := access_list (users_file w) in
  result (check_access u) w
    = Ret (bool_decide (user_id u = admin_id data) || py_in (user_id u) (allowed_users data)) /\
  users_file (exec (check_access u) w) = users_file w.
Proof.
  cbv zeta. run_handler.
  by_cases_on_file w; unfold py_in; repeat (case_bool_decide; simpl); auto.
Qed.

(** C6. The access check answers from the users file as it is at the
    call: it lets an identity in exactly when the identity is the
    administrator of the list just loaded or a member of its allowed
    users, and it changes nothing in the file.  So once a remove has
    been written, the removed identity (listed once, and not the
    administrator) is let in before the remove and refused right
    after it. *)
Theorem check_access_reads_the_store :
  (forall (w : world) (u : update),
     let data := access_list (users_file w) in
     result load_users w = Ret data /\
     (result (check_access u) w = Ret true <->
        user_id u = admin_id data \/ user_id u ∈ allowed_users data) /\
     (result (check_access u) w = Ret false <->
        ~ (user_id u = admin_id data \/ user_id u ∈ allowed_users data)) /\
     users_file (exec (check_access u) w) = users_file w) /\
  (forall (w : world) (u v : update) (uid : Z),
     let data := access_list (users_file w) in
     chat_data w !! chat_id u = Some AWAIT_USER_ID_REMOVE ->
     py_int (text u) = Some uid ->
     uid ∈ allowed_users data ->
     NoDup (allowed_users data) ->
     uid <> admin_id data ->
     user_id v = uid ->
     result (check_access v) w = Ret true /\
     result (check_access v) (exec (handle_user_id_input WriteOk u) w) = Ret false).
Proof.
  split.
  - intros w u. cbv zeta.
    destruct (check_access_result w u) as [Hr Hf]. rewrite Hr.
    split; [apply load_users_result|].
    split; [|split]; [| |exact Hf].
    + destruct (decide (user_id u = admin_id (access_list (users_file w)))) as [Ha|Ha];
        [rewrite (bool_decide_eq_true_2 _ Ha) | rewrite (bool_decide_eq_false_2 _ Ha)]; simpl.
      * intuition congruence.
      * rewrite <- py_in_spec. destruct (py_in _ _); intuition congruence.
    + destruct (decide (user_id u = admin_id (access_list (users_file w)))) as [Ha|Ha];
        [rewrite (bool_decide_eq_true_2 _ Ha) | rewrite (bool_decide_eq_false_2 _ Ha)]; simpl.
      * intuition congruence.
      * rewrite <- py_in_spec. destruct (py_in _ _); intuition congruence.
  - intros w u v uid. cbv zeta. intros Hs Hparse Hin Hnd Hadm Hv.
    destruct (check_access_result w v) as [Hr _]. rewrite Hr, Hv.
    apply py_in_spec in Hin as Hin'. rewrite Hin', orb_true_r. split; [reflexivity|].
    destruct (list_remove_in _ _ Hin) as [l Hl].
    pose proof (process_user_id_remove_known w u WriteOk uid l Hs Hl) as (_ & _ & _ & Hfile & _).
    unfold exec in Hfile |- *.
    rewrite handle_user_id_input_valid with (uid := uid) by exact Hparse.
    destruct (check_access_result (snd (process_user_id WriteOk u uid w)) v) as [Hr' _].
    rewrite Hr', Hv, Hfile. simpl.
    destruct (list_remove_NoDup _ _ _ Hnd Hl) as [Hout _].
    apply py_in_spec' in Hout. rewrite Hout.
    rewrite bool_decide_eq_false_2 by exact Hadm. reflexivity.
Qed.

(** *** Cancelling *)

(** C4, what the code does.  [cancel] clears the chat's stored state and
    then raises [NameError] while building the arguments of the reply:
    no message is sent and no [END] is returned.  Dispatched as the
    fallback of a conversation, it therefore leaves the conversation
    handler in the state it was in; the users file is untouched. *)
Theorem cancel_raises_before_replying (w : world) (u : update) :
  (let w' := exec (cancel u) w in
   result (cancel u) w = Raise (NameError "keyboard") /\
   outbox w' = outbox w /\
   users_file w' = users_file w /\
   chat_data w' !! chat_id u = None /\
   conversations w' = conversations w) /\
  (forall (s : States) (disk : write_outcome),
     conversations w !! conv_key u = Some s ->
     command u = Some "cancel" ->
     let w' := step w (Incoming u disk) in
     conversations w' !! conv_key u = Some s /\
     outbox w' = outbox w /\
     users_file w' = users_file w).
Proof.
  assert (Hcancel : result (cancel u) w = Raise (NameError "keyboard") /\
                    outbox (exec (cancel u) w) = outbox w /\
                    users_file (exec (cancel u) w) = users_file w /\
                    chat_data (exec (cancel u) w) !! chat_id u = None /\
                    conversations (exec (cancel u) w) = conversations w).
  { run_handler. destruct (chat_data w !! chat_id u) eqn:Hs; simpl; rewrite ?Hs; simpl.
    - repeat split; try apply lookup_delete_eq.
    - repeat split; try exact Hs. }
  split; [exact Hcancel|].
  intros s disk Hconv Hcmd. simpl.
  unfold process_update. unfold_M. unfold conv_check_update. rewrite Hconv.
  rewrite first_match_states.
  assert (Hc : COMMAND u = true).
  { unfold COMMAND. rewrite Hcmd. apply bool_decide_eq_true. eauto. }
  rewrite Hc, andb_false_r.
  unfold first_match, fallbacks, CommandHandler. simpl.
  rewrite bool_decide_eq_true_2 by (rewrite Hcmd; reflexivity).
  unfold conv_handle_update. unfold_M. simpl.
  destruct Hcancel as (Hr & Ho & Hf & _ & Hcv).
  unfold exec, result in Hr, Ho, Hf, Hcv.
  destruct (cancel u w) as [r w1]. simpl in *. subst r. simpl.
  rewrite Hcv, Ho, Hf. auto.
Qed.

(** *** The value cache: one refresh *)

Lemma update_key_eq (g : gsheets) (key : string) (w : world) :
  update_key g key w =
    match cell_cache w !! key with
    | None => (Raise (KeyError key), w)
    | Some e =>
        match pos e, sheet e with
        | Some (r, c), Some sh =>
            match cell g sh r c with
            | Some v => (Ret (), set_cell_cache (<[key := set_value v e]> (cell_cache w)) w)
            | None => (Raise APIError, w)
            end
        | _, _ => (Ret (), w)
        end
    end.
Proof.
  unfold update_key, cache_get, cache_put. unfold_M.
  destruct (cell_cache w !! key) as [e|] eqn:E; simpl; [|reflexivity].
  destruct (pos e) as [[r c]|]; [|reflexivity].
  destruct (sheet e) as [sh|]; [|reflexivity].
  destruct (cell g sh r c); simpl; rewrite ?E; reflexivity.
Qed.

Lemma refreshes_refl (g : gsheets) (w : world) : refreshes g w w.
Proof. unfold refreshes. repeat split. intros key. by left. Qed.

Lemma refreshes_trans (g : gsheets) (w1 w2 w3 : world) :
  refreshes g w1 w2 -> refreshes g w2 w3 -> refreshes g w1 w3.
Proof.
  intros (Hf & Hc & Hv & Ho & H12) (Hf' & Hc' & Hv' & Ho' & H23).
  unfold refreshes. repeat split; try congruence.
  intros key. destruct (H23 key) as [Heq|(e & sh & r & c & v & He & Hsh & Hpos & Hv2 & He')].
  - rewrite Heq. apply H12.
  - destruct (H12 key) as [Heq|(e0 & sh0 & r0 & c0 & v0 & He0 & Hsh0 & Hpos0 & Hv0 & He0')].
    + right. exists e, sh, r, c, v. rewrite <- Heq. auto.
    + right. exists e0, sh0, r0, c0, v0. repeat split; try assumption.
      rewrite He0' in He. inversion He; subst e. simpl in *.
      rewrite Hsh0 in Hsh. rewrite Hpos0 in Hpos. inversion Hsh; inversion Hpos; subst.
      rewrite Hv0 in Hv2. inversion Hv2; subst. exact He'.
Qed.

Lemma update_key_refreshes (g : gsheets) (key : string) (w : world) :
  refreshes g w (exec (update_key g key) w).
Proof.
  unfold exec. rewrite update_key_eq.
  destruct (cell_cache w !! key) as [e|] eqn:E; [|apply refreshes_refl].
  destruct (pos e) as [[r c]|] eqn:Hpos; [|apply refreshes_refl].
  destruct (sheet e) as [sh|] eqn:Hsh; [|apply refreshes_refl].
  destruct (cell g sh r c) as [v|] eqn:Hv; [|apply refreshes_refl].
  unfold refreshes. simpl. repeat split.
  intros k. destruct (decide (key = k)) as [->|Hne].
  - right. exists e, sh, r, c, v. rewrite lookup_insert_eq. auto.
  - left. by rewrite lookup_insert_ne.
Qed.

Lemma for_each_update_refreshes (g : gsheets) (ks : list string) (w : world) :
  refreshes g w (exec (for_each ks (update_key g)) w).
Proof.
  revert w. induction ks as [|k ks IH]; intros w; [apply refreshes_refl|].
  pose proof (update_key_refreshes g k w) as Hk.
  unfold exec in *. simpl. unfold_M.
  destruct (update_key g k w) as [[[]|e] w1]; simpl in *.
  - eapply refreshes_trans; [exact Hk | apply IH].
  - exact Hk.
Qed.

Lemma update_cache_refreshes (g : gsheets) (w : world) :
  refreshes g w (exec (update_cache g) w).
Proof.
  pose proof (for_each_update_refreshes g (map fst Config.SHEET_CONFIG) w) as Hloop.
  unfold update_cache, exec in *. unfold_M.
  destruct (for_each _ _ w) as [[[]|e] w1]; simpl in *; [exact Hloop|].
  destruct Hloop as (? & ? & ? & ? & ?). unfold refreshes. simpl. auto.
Qed.

Lemma refreshes_location (g : gsheets) (w w' : world) (key : string) :
  refreshes g w w' ->
  location <$> cell_cache w' !! key = location <$> cell_cache w !! key.
Proof.
  intros (_ & _ & _ & _ & H). destruct (H key) as [->|(e & sh & r & c & v & He & _ & _ & _ & He')].
  - reflexivity.
  - rewrite He, He'. reflexivity.
Qed.

(** A failed read at a key's location leaves the key's entry alone. *)
Lemma refreshes_failed_read (g : gsheets) (w w' : world) (key : string)
    (e : cache_entry) (sh : string) (r c : Z) :
  refreshes g w w' ->
  cell_cache w !! key = Some e -> sheet e = Some sh -> pos e = Some (r, c) ->
  cell g sh r c = None ->
  cell_cache w' !! key = Some e.
Proof.
  intros (_ & _ & _ & _ & H) He Hsh Hpos Hv.
  destruct (H key) as [->|(e0 & sh0 & r0 & c0 & v & He0 & Hsh0 & Hpos0 & Hv0 & _)]; [exact He|].
  rewrite He in He0. inversion He0; subst e0.
  rewrite Hsh in Hsh0. rewrite Hpos in Hpos0. inversion Hsh0; inversion Hpos0; subst.
  congruence.
Qed.

(** An entry that already holds what [g] reads stays as it is. *)
Lemma refreshes_fixed (g : gsheets) (w w' : world) (key : string)
    (e : cache_entry) (sh : string) (r c : Z) (v : pyval) :
  refreshes g w w' ->
  cell_cache w !! key = Some (set_value v e) -> sheet e = Some sh -> pos e = Some (r, c) ->
  cell g sh r c = Some v ->
  cell_cache w' !! key = Some (set_value v e).
Proof.
  intros (_ & _ & _ & _ & H) He Hsh Hpos Hv.
  destruct (H key) as [->|(e0 & sh0 & r0 & c0 & v0 & He0 & Hsh0 & Hpos0 & Hv0 & He')]; [exact He|].
  rewrite He in He0. inversion He0; subst e0. simpl in *.
  rewrite Hsh in Hsh0. rewrite Hpos in Hpos0. inversion Hsh0; inversion Hpos0; subst.
  rewrite Hv in Hv0. inversion Hv0; subst. exact He'.
Qed.

Lemma update_key_other (g : gsheets) (key k : string) (w : world) :
  key <> k -> cell_cache (exec (update_key g key) w) !! k = cell_cache w !! k.
Proof.
  intros Hne. unfold exec. rewrite update_key_eq.
  destruct (cell_cache w !! key) as [e|]; [|reflexivity].
  destruct (pos e) as [[r c]|]; [|reflexivity].
  destruct (sheet e) as [sh|]; [|reflexivity].
  destruct (cell g sh r c); simpl; [|reflexivity].
  by rewrite lookup_insert_ne.
Qed.

Lemma reads_ok_refreshes (g : gsheets) (w w' : world) :
  refreshes g w w' -> reads_ok g w -> reads_ok g w'.
Proof.
  intros (_ & _ & _ & _ & H) Hok key e sh r c He Hsh Hpos.
  destruct (H key) as [Heq|(e0 & sh0 & r0 & c0 & v & He0 & Hsh0 & Hpos0 & Hv0 & He')].
  - rewrite Heq in He. eapply Hok; eauto.
  - rewrite He' in He. inversion He; subst e. simpl in *. eapply Hok; eauto.
Qed.

(** When every key has its entry and no read fails, the loop of
    [update_cache] completes and each resolved key it visits holds
    what was read at its location. *)
Lemma for_each_update_success (g : gsheets) (ks : list string) (w : world) :
  (forall k, k ∈ ks -> is_Some (cell_cache w !! k)) ->
  reads_ok g w ->
  result (for_each ks (update_key g)) w = Ret () /\
  forall k e sh r c v,
    k ∈ ks -> cell_cache w !! k = Some e -> sheet e = Some sh -> pos e = Some (r, c) ->
    cell g sh r c = Some v ->
    cell_cache (exec (for_each ks (update_key g)) w) !! k = Some (set_value v e).
Proof.
  revert w. induction ks as [|k0 ks IH]; intros w Hkeys Hok.
  { split; [reflexivity|]. intros k e sh r c v Hin. inversion Hin. }
  pose proof (update_key_refreshes g k0 w) as Hstep.
  pose proof (for_each_update_refreshes g ks (exec (update_key g k0) w)) as Hrest.
  assert (Hhead : result (update_key g k0) w = Ret ()).
  { unfold result. rewrite update_key_eq.
    destruct (Hkeys k0) as [e0 He0]; [by left|]. rewrite He0.
    destruct (pos e0) as [[r c]|] eqn:Hpos; [|reflexivity].
    destruct (sheet e0) as [sh|] eqn:Hsh; [|reflexivity].
    destruct (Hok k0 e0 sh r c He0 Hsh Hpos) as [v Hv]. rewrite Hv. reflexivity. }
  assert (Hkeys1 : forall k, k ∈ ks -> is_Some (cell_cache (exec (update_key g k0) w) !! k)).
  { intros k Hk. destruct (Hkeys k) as [e He]; [by right|].
    pose proof (refreshes_location g w _ k Hstep) as Hloc. rewrite He in Hloc.
    destruct (cell_cache (exec (update_key g k0) w) !! k); [eauto | discriminate]. }
  pose proof (reads_ok_refreshes g w _ Hstep Hok) as Hok1.
  destruct (IH _ Hkeys1 Hok1) as [Hr1 Hv1].
  assert (Hunfold : for_each (k0 :: ks) (update_key g) w
                    = for_each ks (update_key g) (exec (update_key g k0) w)).
  { unfold exec, result in *. simpl. unfold_M.
    destruct (update_key g k0 w) as [[[]|] w1]; simpl in *; [reflexivity | discriminate]. }
  unfold exec, result in *. rewrite Hunfold. split; [exact Hr1|].
  intros k e sh r c v Hin He Hsh Hpos Hv.
  destruct (decide (k = k0)) as [->|Hne].
  - eapply refreshes_fixed; [exact Hrest | | exact Hsh | exact Hpos | exact Hv].
    unfold exec. rewrite update_key_eq, He, Hpos, Hsh, Hv. simpl.
    apply lookup_insert_eq.
  - apply elem_of_cons in Hin as [?|Hin]; [contradiction|].
    eapply Hv1; eauto.
    pose proof (update_key_other g k0 k w) as Hother. unfold exec in Hother.
    rewrite Hother by congruence. exact He.
Qed.

(** *** What the message handlers leave alone *)

Section Keeps.
Context {B : Type} (proj : world -> B).

Lemma keeps_ret {A} (a : A) : keeps proj (mret a).
Proof. intros w. reflexivity. Qed.

Lemma keeps_throw {A} (e : exn) : keeps proj (mthrow e : M A).
Proof. intros w. reflexivity. Qed.

Lemma keeps_get_world : keeps proj get_world.
Proof. intros w. reflexivity. Qed.

Lemma keeps_bind {A C} (m : M A) (f : A -> M C) :
  keeps proj m -> (forall a, keeps proj (f a)) -> keeps proj (m ≫= f).
Proof.
  intros Hm Hf w. specialize (Hm w). unfold exec in *. unfold_M.
  destruct (m w) as [[a|e] w1]; simpl in *; [|exact Hm].
  rewrite <- Hm. apply Hf.
Qed.

Lemma keeps_try_except {A} (m : M A) (caught : exn -> bool) (h : exn -> M A) :
  keeps proj m -> (forall e, keeps proj (h e)) -> keeps proj (try_except m caught h).
Proof.
  intros Hm Hh w. specialize (Hm w). unfold exec in *. unfold_M.
  destruct (m w) as [[a|e] w1]; simpl in *; [exact Hm|].
  destruct (caught e); simpl; [|exact Hm].
  rewrite <- Hm. apply Hh.
Qed.

Lemma keeps_modify (f : world -> world) :
  (forall w, proj (f w) = proj w) -> keeps proj (modify f).
Proof. intros Hf w. apply Hf. Qed.

Lemma keeps_lift_opt {A} (o : option A) (e : exn) : keeps proj (lift_opt o e).
Proof. destruct o; intros w; reflexivity. Qed.
End Keeps.

Ltac keeps_step :=
  match goal with
  | |- keeps _ (mbind _ _) => apply keeps_bind; [|intros ?]
  | |- keeps _ (mret _) => apply keeps_ret
  | |- keeps _ (mthrow _) => apply keeps_throw
  | |- keeps _ get_world => apply keeps_get_world
  | |- keeps _ (lift_opt _ _) => apply keeps_lift_opt
  | |- keeps _ (try_except _ _ _) => apply keeps_try_except; [|intros ?]
  | |- keeps _ (modify _) => apply keeps_modify; intros ?; reflexivity
  | |- keeps _ (if ?b then _ else _) => destruct b
  | |- keeps _ (match ?x with _ => _ end) => destruct x
  end.

Ltac keeps_cache :=
  repeat first
    [ keeps_step
    | progress unfold process_user_id, handle_user_id_input, cancel, add_user, remove_user,
        start, check_access, create_keyboard, load_users, save_users, result_line,
        cache_get, del_state, get_state, set_state, reply_text, logging ].

Lemma map_M_keeps {B A C} (proj : world -> B) (f : A -> M C) (xs : list A) :
  (forall x, keeps proj (f x)) -> keeps proj (map_M f xs).
Proof.
  intros Hf. induction xs as [|x xs IH]; simpl.
  - apply keeps_ret.
  - apply keeps_bind; [apply Hf|]. intros y.
    apply keeps_bind; [exact IH|]. intros ys. apply keeps_ret.
Qed.

Lemma get_result_keeps_cache (u : update) : keeps cell_cache (get_result u).
Proof.
  unfold get_result. apply keeps_bind; [keeps_cache|]. intros ok.
  destruct (negb ok); [apply keeps_ret|].
  apply keeps_try_except; [|intros e; keeps_cache].
  apply keeps_bind; [keeps_cache|]. intros kb.
  apply keeps_bind; [apply map_M_keeps; intros kc; keeps_cache|].
  intros lines. keeps_cache.
Qed.

Lemma callbacks_keep_cache (disk : write_outcome) (u : update) :
  keeps cell_cache (add_user u) /\ keeps cell_cache (remove_user u) /\
  keeps cell_cache (handle_user_id_input disk u) /\ keeps cell_cache (cancel u) /\
  keeps cell_cache (start u) /\ keeps cell_cache (handle_buttons u).
Proof.
  repeat apply conj; try (keeps_cache; fail).
  unfold handle_buttons. apply keeps_bind; [keeps_cache|]. intros data.
  repeat match goal with
         | |- keeps _ (if ?b then _ else _) => destruct b
         end; try apply get_result_keeps_cache; keeps_cache.
Qed.

Lemma process_update_keeps_cache (disk : write_outcome) (u : update) :
  keeps cell_cache (process_update disk u).
Proof.
  destruct (callbacks_keep_cache disk u) as (Hadd & Hrm & Hin & Hcancel & Hstart & Hbtn).
  pose proof (get_result_keeps_cache u) as Hget.
  assert (Hconv : forall h, h ∈ entry_points ++ states AWAIT_USER_ID_ADD
                              ++ states AWAIT_USER_ID_REMOVE ++ fallbacks ++ plain_handlers ->
                       keeps cell_cache (callback h disk u)).
  { intros h Hh. unfold entry_points, states, fallbacks, plain_handlers in Hh. simpl in Hh.
    repeat (apply elem_of_cons in Hh as [->|Hh]; [simpl; assumption|]).
    inversion Hh. }
  assert (Hfind : forall hs h, first_match hs u = Some h -> h ∈ hs).
  { intros hs h Hf. unfold first_match in Hf. apply find_some in Hf as [Hf _].
    by apply list_elem_of_In. }
  unfold process_update. apply keeps_bind; [apply keeps_get_world|]. intros w.
  apply keeps_try_except; [|intros e; keeps_cache].
  unfold conv_check_update.
  destruct (conversations w !! conv_key u) as [s|].
  - destruct (first_match (states s) u) as [h|] eqn:Hh.
    + unfold conv_handle_update. apply keeps_bind.
      * apply Hconv. apply Hfind in Hh. rewrite !elem_of_app. destruct s; auto.
      * intros r. destruct r; keeps_cache.
    + destruct (first_match fallbacks u) as [h|] eqn:Hf.
      * unfold conv_handle_update. apply keeps_bind.
        -- apply Hconv. apply Hfind in Hf. rewrite !elem_of_app. auto.
        -- intros r. destruct r; keeps_cache.
      * destruct (first_match plain_handlers u) as [h|] eqn:Hp; [|apply keeps_ret].
        apply keeps_bind; [|intros ?; apply keeps_ret].
        apply Hconv. apply Hfind in Hp. rewrite !elem_of_app. auto 6.
  - destruct (first_match entry_points u) as [h|] eqn:Hh.
    + unfold conv_handle_update. apply keeps_bind.
      * apply Hconv. apply Hfind in Hh. rewrite !elem_of_app. auto.
      * intros r. destruct r; keeps_cache.
    + destruct (first_match plain_handlers u) as [h|] eqn:Hp; [|apply keeps_ret].
      apply keeps_bind; [|intros ?; apply keeps_ret].
      apply Hconv. apply Hfind in Hp. rewrite !elem_of_app. auto 6.
Qed.

(** *** The value cache: start-up and the life of the process *)

Lemma for_each_cons_ok {A} (x : A) (xs : list A) (body : A -> M unit) (w : world) :
  result (body x) w = Ret () ->
  for_each (x :: xs) body w = for_each xs body (exec (body x) w).
Proof.
  unfold exec, result. simpl. unfold mbind, M_bind.
  destruct (body x w) as [[[]|] w1]; simpl; intros; [reflexivity | discriminate].
Qed.

Lemma for_each_cons_cases {A} (x : A) (xs : list A) (body : A -> M unit) (w : world) :
  (result (body x) w = Ret () /\
   for_each (x :: xs) body w = for_each xs body (exec (body x) w)) \/
  (exists e, result (body x) w = Raise e /\
             for_each (x :: xs) body w = (Raise e, exec (body x) w)).
Proof.
  unfold exec, result. simpl. unfold mbind, M_bind.
  destruct (body x w) as [[[]|e] w1]; simpl; [left | right]; eauto.
Qed.

(** One key at start-up: where the library has [CellNotFound] the body
    of the loop always completes; and whatever the library, it leaves
    the cache as it was or sets the key from calls that all succeeded. *)
Lemma init_key_effect (g : gsheets) (key : string) (cfg : Config.sheet_config) (w : world) :
  let w' := exec (init_key g (key, cfg)) w in
  (has_CellNotFound g = true -> result (init_key g (key, cfg)) w = Ret ()) /\
  (cell_cache w' = cell_cache w \/
   exists sh r c v,
     worksheet g (Config.sheet_name cfg) = Some sh /\
     find g sh (Config.search_phrase cfg) = Found r c /\
     cell g sh r (c + 1)%Z = Some v /\
     cell_cache w' = <[key := {| sheet := Some sh; pos := Some (r, (c + 1)%Z); value := v |}]>
                       (cell_cache w)).
Proof.
  cbv zeta. unfold init_key, cache_get, cache_put. unfold_M. simpl.
  destruct (has_CellNotFound g) eqn:Hname;
    destruct (worksheet g (Config.sheet_name cfg)) as [sh|] eqn:Hsh; simpl;
    try (split; [intros; reflexivity || discriminate | by left]).
  - destruct (find g sh (Config.search_phrase cfg)) as [r c| | |] eqn:Hfind; simpl;
      destruct (cell_cache w !! key) as [e|] eqn:He; simpl;
      try (split; [intros; reflexivity | by left]).
    destruct (cell g sh r (c + 1)%Z) as [v|] eqn:Hv; simpl;
      [|split; [intros; reflexivity | by left]].
    split; [reflexivity|]. right. exists sh, r, c, v. auto.
  - destruct (find g sh (Config.search_phrase cfg)) as [r c| | |] eqn:Hfind; simpl;
      destruct (cell_cache w !! key) as [e|] eqn:He; simpl;
      try (split; [discriminate | by left]).
    destruct (cell g sh r (c + 1)%Z) as [v|] eqn:Hv; simpl;
      [|split; [discriminate | by left]].
    split; [discriminate|]. right. exists sh, r, c, v. auto.
Qed.

Lemma init_loop_effect (g : gsheets) (kcs : list (string * Config.sheet_config)) (w : world)
    (key : string) :
  let w' := exec (for_each kcs (init_key g)) w in
  cell_cache w' !! key = cell_cache w !! key \/
  exists cfg sh r c v,
    (key, cfg) ∈ kcs /\
    worksheet g (Config.sheet_name cfg) = Some sh /\
    find g sh (Config.search_phrase cfg) = Found r c /\
    cell g sh r (c + 1)%Z = Some v /\
    cell_cache w' !! key
      = Some {| sheet := Some sh; pos := Some (r, (c + 1)%Z); value := v |}.
Proof.
  cbv zeta. revert w. induction kcs as [|[k0 cfg0] kcs IH]; intros w; [by left|].
  destruct (init_key_effect g k0 cfg0 w) as [_ Hc].
  assert (Hhead : cell_cache (exec (init_key g (k0, cfg0)) w) !! key = cell_cache w !! key \/
                  exists sh r c v,
                    worksheet g (Config.sheet_name cfg0) = Some sh /\
                    find g sh (Config.search_phrase cfg0) = Found r c /\
                    cell g sh r (c + 1)%Z = Some v /\ k0 = key /\
                    cell_cache (exec (init_key g (k0, cfg0)) w) !! key
                      = Some {| sheet := Some sh; pos := Some (r, (c + 1)%Z); value := v |}).
  { destruct Hc as [->|(sh & r & c & v & Hsh & Hfind & Hv & ->)]; [by left|].
    destruct (decide (k0 = key)) as [->|Hne].
    - right. exists sh, r, c, v. rewrite lookup_insert_eq. auto.
    - left. by rewrite lookup_insert_ne. }
  destruct (for_each_cons_cases (k0, cfg0) kcs (init_key g) w)
    as [[_ Hunfold]|(e & _ & Hunfold)]; unfold exec in *; rewrite Hunfold.
  - destruct (IH (snd (init_key g (k0, cfg0) w)))
      as [Heq|(cfg & sh & r & c & v & Hin & Hsh & Hfind & Hv & He)].
    + rewrite Heq. destruct Hhead as [->|(sh & r & c & v & Hsh & Hfind & Hv & -> & ->)];
        [by left|].
      right. exists cfg0, sh, r, c, v. repeat split; try assumption. by left.
    + right. exists cfg, sh, r, c, v. repeat split; try assumption. by right.
  - cbn [snd]. destruct Hhead as [->|(sh & r & c & v & Hsh & Hfind & Hv & -> & ->)]; [by left|].
    right. exists cfg0, sh, r, c, v. repeat split; try assumption. by left.
Qed.

Lemma boot_entry (f : file_state) (g : gsheets) (key : string) :
  cell_cache (boot f g) !! key = cell_cache (fresh f) !! key \/
  exists cfg sh r c v,
    (key, cfg) ∈ Config.SHEET_CONFIG /\
    worksheet g (Config.sheet_name cfg) = Some sh /\
    find g sh (Config.search_phrase cfg) = Found r c /\
    cell g sh r (c + 1)%Z = Some v /\
    cell_cache (boot f g) !! key
      = Some {| sheet := Some sh; pos := Some (r, (c + 1)%Z); value := v |}.
Proof.
  pose proof (init_loop_effect g Config.SHEET_CONFIG (fresh f) key) as Hloop.
  cbv zeta in Hloop.
  unfold boot, init_cache, initialize_google_sheets, exec in *.
  remember (for_each Config.SHEET_CONFIG (init_key g)) as loop eqn:Hl. clear Hl.
  remember (fresh f) as w0 eqn:Hw. clear Hw.
  unfold_M.
  destruct (open_by_key g); simpl in *; [|by left].
  destruct (loop w0) as [[[]|e] w1]; simpl in *; exact Hloop.
Qed.

Lemma fresh_unset (f : file_state) (key : string) (e : cache_entry) :
  cell_cache (fresh f) !! key = Some e -> location e = (None, None) /\ value e = PyNone.
Proof.
  simpl. unfold cell_cache_init. intros He.
  apply elem_of_list_to_map_2 in He. simpl in He.
  repeat (apply elem_of_cons in He as [He|He]; [inversion He; subst; auto|]).
  inversion He.
Qed.

Lemma fresh_cache_wf (f : file_state) (key : string) :
  key ∈ map fst Config.SHEET_CONFIG -> is_Some (cell_cache (fresh f) !! key).
Proof.
  simpl. intros Hin.
  repeat (apply elem_of_cons in Hin as [->|Hin]; [vm_compute; eauto|]).
  inversion Hin.
Qed.

Lemma step_location (w : world) (e : event) (key : string) :
  location <$> cell_cache (step w e) !! key = location <$> cell_cache w !! key.
Proof.
  destruct e as [u disk|g]; simpl.
  - by rewrite (process_update_keeps_cache disk u w).
  - apply (refreshes_location g), update_cache_refreshes.
Qed.

Lemma run_location (w : world) (trace : list event) (key : string) :
  location <$> cell_cache (run w trace) !! key = location <$> cell_cache w !! key.
Proof.
  revert w. induction trace as [|e trace IH]; intros w; [reflexivity|].
  unfold run in *. simpl. rewrite IH. apply step_location.
Qed.

Lemma reachable_cache_wf (f : file_state) (g0 : gsheets) (trace : list event) :
  cache_wf (run (boot f g0) trace).
Proof.
  intros key Hkey. pose proof (run_location (boot f g0) trace key) as Hloc.
  assert (Hboot : is_Some (cell_cache (boot f g0) !! key)).
  { destruct (boot_entry f g0 key) as [->|(? & ? & ? & ? & ? & _ & _ & _ & _ & ->)]; [|eauto].
    by apply fresh_cache_wf. }
  destruct Hboot as [e He]. rewrite He in Hloc.
  destruct (cell_cache (run (boot f g0) trace) !! key); [eauto|discriminate].
Qed.

(** C7. A cache entry starts with no location.  [init_cache], run once
    at start-up, either leaves an entry as created or sets it from a
    resolution in which every call succeeded.  From then on the
    location of every key is what start-up made it, whatever messages
    arrive and however often the job queue runs [update_cache]; one
    run of [update_cache], from any cache, leaves every location as it
    finds it. *)
Theorem location_is_set_once :
  (forall (f : file_state) (key : string) (e : cache_entry),
     cell_cache (fresh f) !! key = Some e -> location e = (None, None)) /\
  (forall (f : file_state) (g0 : gsheets) (key : string),
     cell_cache (boot f g0) !! key = cell_cache (fresh f) !! key \/
     exists cfg sh r c v,
       (key, cfg) ∈ Config.SHEET_CONFIG /\
       worksheet g0 (Config.sheet_name cfg) = Some sh /\
       find g0 sh (Config.search_phrase cfg) = Found r c /\
       cell g0 sh r (c + 1)%Z = Some v /\
       cell_cache (boot f g0) !! key
         = Some {| sheet := Some sh; pos := Some (r, (c + 1)%Z); value := v |}) /\
  (forall (f : file_state) (g0 : gsheets) (trace : list event) (key : string),
     location <$> cell_cache (run (boot f g0) trace) !! key
     = location <$> cell_cache (boot f g0) !! key) /\
  (forall (g : gsheets) (w : world) (key : string),
     location <$> cell_cache (exec (update_cache g) w) !! key
     = location <$> cell_cache w !! key).
Proof.
  split; [|split; [|split]].
  - intros f key e He. by destruct (fresh_unset f key e He).
  - apply boot_entry.
  - intros f g0 trace key. apply run_location.
  - intros g w key. apply (refreshes_location g), update_cache_refreshes.
Qed.

(** C3, what the code does.  The [try] of [update_cache] is around the
    whole loop: when the read for the first key, [income], fails, the
    loop is left, the error is logged and the cache is exactly as it
    was, so no other key is refreshed in that cycle, resolved or not. *)
Theorem refresh_stops_at_first_failure (g : gsheets) (w : world)
    (e : cache_entry) (sh : string) (r c : Z) :
  cell_cache w !! "income" = Some e ->
  sheet e = Some sh -> pos e = Some (r, c) ->
  cell g sh r c = None ->
  cell_cache (exec (update_cache g) w) = cell_cache w /\
  log (exec (update_cache g) w) = log w ++ [refresh_error].
Proof.
  intros He Hsh Hpos Hv.
  unfold update_cache, exec. unfold_M. simpl for_each. unfold_M.
  rewrite update_key_eq, He, Hpos, Hsh, Hv. simpl. auto.
Qed.

Lemma result_line_eq (kc : string * Config.sheet_config) (w : world) :
  result (result_line kc) w =
    match cell_cache w !! kc.1 with
    | Some e => Ret (Config.response_template (Config.title kc.2)
                       (py_or (value e) Config.na_value))
    | None => Raise (KeyError kc.1)
    end.
Proof.
  unfold result_line, cache_get, result. unfold_M.
  destruct (cell_cache w !! kc.1); reflexivity.
Qed.

Lemma result_line_run (kc : string * Config.sheet_config) (w : world) :
  result_line kc w = (result (result_line kc) w, w).
Proof.
  unfold result_line, cache_get, result. unfold_M.
  destruct (cell_cache w !! kc.1); reflexivity.
Qed.

Lemma lines_run (kcs : list (string * Config.sheet_config)) (w : world) :
  map_M result_line kcs w = (result (map_M result_line kcs) w, w).
Proof.
  induction kcs as [|kc kcs IH]; [reflexivity|].
  unfold result in *. simpl. unfold mbind, M_bind.
  rewrite result_line_run. destruct (result (result_line kc) w); [|reflexivity].
  rewrite IH. destruct (map_M result_line kcs w).1; reflexivity.
Qed.

Lemma lines_read_the_cache (kcs : list (string * Config.sheet_config)) (w1 w2 : world) :
  cell_cache w1 = cell_cache w2 ->
  result (map_M result_line kcs) w1 = result (map_M result_line kcs) w2.
Proof.
  intros Hc. induction kcs as [|kc kcs IH]; [reflexivity|].
  unfold result in *. simpl. unfold mbind, M_bind.
  rewrite !result_line_run, !result_line_eq, Hc.
  destruct (cell_cache w2 !! kc.1); [|reflexivity].
  rewrite !lines_run. unfold result. rewrite IH.
  destruct (map_M result_line kcs w2).1; reflexivity.
Qed.

(** What [get_result] sends to a caller the access check lets in: the
    lines of the keys of [SHEET_CONFIG], in order, one per line. *)
Lemma get_result_reply (w : world) (u : update) (lines : list string) :
  result (check_access u) w = Ret true ->
  result (map_M result_line Config.SHEET_CONFIG) w = Ret lines ->
  exists keyboard,
    outbox (exec (get_result u) w) = outbox w ++ [answer u (join nl lines) (Some keyboard)].
Proof.
  intros Hacc Hlines.
  assert (Hk1 : keeps cell_cache (check_access u)) by keeps_cache.
  pose proof (Hk1 w) as Hc1. clear Hk1.
  assert (Ho1 : outbox (exec (check_access u) w) = outbox w).
  { revert Hacc. run_handler. by_cases_on_file w; repeat (case_bool_decide; simpl);
      unfold py_in; repeat (case_bool_decide; simpl); congruence. }
  unfold get_result, exec, result in *. unfold mbind at 1, M_bind at 1.
  destruct (check_access u w) as [r w1]. simpl in Hacc, Hc1, Ho1. subst r.
  change (negb true) with false. cbv iota.
  unfold try_except, mbind, M_bind.
  assert (Hkb : exists kb, create_keyboard (user_id u) w1 = (Ret kb, (create_keyboard (user_id u) w1).2)
                           /\ cell_cache (create_keyboard (user_id u) w1).2 = cell_cache w1
                           /\ outbox (create_keyboard (user_id u) w1).2 = outbox w1).
  { run_handler. by_cases_on_file w1; eexists; repeat split. }
  destruct Hkb as (kb & Hkb & Hc2 & Ho2).
  destruct (create_keyboard (user_id u) w1) as [r2 w2]. simpl in Hc2, Ho2. inversion Hkb; subst r2.
  exists kb. rewrite lines_run.
  rewrite (lines_read_the_cache Config.SHEET_CONFIG w2 w) by congruence.
  unfold result. rewrite Hlines. simpl. congruence.
Qed.

(** C5, as the code has it.  In any state the process can reach, take
    a key with a location.  If no read fails in a run of
    [update_cache] and the read at the key's location gives [v], the
    key's line of the answer is the template filled with [v], or with
    the placeholder when [v] is [None] or the empty string; so a
    non-empty string is reported exactly.  If the read at the key's
    location fails, the key's line is what it was before the run. *)
Theorem refresh_then_get (f : file_state) (g0 : gsheets) (trace : list event)
    (g : gsheets) (key : string) (cfg : Config.sheet_config)
    (e : cache_entry) (sh : string) (r c : Z) :
  let w := run (boot f g0) trace in
  let w' := exec (update_cache g) w in
  (key, cfg) ∈ Config.SHEET_CONFIG ->
  cell_cache w !! key = Some e ->
  sheet e = Some sh -> pos e = Some (r, c) ->
  (forall v, reads_ok g w -> cell g sh r c = Some v ->
     result (result_line (key, cfg)) w'
       = Ret (Config.response_template (Config.title cfg) (py_or v Config.na_value)) /\
     forall s, v = PyStr s -> s <> "" ->
       result (result_line (key, cfg)) w'
         = Ret (Config.response_template (Config.title cfg) s)) /\
  (cell g sh r c = None ->
   result (result_line (key, cfg)) w' = result (result_line (key, cfg)) w).
Proof.
  cbv zeta. intros Hcfg He Hsh Hpos.
  set (w := run (boot f g0) trace) in *.
  split.
  - intros v Hok Hv.
    assert (Hline : result (result_line (key, cfg)) (exec (update_cache g) w)
                    = Ret (Config.response_template (Config.title cfg)
                             (py_or v Config.na_value))).
    { destruct (for_each_update_success g (map fst Config.SHEET_CONFIG) w) as [Hr Hval].
      - apply reachable_cache_wf.
      - exact Hok.
      - assert (Hkey : key ∈ map fst Config.SHEET_CONFIG).
        { apply list_elem_of_fmap. exists (key, cfg). auto. }
        specialize (Hval key e sh r c v Hkey He Hsh Hpos Hv).
        rewrite result_line_eq. simpl.
        unfold update_cache, exec, result in *. unfold_M.
        destruct (for_each _ _ w) as [[[]|] w1]; simpl in *; [|discriminate].
        rewrite Hval. reflexivity. }
    split; [exact Hline|].
    intros s -> Hs. rewrite Hline. simpl.
    destruct (String.eqb s "") eqn:E; [apply String.eqb_eq in E; contradiction|reflexivity].
  - intros Hv. rewrite !result_line_eq. simpl.
    rewrite (refreshes_failed_read g w _ key e sh r c (update_cache_refreshes g w) He Hsh Hpos Hv).
    by rewrite He.
Qed.

(** *** Entering the conversation *)

(** C1, what the code does.  The entry points of the conversation
    handler call [add_user] and [remove_user] directly, and the handler
    comes first in the group, so the administrator check of
    [handle_buttons] is never reached for the two buttons: whoever
    sends the text of a button, outside a conversation, ends up
    awaiting an identity, the administrator or not. *)
Theorem trigger_is_open_to_anyone (w : world) (u : update) (disk : write_outcome) :
  user_id u <> admin_id (access_list (users_file w)) ->
  conversations w !! conv_key u = None ->
  let w' := step w (Incoming u disk) in
  (text u = Config.add_button ->
   chat_data w' !! chat_id u = Some AWAIT_USER_ID_ADD /\
   conversations w' !! conv_key u = Some AWAIT_USER_ID_ADD) /\
  (text u = Config.remove_button ->
   chat_data w' !! chat_id u = Some AWAIT_USER_ID_REMOVE /\
   conversations w' !! conv_key u = Some AWAIT_USER_ID_REMOVE).
Proof.
  intros _ Hconv. cbv zeta. simpl.
  unfold process_update. unfold_M. unfold conv_check_update. rewrite Hconv.
  split; intros Htext.
  - assert (Hfirst : first_match entry_points u
                     = Some (MessageHandler
                               (fun u => TEXT u && Regex Config.add_button u)%bool
                               (fun _ => add_user))).
    { unfold first_match, entry_points, TEXT, Regex. simpl. rewrite Htext. reflexivity. }
    rewrite Hfirst. unfold conv_handle_update. unfold_M. simpl.
    destruct (add_user_effect w u) as (Hr & Hc & _ & Hcv & _).
    unfold exec, result in Hr, Hc, Hcv.
    destruct (add_user u w) as [r w1]. simpl in *. subst r. simpl.
    rewrite Hc, lookup_insert_eq, lookup_insert_eq. auto.
  - assert (Hfirst : first_match entry_points u
                     = Some (MessageHandler
                               (fun u => TEXT u && Regex Config.remove_button u)%bool
                               (fun _ => remove_user))).
    { unfold first_match, entry_points, TEXT, Regex. simpl. rewrite Htext. reflexivity. }
    rewrite Hfirst. unfold conv_handle_update. unfold_M. simpl.
    destruct (remove_user_effect w u) as (Hr & Hc & _ & Hcv & _).
    unfold exec, result in Hr, Hc, Hcv.
    destruct (remove_user u w) as [r w1]. simpl in *. subst r. simpl.
    rewrite Hc, lookup_insert_eq, lookup_insert_eq. auto.
Qed.

End Properties.

(** ** The properties at sample inputs *)

Import Sample.

Lemma invalid_input_keeps_state_witness :
  let w := pending FileMissing AWAIT_USER_ID_ADD in
  let u := says 1 1 "abc" in
  (chat_data w !! chat_id u = Some AWAIT_USER_ID_ADD /\ @py_int rt (text u) = None) /\
  result (handle_user_id_input (RT := rt) WriteOk u) w = Ret (RetState AWAIT_USER_ID_ADD) /\
  conversations (step (RT := rt) w (Incoming u WriteOk)) !! conv_key u = Some AWAIT_USER_ID_ADD /\
  users_file (step (RT := rt) w (Incoming u WriteOk)) = FileMissing.
Proof.
  cbv zeta.
  assert (H1 : chat_data (pending FileMissing AWAIT_USER_ID_ADD) !! chat_id (says 1 1 "abc")
               = Some AWAIT_USER_ID_ADD) by (vm_compute; reflexivity).
  assert (H2 : @py_int rt (text (says 1 1 "abc")) = None) by (vm_compute; reflexivity).
  destruct (invalid_input_keeps_state (RT := rt) _ _ WriteOk _ H1 H2) as [(Hr & _) Hstep].
  destruct Hstep as (Hc & _ & _ & Hf);
    [vm_compute; reflexivity | discriminate | reflexivity |].
  repeat split; assumption.
Defined.

Lemma input_without_pending_action_witness :
  let w := stale FileMissing AWAIT_USER_ID_ADD in
  let u := says 1 1 "42" in
  (chat_data w !! chat_id u = None /\ @py_int rt (text u) = Some 42%Z) /\
  result (handle_user_id_input (RT := rt) DumpFails u) w = Ret END /\
  outbox (exec (handle_user_id_input (RT := rt) DumpFails u) w)
    = [answer u unknown_state None] /\
  users_file (exec (handle_user_id_input (RT := rt) DumpFails u) w) = FileMissing /\
  conversations (step (RT := rt) w (Incoming u DumpFails)) !! conv_key u = None.
Proof.
  cbv zeta.
  assert (H1 : chat_data (stale FileMissing AWAIT_USER_ID_ADD) !! chat_id (says 1 1 "42") = None)
    by (vm_compute; reflexivity).
  assert (H2 : @py_int rt (text (says 1 1 "42")) = Some 42%Z) by (vm_compute; reflexivity).
  destruct (input_without_pending_action (RT := rt) _ _ DumpFails _ H1 H2)
    as [(Hr & Ho & Hf & _) Hstep].
  destruct Hstep as (Hc & _); [discriminate | reflexivity | vm_compute; eauto |].
  repeat split; assumption.
Defined.

(** C2 as the specification has it fails: with [open] failing, the
    administrator who adds 42 is told that 42 was added. *)
Lemma save_failure_reported_as_success :
  ~ (forall (w : world) (u : update) (disk : write_outcome) (uid : Z),
       disk <> WriteOk ->
       chat_data w !! chat_id u = Some AWAIT_USER_ID_ADD ->
       @py_int rt (text u) = Some uid ->
       uid ∉ allowed_users (access_list (RT := rt) (users_file w)) ->
       forall m,
         last (outbox (exec (handle_user_id_input (RT := rt) disk u) w)) = Some m ->
         body m <> user_added uid).
Proof.
  intros H.
  apply (H (pending FileMissing AWAIT_USER_ID_ADD) (says 1 1 "42") OpenFails 42%Z
           ltac:(discriminate) ltac:(vm_compute; reflexivity) ltac:(vm_compute; reflexivity)
           ltac:(by_deciding)
           (answer (says 1 1 "42") (user_added 42) None)).
  - vm_compute. reflexivity.
  - reflexivity.
Qed.

Lemma save_failure_is_only_logged_witness :
  let w := pending (FileJson (Some 1%Z) (Some [5%Z])) AWAIT_USER_ID_ADD in
  let u := says 1 1 "42" in
  let w1 := exec (handle_user_id_input (RT := rt) OpenFails u) w in
  let w2 := exec (handle_user_id_input (RT := rt) DumpFails u) w in
  (OpenFails <> WriteOk /\ DumpFails <> WriteOk /\ @py_int rt (text u) = Some 42%Z /\
   chat_data w !! chat_id u = Some AWAIT_USER_ID_ADD /\
   42%Z ∉ allowed_users (access_list (RT := rt) (users_file w))) /\
  (outbox w1 = [answer u (user_added 42) None] /\ save_error ∈ log w1 /\
   users_file w1 = FileJson (Some 1%Z) (Some [5%Z])) /\
  (outbox w2 = [answer u (user_added 42) None] /\ save_error ∈ log w2 /\
   users_file w2 = FileUnreadable).
Proof.
  cbv zeta.
  assert (H1 : OpenFails <> WriteOk) by discriminate.
  assert (H1' : DumpFails <> WriteOk) by discriminate.
  assert (H2 : @py_int rt (text (says 1 1 "42")) = Some 42%Z) by (vm_compute; reflexivity).
  assert (H3 : chat_data (pending (FileJson (Some 1%Z) (Some [5%Z])) AWAIT_USER_ID_ADD)
                 !! chat_id (says 1 1 "42") = Some AWAIT_USER_ID_ADD)
    by (vm_compute; reflexivity).
  assert (H4 : 42%Z ∉ allowed_users
                 (access_list (RT := rt)
                    (users_file (pending (FileJson (Some 1%Z) (Some [5%Z])) AWAIT_USER_ID_ADD))))
    by by_deciding.
  destruct (save_failure_is_only_logged (RT := rt)
              (pending (FileJson (Some 1%Z) (Some [5%Z])) AWAIT_USER_ID_ADD)
              (says 1 1 "42") OpenFails 42%Z H1 H2) as [Hopen _].
  destruct (Hopen H3 H4) as (Ho1 & Hl1 & Hf1 & _).
  destruct (save_failure_is_only_logged (RT := rt)
              (pending (FileJson (Some 1%Z) (Some [5%Z])) AWAIT_USER_ID_ADD)
              (says 1 1 "42") DumpFails 42%Z H1' H2) as [Hdump _].
  destruct (Hdump H3 H4) as (Ho2 & Hl2 & _ & Hf2).
  split; [auto|].
  split; (split; [assumption | split; [assumption|]]).
  - exact (Hf1 eq_refl).
  - exact (Hf2 eq_refl).
Defined.

Lemma add_twice_adds_once_witness :
  let w := fresh (FileJson (Some 1%Z) (Some [5%Z])) in
  let u := says 1 1 Config.add_button in
  let v := says 1 1 "42" in
  let once := exec (handle_user_id_input (RT := rt) WriteOk v) (exec (add_user (RT := rt) u) w) in
  let twice := exec (handle_user_id_input (RT := rt) DumpFails v) (exec (add_user (RT := rt) u) once) in
  (chat_id v = chat_id u /\ @py_int rt (text v) = Some 42%Z /\
   42%Z ∉ allowed_users (access_list (RT := rt) (users_file w))) /\
  users_file once = FileJson (Some 1%Z) (Some [5%Z; 42%Z]) /\
  last (outbox twice) = Some (answer v user_exists None) /\
  users_file twice = users_file once.
Proof.
  cbv zeta.
  assert (H1 : chat_id (says 1 1 "42") = chat_id (says 1 1 Config.add_button)) by reflexivity.
  assert (H2 : @py_int rt (text (says 1 1 "42")) = Some 42%Z) by (vm_compute; reflexivity).
  assert (H3 : 42%Z ∉ allowed_users
                 (access_list (RT := rt) (users_file (fresh (FileJson (Some 1%Z) (Some [5%Z]))))))
    by by_deciding.
  destruct (add_twice_adds_once (RT := rt) _ _ _ DumpFails _ H1 H2 H3)
    as [(_ & _ & _ & Hf1 & _) (_ & _ & Ho2 & Hf2 & _)].
  repeat split; assumption.
Defined.

Lemma check_access_reads_the_store_witness :
  let w := pending (FileJson (Some 1%Z) (Some [5%Z; 7%Z])) AWAIT_USER_ID_REMOVE in
  let u := says 1 1 "7" in
  let v := says 7 7 Config.main_button in
  (chat_data w !! chat_id u = Some AWAIT_USER_ID_REMOVE /\
   @py_int rt (text u) = Some 7%Z /\
   NoDup (allowed_users (access_list (RT := rt) (users_file w)))) /\
  result (check_access (RT := rt) v) w = Ret true /\
  result (check_access (RT := rt) v) (exec (handle_user_id_input (RT := rt) WriteOk u) w)
    = Ret false.
Proof.
  cbv zeta.
  assert (H1 : chat_data (pending (FileJson (Some 1%Z) (Some [5%Z; 7%Z])) AWAIT_USER_ID_REMOVE)
                 !! chat_id (says 1 1 "7") = Some AWAIT_USER_ID_REMOVE) by (vm_compute; reflexivity).
  assert (H2 : @py_int rt (text (says 1 1 "7")) = Some 7%Z) by (vm_compute; reflexivity).
  assert (H3 : NoDup (allowed_users (access_list (RT := rt)
                 (users_file (pending (FileJson (Some 1%Z) (Some [5%Z; 7%Z])) AWAIT_USER_ID_REMOVE)))))
    by by_deciding.
  destruct (check_access_reads_the_store (RT := rt)) as [_ Hremove].
  destruct (Hremove _ (says 1 1 "7") (says 7 7 Config.main_button) 7%Z H1 H2
              ltac:(by_deciding) H3 ltac:(discriminate) eq_refl) as [Hbefore Hafter].
  repeat split; assumption.
Defined.

Lemma cancel_raises_before_replying_witness :
  let w := pending FileMissing AWAIT_USER_ID_ADD in
  let u := slash 1 1 "cancel" in
  let w' := step (RT := rt) w (Incoming u WriteOk) in
  (conversations w !! conv_key u = Some AWAIT_USER_ID_ADD /\ command u = Some "cancel") /\
  result (cancel u) w = Raise (NameError "keyboard") /\
  conversations w' !! conv_key u = Some AWAIT_USER_ID_ADD /\
  outbox w' = [].
Proof.
  cbv zeta.
  destruct (cancel_raises_before_replying (RT := rt)
              (pending FileMissing AWAIT_USER_ID_ADD) (slash 1 1 "cancel"))
    as [(Hr & _) Hstep].
  assert (H1 : conversations (pending FileMissing AWAIT_USER_ID_ADD)
                 !! conv_key (slash 1 1 "cancel") = Some AWAIT_USER_ID_ADD)
    by (vm_compute; reflexivity).
  destruct (Hstep AWAIT_USER_ID_ADD WriteOk H1 eq_refl) as (Hc & Ho & _).
  repeat split; assumption.
Defined.

Lemma refresh_stops_at_first_failure_witness :
  let g := first_sheet_down "200" in
  let w' := exec (update_cache g) started in
  (cell_cache started !! "income"
     = Some {| sheet := Some "Лист1"; pos := Some (3, 2)%Z; value := PyStr "100" |} /\
   cell g "Лист1" 3 2 = None) /\
  cell g "Лист3" 3 2 = Some (PyStr "200") /\
  cell_cache started !! "cash"
    = Some {| sheet := Some "Лист3"; pos := Some (3, 2)%Z; value := PyStr "100" |} /\
  cell_cache w' = cell_cache started /\
  log w' = log started ++ [refresh_error].
Proof.
  cbv zeta.
  assert (H1 : cell_cache started !! "income"
               = Some {| sheet := Some "Лист1"; pos := Some (3, 2)%Z; value := PyStr "100" |})
    by (vm_compute; reflexivity).
  destruct (refresh_stops_at_first_failure (first_sheet_down "200") started _ "Лист1" 3 2
              H1 eq_refl eq_refl eq_refl) as [Hc Hl].
  repeat split; try assumption; vm_compute; reflexivity.
Defined.

(** C5 as the specification has it fails on the empty string: the read
    succeeds with [""] and the line shows the placeholder. *)
Lemma empty_value_is_reported_as_placeholder :
  ~ (forall (w : world) (g : gsheets) (key : string) (cfg : Config.sheet_config)
            (e : cache_entry) (sh : string) (r c : Z) (v : string),
       cache_wf w -> reads_ok g w ->
       (key, cfg) ∈ Config.SHEET_CONFIG ->
       cell_cache w !! key = Some e -> sheet e = Some sh -> pos e = Some (r, c) ->
       cell g sh r c = Some (PyStr v) ->
       result (result_line (key, cfg)) (exec (update_cache g) w)
         = Ret (Config.response_template (Config.title cfg) v)).
Proof.
  intros H.
  specialize (H started (all_cells "") "income" (snd income)
                {| sheet := Some "Лист1"; pos := Some (3, 2)%Z; value := PyStr "100" |}
                "Лист1" 3%Z 2%Z "").
  assert (Hwf : cache_wf started).
  { exact (reachable_cache_wf (RT := rt) FileMissing (all_cells "100") []). }
  assert (Hok : reads_ok (all_cells "") started).
  { intros key e sh r c _ _ _. simpl. eauto. }
  specialize (H Hwf Hok ltac:(by left) ltac:(vm_compute; reflexivity) eq_refl eq_refl eq_refl).
  vm_compute in H. discriminate H.
Qed.

Lemma refresh_then_get_witness :
  let w := run (RT := rt) started [] in
  (income ∈ Config.SHEET_CONFIG /\
   cell_cache w !! "income"
     = Some {| sheet := Some "Лист1"; pos := Some (3, 2)%Z; value := PyStr "100" |} /\
   reads_ok (all_cells "250") w /\
   cell (first_sheet_down "250") "Лист1" 3 2 = None) /\
  result (result_line income) (exec (update_cache (all_cells "250")) w)
    = Ret (Config.response_template "доходы" "250") /\
  result (result_line income) (exec (update_cache (first_sheet_down "250")) w)
    = result (result_line income) w.
Proof.
  cbv zeta.
  assert (H1 : income ∈ Config.SHEET_CONFIG) by (by left).
  assert (H2 : cell_cache (run (RT := rt) started []) !! "income"
               = Some {| sheet := Some "Лист1"; pos := Some (3, 2)%Z; value := PyStr "100" |})
    by (vm_compute; reflexivity).
  assert (H3 : reads_ok (all_cells "250") (run (RT := rt) started [])).
  { intros key e sh r c _ _ _. simpl. eauto. }
  destruct (refresh_then_get (RT := rt) FileMissing (all_cells "100") [] (all_cells "250")
              "income" (snd income) _ "Лист1" 3 2 H1 H2 eq_refl eq_refl) as [Hgood _].
  destruct (Hgood (PyStr "250") H3 eq_refl) as [_ Hexact].
  specialize (Hexact "250" eq_refl ltac:(discriminate)).
  destruct (refresh_then_get (RT := rt) FileMissing (all_cells "100") [] (first_sheet_down "250")
              "income" (snd income) _ "Лист1" 3 2 H1 H2 eq_refl eq_refl) as [_ Hbad].
  specialize (Hbad eq_refl).
  repeat split; assumption.
Defined.

Lemma trigger_is_open_to_anyone_witness :
  let w := fresh FileMissing in
  let u := says 7 7 Config.add_button in
  let w' := step (RT := rt) w (Incoming u WriteOk) in
  (user_id u <> admin_id (access_list (RT := rt) (users_file w)) /\
   conversations w !! conv_key u = None) /\
  chat_data w' !! chat_id u = Some AWAIT_USER_ID_ADD /\
  conversations w' !! conv_key u = Some AWAIT_USER_ID_ADD.
Proof.
  cbv zeta.
  assert (H1 : user_id (says 7 7 Config.add_button)
               <> admin_id (access_list (RT := rt) (users_file (fresh FileMissing))))
    by discriminate.
  assert (H2 : conversations (fresh FileMissing) !! conv_key (says 7 7 Config.add_button) = None)
    by (vm_compute; reflexivity).
  destruct (trigger_is_open_to_anyone (RT := rt) _ _ WriteOk H1 H2) as [Hadd _].
  destruct (Hadd eq_refl) as [Hc Hv].
  repeat split; assumption.
Defined.

(** What follows from it: a stranger who sends the text of the add
    button and then their own identity is on the list, and is let in. *)
Lemma stranger_adds_themselves :
  let w := run (RT := rt) (fresh FileMissing)
             [ Incoming (says 7 7 Config.add_button) WriteOk;
               Incoming (says 7 7 "7") WriteOk ] in
  result (check_access (RT := rt) (says 7 7 Config.main_button)) (fresh FileMissing) = Ret false /\
  users_file w = FileJson (Some 1%Z) (Some [7%Z]) /\
  result (check_access (RT := rt) (says 7 7 Config.main_button)) w = Ret true.
Proof. vm_compute. repeat split. Qed.


(** ** Further properties of the handlers *)

Section Further.
Context `{RT : Runtime}.

(** *** The users file *)

(** X1. With the users file missing or unreadable, [load_users] gives the
    list of the configured administrator alone, so the access check
    lets in the holder of [ADMIN_ID] and nobody else; only the
    unreadable file leaves a record in the log. *)
Theorem default_list_admits_only_admin (w : world) (u : update) :
  users_file w = FileMissing \/ users_file w = FileUnreadable ->
  result load_users w = Ret default_users /\
  (result (check_access u) w = Ret true <-> user_id u = ADMIN_ID) /\
  (result (check_access u) w = Ret false <-> user_id u <> ADMIN_ID) /\
  (users_file w = FileMissing -> log (exec load_users w) = log w) /\
  (users_file w = FileUnreadable ->
   log (exec load_users w) = log w ++ [(ERROR, "Ошибка загрузки пользователей")]).
Proof.
  intros Hfile.
  assert (Hlist : access_list (users_file w) = default_users)
    by (destruct Hfile as [-> | ->]; reflexivity).
  destruct (check_access_result w u) as [Hr _]. rewrite Hlist in Hr. simpl in Hr.
  rewrite load_users_result, Hlist, Hr.
  split; [reflexivity|].
  assert (Hin : py_in (user_id u) [] = false) by (apply py_in_spec'; apply not_elem_of_nil).
  rewrite Hin, orb_false_r.
  split; [|split; [|split]].
  - destruct (decide (user_id u = ADMIN_ID)) as [Ha|Ha];
      [rewrite (bool_decide_eq_true_2 _ Ha) | rewrite (bool_decide_eq_false_2 _ Ha)];
      intuition congruence.
  - destruct (decide (user_id u = ADMIN_ID)) as [Ha|Ha];
      [rewrite (bool_decide_eq_true_2 _ Ha) | rewrite (bool_decide_eq_false_2 _ Ha)];
      intuition congruence.
  - intros Hf. run_handler. rewrite Hf. reflexivity.
  - intros Hf. run_handler. rewrite Hf. reflexivity.
Qed.

Lemma list_remove_snoc (n : Z) (l : list Z) : n ∉ l -> list_remove n (l ++ [n]) = Some l.
Proof.
  induction l as [|y r IH]; intros Hn; simpl.
  - by rewrite bool_decide_eq_true_2.
  - apply not_elem_of_cons in Hn as [Hne Hn].
    rewrite bool_decide_eq_false_2 by congruence.
    rewrite (IH Hn). reflexivity.
Qed.

(** The remove trigger and then an identity, in terms of the list. *)
Lemma remove_round (w : world) (u v : update) (disk : write_outcome) (n : Z) :
  chat_id v = chat_id u ->
  py_int (text v) = Some n ->
  let data := access_list (users_file w) in
  let w' := exec (handle_user_id_input disk v) (exec (remove_user u) w) in
  chat_data w' !! chat_id u = None /\
  result (handle_user_id_input disk v) (exec (remove_user u) w) = Ret END /\
  (n ∉ allowed_users data ->
   last (outbox w') = Some (answer v user_not_found None) /\ users_file w' = users_file w) /\
  (forall l, list_remove n (allowed_users data) = Some l ->
   last (outbox w') = Some (answer v (user_removed n) None) /\
   users_file w' = saved disk {| admin_id := admin_id data; allowed_users := l |} (users_file w)).
Proof.
  intros Hchat Hparse. cbv zeta.
  pose proof (remove_user_effect w u) as (_ & Hc1 & Hf1 & _ & _ & _).
  set (w1 := exec (remove_user u) w) in *.
  assert (Hs1 : chat_data w1 !! chat_id v = Some AWAIT_USER_ID_REMOVE).
  { rewrite Hc1, Hchat. apply lookup_insert_eq. }
  unfold exec, result. rewrite handle_user_id_input_valid with (uid := n) by exact Hparse.
  destruct (decide (n ∈ allowed_users (access_list (users_file w1)))) as [Hin|Hin].
  - destruct (list_remove_in _ _ Hin) as [l Hl].
    destruct (process_user_id_remove_known w1 v disk n l Hs1 Hl)
      as (Hr & Ho & Hc & Hf & _).
    unfold exec, result in *. rewrite <- Hchat, Hc, lookup_delete_eq, Hr.
    rewrite Hf1 in Hin, Hl, Hf.
    split; [reflexivity|]. split; [reflexivity|]. split.
    + intros Hout. contradiction.
    + intros l' Hl'. rewrite Hl in Hl'. inversion Hl'; subst l'.
      split; [rewrite Ho; apply last_snoc | exact Hf].
  - destruct (process_user_id_remove_unknown w1 v disk n Hs1 Hin)
      as (Hr & Ho & Hc & Hf & _).
    unfold exec, result in *. rewrite <- Hchat, Hc, lookup_delete_eq, Hr.
    rewrite Hf1 in Hin, Hf.
    split; [reflexivity|]. split; [reflexivity|]. split.
    + intros _. split; [rewrite Ho; apply last_snoc | exact Hf].
    + intros l' Hl'. exfalso. apply Hin. eapply list_remove_some; eauto.
Qed.

(** X3. The remove trigger followed by an identity that is not on the
    list answers "not found", ends the flow with the chat's state
    cleared and leaves the users file as it was, whatever the disk
    would do with a write. *)
Theorem remove_of_unlisted_changes_nothing (w : world) (u v : update)
    (disk : write_outcome) (n : Z) :
  chat_id v = chat_id u ->
  py_int (text v) = Some n ->
  n ∉ allowed_users (access_list (users_file w)) ->
  let w' := exec (handle_user_id_input disk v) (exec (remove_user u) w) in
  result (handle_user_id_input disk v) (exec (remove_user u) w) = Ret END /\
  last (outbox w') = Some (answer v user_not_found None) /\
  users_file w' = users_file w /\
  chat_data w' !! chat_id u = None.
Proof.
  intros Hchat Hparse Hout. cbv zeta.
  destruct (remove_round w u v disk n Hchat Hparse) as (Hc & Hr & Hnot & _).
  destruct (Hnot Hout) as [Ho Hf]. auto.
Qed.

(** X4. Adding an identity that is not on the list and then removing it,
    both writes succeeding, gives back the list as it was: same
    administrator, same allowed users in the same order. *)
Theorem add_then_remove_restores_the_list (w : world) (u v : update) (n : Z) :
  chat_id v = chat_id u ->
  py_int (text v) = Some n ->
  n ∉ allowed_users (access_list (users_file w)) ->
  let added := exec (handle_user_id_input WriteOk v) (exec (add_user u) w) in
  let removed := exec (handle_user_id_input WriteOk v) (exec (remove_user u) added) in
  n ∈ allowed_users (access_list (users_file added)) /\
  access_list (users_file removed) = access_list (users_file w) /\
  last (outbox removed) = Some (answer v (user_removed n) None) /\
  chat_data removed !! chat_id u = None.
Proof.
  intros Hchat Hparse Hnew. cbv zeta.
  pose proof (add_user_effect w u) as (_ & Hc1 & Hf1 & _ & _ & _).
  set (w1 := exec (add_user u) w) in *.
  assert (Hs1 : chat_data w1 !! chat_id v = Some AWAIT_USER_ID_ADD).
  { rewrite Hc1, Hchat. apply lookup_insert_eq. }
  assert (Hnew1 : n ∉ allowed_users (access_list (users_file w1))) by (by rewrite Hf1).
  pose proof (process_user_id_add_new w1 v WriteOk n Hs1 Hnew1) as (_ & _ & _ & Hf2 & _).
  unfold exec in Hf2.
  rewrite <- (handle_user_id_input_valid w1 v WriteOk n Hparse) in Hf2.
  fold (exec (handle_user_id_input WriteOk v) w1) in Hf2.
  set (added := exec (handle_user_id_input WriteOk v) w1) in *.
  simpl in Hf2. rewrite Hf1 in Hf2.
  destruct (remove_round added u v WriteOk n Hchat Hparse) as (Hc & _ & _ & Hrm).
  assert (Hl : list_remove n (allowed_users (access_list (users_file added)))
               = Some (allowed_users (access_list (users_file w)))).
  { rewrite Hf2. simpl. by apply list_remove_snoc. }
  destruct (Hrm _ Hl) as [Ho Hf].
  split; [rewrite Hf2; simpl; apply elem_of_app; right; apply list_elem_of_singleton; reflexivity|].
  split; [|split; assumption].
  rewrite Hf. simpl. rewrite Hf2. simpl. by destruct (access_list (users_file w)).
Qed.

(** *** What one update can touch *)

Section Preserves.
Context (I : world -> Prop).

Lemma preserves_ret {A} (a : A) : preserves I (mret a).
Proof. intros w Hw. exact Hw. Qed.

Lemma preserves_throw {A} (e : exn) : preserves I (mthrow e : M A).
Proof. intros w Hw. exact Hw. Qed.

Lemma preserves_get_world : preserves I get_world.
Proof. intros w Hw. exact Hw. Qed.

Lemma preserves_lift_opt {A} (o : option A) (e : exn) : preserves I (lift_opt o e).
Proof. destruct o; intros w Hw; exact Hw. Qed.

Lemma preserves_modify (f : world -> world) :
  (forall w, I w -> I (f w)) -> preserves I (modify f).
Proof. intros Hf w Hw. apply Hf, Hw. Qed.

Lemma preserves_bind {A C} (m : M A) (f : A -> M C) :
  preserves I m -> (forall a, preserves I (f a)) -> preserves I (m ≫= f).
Proof.
  intros Hm Hf w Hw. specialize (Hm w Hw). unfold exec in *. unfold_M.
  destruct (m w) as [[a|e] w1]; simpl in *; [|exact Hm].
  apply Hf, Hm.
Qed.

Lemma preserves_try_except {A} (m : M A) (caught : exn -> bool) (h : exn -> M A) :
  preserves I m -> (forall e, preserves I (h e)) -> preserves I (try_except m caught h).
Proof.
  intros Hm Hh w Hw. specialize (Hm w Hw). unfold exec in *. unfold_M.
  destruct (m w) as [[a|e] w1]; simpl in *; [exact Hm|].
  destruct (caught e); simpl; [|exact Hm].
  apply Hh, Hm.
Qed.

Lemma preserves_map_M {A C} (f : A -> M C) (xs : list A) :
  (forall x, preserves I (f x)) -> preserves I (map_M f xs).
Proof.
  intros Hf. induction xs as [|x xs IH]; simpl.
  - apply preserves_ret.
  - apply preserves_bind; [apply Hf|]. intros y.
    apply preserves_bind; [exact IH|]. intros ys. apply preserves_ret.
Qed.
End Preserves.

(** [tac] has to show that the property survives each direct change of
    the world. *)
Ltac preserves_with tac :=
  repeat first
    [ apply preserves_ret
    | apply preserves_throw
    | apply preserves_get_world
    | apply preserves_lift_opt
    | apply preserves_bind; [|intros ?]
    | apply preserves_try_except; [|intros ?]
    | apply preserves_map_M; intros ?
    | apply preserves_modify; let w := fresh "w" in let Hw := fresh "Hw" in
                              intros w Hw; simpl; tac
    | match goal with
      | |- preserves _ (if ?b then _ else _) => destruct b
      | |- preserves _ (match ?x with _ => _ end) => destruct x
      end
    | progress unfold process_user_id, handle_user_id_input, cancel, add_user, remove_user,
        handle_buttons, get_result, start, check_access, create_keyboard, load_users,
        save_users, result_line, cache_get, del_state, get_state, set_state, reply_text,
        logging ].

Lemma first_match_registered (hs : list Handler) (u : update) (h : Handler) :
  first_match hs u = Some h -> h ∈ hs.
Proof.
  unfold first_match. intros Hf. apply find_some in Hf as [Hf _]. by apply list_elem_of_In.
Qed.

(** An update runs at most one registered callback; around it the
    application writes the log and the conversation handler its own
    entry for the sender. *)
Lemma process_update_preserves (I : world -> Prop) (disk : write_outcome) (u : update) :
  (forall h, h ∈ all_handlers -> preserves I (callback h disk u)) ->
  (forall l w, I w -> I (set_log l w)) ->
  (forall c w, I w -> (forall k, k <> conv_key u -> c !! k = conversations w !! k) ->
               I (set_conversations c w)) ->
  preserves I (process_update disk u).
Proof.
  intros Hcb Hlog Hconv.
  assert (Hrecord : forall r, preserves I
            (match r with
             | END => modify (fun w => set_conversations (delete (conv_key u) (conversations w)) w)
             | RetState s =>
                 modify (fun w => set_conversations (<[conv_key u := s]> (conversations w)) w)
             | RetNone => mret ()
             end)).
  { intros [|s|]; [apply preserves_ret| |]; apply preserves_modify; intros w Hw;
      apply Hconv; try exact Hw; intros k Hk.
    - by rewrite lookup_insert_ne.
    - by rewrite lookup_delete_ne. }
  assert (Hin : forall h, preserves I (callback h disk u) ->
                          preserves I (conv_handle_update h disk u)).
  { intros h Hh. unfold conv_handle_update. apply preserves_bind; [exact Hh | exact Hrecord]. }
  unfold process_update. apply preserves_bind; [apply preserves_get_world|]. intros w.
  apply preserves_try_except;
    [|intros e; unfold logging; apply preserves_modify; intros w' Hw'; by apply Hlog].
  assert (Hplain : preserves I
            (match first_match plain_handlers u with
             | Some h => callback h disk u;; mret ()
             | None => mret ()
             end)).
  { destruct (first_match plain_handlers u) as [h|] eqn:Hp; [|apply preserves_ret].
    apply preserves_bind; [|intros ?; apply preserves_ret].
    apply Hcb. apply first_match_registered in Hp. unfold all_handlers.
    rewrite !elem_of_app. auto 6. }
  unfold conv_check_update.
  destruct (conversations w !! conv_key u) as [s|].
  - destruct (first_match (states s) u) as [h|] eqn:Hh.
    + apply Hin, Hcb. apply first_match_registered in Hh. unfold all_handlers.
      rewrite !elem_of_app. destruct s; auto.
    + destruct (first_match fallbacks u) as [h|] eqn:Hf; [|exact Hplain].
      apply Hin, Hcb. apply first_match_registered in Hf. unfold all_handlers.
      rewrite !elem_of_app. auto.
  - destruct (first_match entry_points u) as [h|] eqn:Hh; [|exact Hplain].
    apply Hin, Hcb. apply first_match_registered in Hh. unfold all_handlers.
    rewrite !elem_of_app. auto.
Qed.

(** The registered callbacks, one by one. *)
Lemma registered_cases (P : Handler -> Prop) :
  P (MessageHandler (fun u => TEXT u && Regex Config.add_button u)%bool (fun _ => add_user)) ->
  P (MessageHandler (fun u => TEXT u && Regex Config.remove_button u)%bool (fun _ => remove_user)) ->
  P (MessageHandler (fun u => TEXT u && negb (COMMAND u))%bool handle_user_id_input) ->
  P (CommandHandler "cancel" (fun _ => cancel)) ->
  P (MessageHandler (fun u => TEXT u && negb (COMMAND u))%bool (fun _ => handle_buttons)) ->
  P (CommandHandler "start" (fun _ => start)) ->
  P (MessageHandler (fun u => TEXT u && Regex Config.main_button u)%bool (fun _ => get_result)) ->
  forall h, h ∈ all_handlers -> P h.
Proof.
  intros H1 H2 H3 H4 H5 H6 H7 h Hh.
  unfold all_handlers, entry_points, states, fallbacks, plain_handlers in Hh. simpl in Hh.
  repeat (apply elem_of_cons in Hh as [->|Hh]; [assumption|]).
  inversion Hh.
Qed.

Ltac callback_cases :=
  apply registered_cases; unfold MessageHandler, CommandHandler; cbn [callback].

(** X5. A message changes the stored state of its own chat and the
    conversation under its own (chat, user) key at most: the state of
    every other chat and every other conversation is as before, and
    so is the cache.  A run of [update_cache] changes none of the users
    file, the chat states, the conversations and the replies sent. *)
Theorem update_touches_its_own_slots (w : world) :
  (forall (u : update) (disk : write_outcome),
     let w' := step w (Incoming u disk) in
     (forall c, c <> chat_id u -> chat_data w' !! c = chat_data w !! c) /\
     (forall k, k <> conv_key u -> conversations w' !! k = conversations w !! k) /\
     cell_cache w' = cell_cache w) /\
  (forall g : gsheets,
     let w' := step w (Job g) in
     users_file w' = users_file w /\ chat_data w' = chat_data w /\
     conversations w' = conversations w /\ outbox w' = outbox w).
Proof.
  split.
  - intros u disk. cbv zeta. simpl. split; [|split].
    + intros c Hc. assert (Hc' : chat_id u <> c) by congruence.
      apply (process_update_preserves (fun w0 => chat_data w0 !! c = chat_data w !! c));
        [| auto | auto | reflexivity].
      callback_cases;
        preserves_with ltac:(rewrite ?lookup_insert_ne, ?lookup_delete_ne by assumption;
                             assumption).
    + intros k Hk.
      apply (process_update_preserves (fun w0 => conversations w0 !! k = conversations w !! k));
        [| auto | | reflexivity].
      * callback_cases; preserves_with ltac:(assumption).
      * intros c w0 Hw0 Hsame. simpl. rewrite Hsame by exact Hk. exact Hw0.
    + apply process_update_keeps_cache.
  - intros g. cbv zeta. simpl.
    destruct (update_cache_refreshes g w) as (Hf & Hc & Hv & Ho & _). auto.
Qed.

(** *** How the users file evolves *)

Lemma input_file_step (w : world) (u : update) (disk : write_outcome) :
  file_step (users_file w) (users_file (exec (handle_user_id_input disk u) w)).
Proof.
  unfold exec. destruct (py_int (text u)) as [uid|] eqn:Hparse.
  - rewrite handle_user_id_input_valid with (uid := uid) by exact Hparse.
    assert (Hsaved : forall l',
              ((exists n, (n ∉ allowed_users (access_list (users_file w)))
                          /\ l' = allowed_users (access_list (users_file w)) ++ [n]) \/
               (exists n, list_remove n (allowed_users (access_list (users_file w))) = Some l')) ->
              file_step (users_file w)
                (saved disk {| admin_id := admin_id (access_list (users_file w));
                               allowed_users := l' |} (users_file w))).
    { intros l' Hl'. destruct disk; simpl.
      - right; right. exists l'. auto.
      - by left.
      - right; by left. }
    destruct (chat_data w !! chat_id u) as [[]|] eqn:Hs.
    + destruct (decide (uid ∈ allowed_users (access_list (users_file w)))) as [Hin|Hin].
      * destruct (process_user_id_add_known w u disk uid Hs Hin) as (_ & _ & _ & Hf & _).
        unfold exec in Hf. rewrite Hf. by left.
      * destruct (process_user_id_add_new w u disk uid Hs Hin) as (_ & _ & _ & Hf & _).
        unfold exec in Hf. rewrite Hf. apply Hsaved. left. eauto.
    + destruct (decide (uid ∈ allowed_users (access_list (users_file w)))) as [Hin|Hin].
      * destruct (list_remove_in _ _ Hin) as [l Hl].
        destruct (process_user_id_remove_known w u disk uid l Hs Hl) as (_ & _ & _ & Hf & _).
        unfold exec in Hf. rewrite Hf. apply Hsaved. right. eauto.
      * destruct (process_user_id_remove_unknown w u disk uid Hs Hin) as (_ & _ & _ & Hf & _).
        unfold exec in Hf. rewrite Hf. by left.
    + destruct (process_user_id_idle w u disk uid Hs) as (_ & _ & _ & Hf & _).
      unfold exec in Hf. rewrite Hf. by left.
  - rewrite handle_user_id_input_invalid by exact Hparse. by left.
Qed.

Lemma step_file_steps (w : world) (e : event) :
  rtc file_step (users_file w) (users_file (step w e)).
Proof.
  destruct e as [u disk|g]; simpl.
  - apply (process_update_preserves (fun w0 => rtc file_step (users_file w) (users_file w0)));
      [| auto | auto | apply rtc_refl].
    callback_cases; try (preserves_with ltac:(assumption); fail).
    intros w0 Hw0. eapply rtc_r; [exact Hw0 | apply input_file_step].
  - destruct (update_cache_refreshes g w) as (-> & _). apply rtc_refl.
Qed.

Lemma run_file_steps (w : world) (trace : list event) :
  rtc file_step (users_file w) (users_file (run w trace)).
Proof.
  revert w. induction trace as [|e trace IH]; intros w; [apply rtc_refl|].
  unfold run in *. simpl. eapply rtc_trans; [apply step_file_steps | apply IH].
Qed.

Lemma file_steps_ind (P : file_state -> Prop) (f f' : file_state) :
  (forall f1 f2, P f1 -> file_step f1 f2 -> P f2) ->
  rtc file_step f f' -> P f -> P f'.
Proof.
  intros Hstep Hrtc. induction Hrtc as [|f1 f2 f3 H12 _ IH]; [auto|].
  intros Hf. apply IH. eapply Hstep; eauto.
Qed.

(** X6. Whatever messages arrive and whatever the disk does, the users
    file only ever changes by [process_user_id] appending an identity
    that was not listed or removing one occurrence of a listed one;
    therefore an allowed list without duplicates never gets one. *)
Theorem allowed_list_stays_duplicate_free (w : world) (trace : list event) :
  NoDup (allowed_users (access_list (users_file w))) ->
  NoDup (allowed_users (access_list (users_file (run w trace)))).
Proof.
  apply (file_steps_ind (fun f => NoDup (allowed_users (access_list f))));
    [|apply run_file_steps].
  intros f1 f2 Hnd [->|[->|(l' & -> & Hl')]]; [exact Hnd | apply NoDup_nil_2 |].
  simpl. destruct Hl' as [(n & Hn & ->)|(n & Hrm)].
  - apply NoDup_app. split; [exact Hnd|]. split; [|apply NoDup_singleton].
    intros x Hx Hx'. apply list_elem_of_singleton in Hx'. by subst.
  - by destruct (list_remove_NoDup n _ l' Hnd Hrm).
Qed.

Lemma input_file_saved (w : world) (u : update) (disk : write_outcome) :
  users_file (exec (handle_user_id_input disk u) w) = users_file w \/
  exists data,
    users_file (exec (handle_user_id_input disk u) w) = saved disk data (users_file w).
Proof.
  unfold exec. destruct (py_int (text u)) as [uid|] eqn:Hparse.
  - rewrite handle_user_id_input_valid with (uid := uid) by exact Hparse.
    destruct (chat_data w !! chat_id u) as [[]|] eqn:Hs.
    + destruct (decide (uid ∈ allowed_users (access_list (users_file w)))) as [Hin|Hin].
      * destruct (process_user_id_add_known w u disk uid Hs Hin) as (_ & _ & _ & Hf & _).
        by left.
      * destruct (process_user_id_add_new w u disk uid Hs Hin) as (_ & _ & _ & Hf & _).
        right. eauto.
    + destruct (decide (uid ∈ allowed_users (access_list (users_file w)))) as [Hin|Hin].
      * destruct (list_remove_in _ _ Hin) as [l Hl].
        destruct (process_user_id_remove_known w u disk uid l Hs Hl) as (_ & _ & _ & Hf & _).
        right. eauto.
      * destruct (process_user_id_remove_unknown w u disk uid Hs Hin) as (_ & _ & _ & Hf & _).
        by left.
    + destruct (process_user_id_idle w u disk uid Hs) as (_ & _ & _ & Hf & _).
      by left.
  - rewrite handle_user_id_input_invalid by exact Hparse. by left.
Qed.

(** An unreadable users file stays unreadable until a write succeeds. *)
Lemma step_keeps_unreadable (w : world) (e : event) :
  no_write e = true -> users_file w = FileUnreadable ->
  users_file (step w e) = FileUnreadable.
Proof.
  intros He Hf. destruct e as [u disk|g]; simpl.
  - assert (Hdisk : disk <> WriteOk) by (intros ->; discriminate).
    apply (process_update_preserves (fun w0 => users_file w0 = FileUnreadable));
      [| auto | auto | exact Hf].
    callback_cases; try (preserves_with ltac:(assumption); fail).
    intros w0 Hw0.
    destruct (input_file_saved w0 u disk) as [->|[data ->]]; [exact Hw0|].
    destruct disk; simpl; [contradiction | exact Hw0 | reflexivity].
  - destruct (update_cache_refreshes g w) as (-> & _). exact Hf.
Qed.

Lemma run_keeps_unreadable (w : world) (trace : list event) :
  forallb no_write trace = true -> users_file w = FileUnreadable ->
  users_file (run w trace) = FileUnreadable.
Proof.
  revert w. induction trace as [|e trace IH]; intros w Hall Hf; [exact Hf|].
  simpl in Hall. apply andb_true_iff in Hall as [He Hall].
  unfold run in *. simpl. apply IH; [exact Hall|]. by apply step_keeps_unreadable.
Qed.

(** X2. A dump that fails after [open] truncated the file costs the whole
    list: whether the action was an add of a new identity or a remove
    of a listed one, the reply is the success message, the file is
    unreadable, the next load gives the default list and every identity
    other than [ADMIN_ID] is refused; and so it stays, whatever messages
    and refreshes follow, for as long as no later write of the file
    succeeds. *)
Theorem failed_dump_loses_the_list (w : world) (u : update) (s : States) (uid : Z) :
  chat_data w !! chat_id u = Some s ->
  py_int (text u) = Some uid ->
  (s = AWAIT_USER_ID_ADD -> uid ∉ allowed_users (access_list (users_file w))) ->
  (s = AWAIT_USER_ID_REMOVE -> uid ∈ allowed_users (access_list (users_file w))) ->
  let w' := exec (handle_user_id_input DumpFails u) w in
  outbox w' = outbox w ++ [answer u (match s with
                                     | AWAIT_USER_ID_ADD => user_added uid
                                     | AWAIT_USER_ID_REMOVE => user_removed uid
                                     end) None] /\
  users_file w' = FileUnreadable /\
  result load_users w' = Ret default_users /\
  (forall v, user_id v <> ADMIN_ID -> result (check_access v) w' = Ret false) /\
  forall trace,
    forallb no_write trace = true ->
    users_file (run w' trace) = FileUnreadable /\
    result load_users (run w' trace) = Ret default_users /\
    forall v, user_id v <> ADMIN_ID -> result (check_access v) (run w' trace) = Ret false.
Proof.
  intros Hs Hparse Hadd Hrm. cbv zeta.
  assert (Hw : outbox (exec (handle_user_id_input DumpFails u) w)
               = outbox w ++ [answer u (match s with
                                        | AWAIT_USER_ID_ADD => user_added uid
                                        | AWAIT_USER_ID_REMOVE => user_removed uid
                                        end) None] /\
               users_file (exec (handle_user_id_input DumpFails u) w) = FileUnreadable).
  { unfold exec. rewrite handle_user_id_input_valid with (uid := uid) by exact Hparse.
    destruct s.
    - destruct (process_user_id_add_new w u DumpFails uid Hs (Hadd eq_refl))
        as (_ & Ho & _ & Hf & _). auto.
    - destruct (list_remove_in _ _ (Hrm eq_refl)) as [l Hl].
      destruct (process_user_id_remove_known w u DumpFails uid l Hs Hl)
        as (_ & Ho & _ & Hf & _). auto. }
  destruct Hw as [Ho Hf].
  assert (Hlost : forall w0, users_file w0 = FileUnreadable ->
            result load_users w0 = Ret default_users /\
            forall v, user_id v <> ADMIN_ID -> result (check_access v) w0 = Ret false).
  { intros w0 Hf0. split; [rewrite load_users_result, Hf0; reflexivity|].
    intros v Hv. destruct (check_access_result w0 v) as [Hr _].
    rewrite Hr, Hf0. simpl.
    rewrite (bool_decide_eq_false_2 _ Hv). simpl.
    apply f_equal. apply py_in_spec'. apply not_elem_of_nil. }
  split; [exact Ho|]. split; [exact Hf|].
  destruct (Hlost _ Hf) as [Hload Hrefused].
  split; [exact Hload|]. split; [exact Hrefused|].
  intros trace Hall.
  pose proof (run_keeps_unreadable _ trace Hall Hf) as Hf'.
  split; [exact Hf'|]. exact (Hlost _ Hf').
Qed.

(** X7. No sequence of messages makes anyone else the administrator:
    after any run the administrator of the list is the one it had, or
    the configured [ADMIN_ID] once a failed dump has left the file
    unreadable; so an administrator equal to [ADMIN_ID] stays. *)
Theorem administrator_is_never_replaced (w : world) (trace : list event) :
  let before := admin_id (access_list (users_file w)) in
  let after := admin_id (access_list (users_file (run w trace))) in
  (after = before \/ after = ADMIN_ID) /\
  (before = ADMIN_ID -> after = ADMIN_ID).
Proof.
  cbv zeta.
  assert (H : admin_id (access_list (users_file (run w trace)))
              = admin_id (access_list (users_file w)) \/
              admin_id (access_list (users_file (run w trace))) = ADMIN_ID).
  { apply (file_steps_ind
             (fun f => admin_id (access_list f) = admin_id (access_list (users_file w)) \/
                       admin_id (access_list f) = ADMIN_ID) (users_file w));
      [|apply run_file_steps|by left].
    intros f1 f2 H1 [->|[->|(l' & -> & _)]]; [exact H1 | by right | exact H1]. }
  split; [exact H|]. intros Hb. destruct H as [->| ->]; auto.
Qed.

(** *** Answers to queries *)

Lemma bind_run {A B} (m : M A) (f : A -> M B) (w w1 : world) (a : A) :
  m w = (Ret a, w1) -> (m ≫= f) w = f a w1.
Proof. intros Hm. unfold mbind, M_bind. rewrite Hm. reflexivity. Qed.

Lemma check_access_run (w : world) (u : update) :
  let data := access_list (users_file w) in
  let ok := (bool_decide (user_id u = admin_id data)
             || py_in (user_id u) (allowed_users data))%bool in
  result (check_access u) w = Ret ok /\
  outbox (exec (check_access u) w)
    = outbox w ++ (if ok then [] else [answer u (Config.access_denied (user_id u)) None]) /\
  users_file (exec (check_access u) w) = users_file w /\
  cell_cache (exec (check_access u) w) = cell_cache w /\
  chat_data (exec (check_access u) w) = chat_data w /\
  conversations (exec (check_access u) w) = conversations w.
Proof.
  cbv zeta. run_handler.
  by_cases_on_file w; unfold py_in; repeat (case_bool_decide; simpl);
    rewrite ?app_nil_r; repeat split; assumption.
Qed.

Lemma create_keyboard_run (w : world) (uid : Z) :
  result (create_keyboard uid) w = Ret (keyboard_of (access_list (users_file w)) uid) /\
  outbox (exec (create_keyboard uid) w) = outbox w /\
  users_file (exec (create_keyboard uid) w) = users_file w /\
  cell_cache (exec (create_keyboard uid) w) = cell_cache w /\
  chat_data (exec (create_keyboard uid) w) = chat_data w /\
  conversations (exec (create_keyboard uid) w) = conversations w.
Proof.
  unfold keyboard_of. run_handler.
  by_cases_on_file w; repeat (case_bool_decide; simpl); repeat split; assumption.
Qed.

(** X8. A caller who is neither the administrator nor on the list gets
    from [start] and from [get_result] the refusal with their own
    identity and nothing else: one reply, no value of the cache in it,
    and the users file, the cache and the conversation states are as
    before. *)
Theorem refused_caller_gets_only_the_refusal (w : world) (u : update) :
  user_id u <> admin_id (access_list (users_file w)) ->
  user_id u ∉ allowed_users (access_list (users_file w)) ->
  forall handler, handler = start \/ handler = get_result ->
    let w' := exec (handler u) w in
    result (handler u) w = Ret RetNone /\
    outbox w' = outbox w ++ [answer u (Config.access_denied (user_id u)) None] /\
    users_file w' = users_file w /\ cell_cache w' = cell_cache w /\
    chat_data w' = chat_data w /\ conversations w' = conversations w.
Proof.
  intros Hadm Hlist handler Hh. cbv zeta.
  destruct (check_access_run w u) as (Hr & Ho & Hf & Hc & Hd & Hv).
  rewrite (bool_decide_eq_false_2 _ Hadm) in Hr, Ho.
  apply py_in_spec' in Hlist. rewrite Hlist in Hr, Ho. simpl in Hr, Ho.
  unfold exec, result in *.
  destruct (check_access u w) as [r w1] eqn:Hrun. simpl in *. subst r.
  destruct Hh as [-> | ->]; [unfold start | unfold get_result];
    rewrite (bind_run _ _ w w1 false Hrun); simpl; repeat split; assumption.
Qed.

(** X9. A caller the access check lets in gets from [start] the start
    message with a keyboard that has the query button and, in a second
    row, the add and remove buttons exactly when the caller is the
    administrator of the list. *)
Theorem start_shows_admin_buttons_to_admin_only (w : world) (u : update) :
  result (check_access u) w = Ret true ->
  let data := access_list (users_file w) in
  outbox (exec (start u) w)
    = outbox w ++ [answer u Config.start_message (Some (keyboard_of data (user_id u)))] /\
  (user_id u = admin_id data ->
   keyboard_of data (user_id u)
     = [[Config.main_button]; [Config.add_button; Config.remove_button]]) /\
  (user_id u <> admin_id data -> keyboard_of data (user_id u) = [[Config.main_button]]).
Proof.
  intros Hacc. cbv zeta.
  destruct (check_access_run w u) as (Hr & Ho & Hf & _).
  rewrite Hacc in Hr. inversion Hr as [Hok]. rewrite <- Hok in Ho. simpl in Ho.
  rewrite app_nil_r in Ho.
  split; [|split].
  - unfold exec, result in *. unfold start. unfold mbind at 1, M_bind at 1.
    destruct (check_access u w) as [r w1]. simpl in *. subst r.
    change (negb true) with false. cbv iota.
    destruct (create_keyboard_run w1 (user_id u)) as (Hk & Hko & _).
    unfold exec, result in *. unfold try_except, mbind, M_bind.
    destruct (create_keyboard (user_id u) w1) as [r2 w2]. simpl in *. subst r2.
    unfold reply_text, modify, mret, M_ret. simpl. rewrite Hko, Ho, Hf. reflexivity.
  - intros Ha. unfold keyboard_of. by rewrite bool_decide_eq_true_2.
  - intros Ha. unfold keyboard_of. by rewrite bool_decide_eq_false_2.
Qed.

Lemma lines_exist (kcs : list (string * Config.sheet_config)) (w : world) :
  (forall kc, kc ∈ kcs -> is_Some (cell_cache w !! kc.1)) ->
  exists lines,
    result (map_M result_line kcs) w = Ret lines /\
    Forall2 (fun kc line => exists e, cell_cache w !! kc.1 = Some e /\ line = line_of kc.2 e)
            kcs lines.
Proof.
  induction kcs as [|kc kcs IH]; intros Hkeys.
  - exists []. split; [reflexivity | constructor].
  - destruct IH as (lines & Hr & Hall); [intros kc' Hkc'; apply Hkeys; by right|].
    destruct (Hkeys kc) as [e He]; [by left|].
    exists (line_of kc.2 e :: lines). split.
    + unfold result in *. simpl. unfold mbind, M_bind.
      rewrite result_line_run, result_line_eq, He, lines_run. unfold result. rewrite Hr.
      reflexivity.
    + constructor; [eauto | exact Hall].
Qed.

(** X10. In every state the process can reach, [get_result] for a
    caller the access check lets in sends one reply holding one line
    per key of [SHEET_CONFIG], in that order, each the template filled
    with the key's cached value or the placeholder; it never falls
    into its error branch. *)
Theorem get_result_always_answers (f : file_state) (g0 : gsheets) (trace : list event)
    (u : update) :
  let w := run (boot f g0) trace in
  result (check_access u) w = Ret true ->
  exists lines,
    Forall2 (fun kc line => exists e, cell_cache w !! kc.1 = Some e /\ line = line_of kc.2 e)
            Config.SHEET_CONFIG lines /\
    outbox (exec (get_result u) w)
      = outbox w ++ [answer u (join nl lines)
                       (Some (keyboard_of (access_list (users_file w)) (user_id u)))].
Proof.
  cbv zeta. intros Hacc.
  set (w := run (boot f g0) trace) in *.
  destruct (lines_exist Config.SHEET_CONFIG w) as (lines & Hlines & Hall).
  { intros kc Hkc. apply (reachable_cache_wf f g0 trace).
    apply list_elem_of_fmap. exists kc. auto. }
  exists lines. split; [exact Hall|].
  destruct (check_access_run w u) as (Hr & Ho & Hf & Hc & _).
  rewrite Hacc in Hr. inversion Hr as [Hok]. rewrite <- Hok in Ho. simpl in Ho.
  rewrite app_nil_r in Ho.
  unfold exec, result in *. unfold get_result. unfold mbind at 1, M_bind at 1.
  destruct (check_access u w) as [r w1]. simpl in Hacc, Ho, Hf, Hc. subst r.
  change (negb true) with false. cbv iota.
  destruct (create_keyboard_run w1 (user_id u)) as (Hk & Hko & _ & Hkc & _).
  unfold exec, result in *. unfold try_except, mbind, M_bind.
  destruct (create_keyboard (user_id u) w1) as [r2 w2]. simpl in Hk, Hko, Hkc. subst r2.
  rewrite lines_run.
  rewrite (lines_read_the_cache Config.SHEET_CONFIG w2 w) by congruence.
  unfold result. rewrite Hlines. simpl. rewrite Hko, Ho, Hf. reflexivity.
Qed.

Lemma step_unresolved (w : world) (ev : event) (key : string) (e : cache_entry) :
  cell_cache w !! key = Some e -> sheet e = None \/ pos e = None ->
  cell_cache (step w ev) !! key = Some e.
Proof.
  intros He Hloc. destruct ev as [u disk|g]; simpl.
  - by rewrite (process_update_keeps_cache disk u w).
  - destruct (update_cache_refreshes g w) as (_ & _ & _ & _ & H).
    destruct (H key) as [->|(e0 & sh & r & c & v & He0 & Hsh & Hpos & _)]; [exact He|].
    rewrite He in He0. inversion He0; subst e0. destruct Hloc; congruence.
Qed.

Lemma run_unresolved (w : world) (trace : list event) (key : string) (e : cache_entry) :
  cell_cache w !! key = Some e -> sheet e = None \/ pos e = None ->
  cell_cache (run w trace) !! key = Some e.
Proof.
  revert w. induction trace as [|ev trace IH]; intros w He Hloc; [exact He|].
  unfold run in *. simpl. apply IH; [|exact Hloc]. by apply step_unresolved.
Qed.

(** X11. A key that start-up did not resolve is reported with the
    placeholder for the life of the process, whatever messages arrive
    and however often [update_cache] runs; this is the case of every
    key when the spreadsheet could not be opened at start-up. *)
Theorem unresolved_key_reports_placeholder (f : file_state) (g0 : gsheets)
    (trace : list event) (key : string) (cfg : Config.sheet_config) :
  (key, cfg) ∈ Config.SHEET_CONFIG ->
  open_by_key g0 = false \/
    (exists e, cell_cache (boot f g0) !! key = Some e /\ sheet e = None) ->
  result (result_line (key, cfg)) (run (boot f g0) trace)
    = Ret (Config.response_template (Config.title cfg) Config.na_value).
Proof.
  intros Hcfg Hun.
  assert (Hkey : key ∈ map fst Config.SHEET_CONFIG).
  { apply list_elem_of_fmap. exists (key, cfg). auto. }
  destruct (reachable_cache_wf f g0 [] key Hkey) as [e He].
  change (run (boot f g0) []) with (boot f g0) in He.
  assert (Hfresh : sheet e = None /\ value e = PyNone).
  { destruct Hun as [Hopen|(e' & He' & Hsh)].
    - assert (Hc : cell_cache (boot f g0) = cell_cache (fresh f)).
      { unfold boot, init_cache, initialize_google_sheets, exec. unfold_M.
        rewrite Hopen. reflexivity. }
      rewrite Hc in He. destruct (fresh_unset f key e He) as [Hl Hv].
      inversion Hl. auto.
    - rewrite He in He'. inversion He'; subst e'. split; [exact Hsh|].
      destruct (boot_entry f g0 key) as [Heq|(? & ? & ? & ? & ? & _ & _ & _ & _ & Hset)].
      + rewrite He in Heq. symmetry in Heq. by destruct (fresh_unset f key e Heq).
      + rewrite He in Hset. inversion Hset; subst e. discriminate. }
  destruct Hfresh as [Hsh Hv].
  rewrite result_line_eq. simpl.
  rewrite (run_unresolved (boot f g0) trace key e He (or_introl Hsh)).
  rewrite Hv. reflexivity.
Qed.

(** *** Start-up resolution, key by key *)

Lemma init_key_sets (g : gsheets) (key : string) (cfg : Config.sheet_config) (w : world)
    (sh : string) (r c : Z) (v : pyval) :
  is_Some (cell_cache w !! key) ->
  worksheet g (Config.sheet_name cfg) = Some sh ->
  find g sh (Config.search_phrase cfg) = Found r c ->
  cell g sh r (c + 1)%Z = Some v ->
  cell_cache (exec (init_key g (key, cfg)) w)
    = <[key := {| sheet := Some sh; pos := Some (r, (c + 1)%Z); value := v |}]> (cell_cache w).
Proof.
  intros [e He] Hsh Hfind Hv.
  unfold exec, init_key, cache_get, cache_put. unfold_M. simpl.
  rewrite Hsh. simpl. rewrite Hfind. simpl. rewrite He. simpl. rewrite Hv. reflexivity.
Qed.

Lemma init_key_present (g : gsheets) (kc : string * Config.sheet_config) (w : world)
    (key : string) :
  is_Some (cell_cache w !! key) -> is_Some (cell_cache (exec (init_key g kc) w) !! key).
Proof.
  intros Hkey. destruct kc as [k0 cfg0].
  destruct (init_key_effect g k0 cfg0 w) as [_ [->|(sh & r & c & v & _ & _ & _ & ->)]];
    [exact Hkey|].
  destruct (decide (k0 = key)) as [->|Hne].
  - rewrite lookup_insert_eq. eauto.
  - by rewrite lookup_insert_ne.
Qed.

Lemma init_loop_sets (g : gsheets) (kcs : list (string * Config.sheet_config)) (w : world)
    (key : string) (cfg : Config.sheet_config) (sh : string) (r c : Z) (v : pyval) :
  has_CellNotFound g = true ->
  NoDup (map fst kcs) ->
  (key, cfg) ∈ kcs ->
  is_Some (cell_cache w !! key) ->
  worksheet g (Config.sheet_name cfg) = Some sh ->
  find g sh (Config.search_phrase cfg) = Found r c ->
  cell g sh r (c + 1)%Z = Some v ->
  cell_cache (exec (for_each kcs (init_key g)) w) !! key
    = Some {| sheet := Some sh; pos := Some (r, (c + 1)%Z); value := v |}.
Proof.
  intros Hname Hnd Hin Hkey Hsh Hfind Hv. revert w Hkey.
  induction kcs as [|[k0 cfg0] kcs IH]; intros w Hkey; [inversion Hin|].
  simpl in Hnd. apply NoDup_cons in Hnd as [Hk0 Hnd].
  destruct (init_key_effect g k0 cfg0 w) as [Hr _].
  pose proof (for_each_cons_ok (k0, cfg0) kcs (init_key g) w (Hr Hname)) as Hunfold.
  unfold exec in *. rewrite Hunfold.
  apply elem_of_cons in Hin as [Heq|Hin].
  - inversion Heq; subst k0 cfg0.
    pose proof (init_key_sets g key cfg w sh r c v Hkey Hsh Hfind Hv) as Hset.
    unfold exec in Hset.
    destruct (init_loop_effect g kcs (init_key g (key, cfg) w).2 key)
      as [Hsame|(cfg' & ? & ? & ? & ? & Hin' & _)].
    + unfold exec in Hsame. rewrite Hsame, Hset. apply lookup_insert_eq.
    + exfalso. apply Hk0. apply list_elem_of_fmap. exists (key, cfg'). auto.
  - apply IH; [exact Hnd | exact Hin |].
    apply (init_key_present g (k0, cfg0) w key Hkey).
Qed.

(** X12. With a gspread that still has the exception class
    [CellNotFound] (before 6.0), start-up resolution is isolated per
    key: once the spreadsheet is open, a key whose own worksheet, search
    and read succeed gets its location and first value, whatever happens
    to the other keys; it keeps that location for the life of the
    process. *)
Theorem resolution_is_isolated_per_key (f : file_state) (g0 : gsheets)
    (key : string) (cfg : Config.sheet_config) (sh : string) (r c : Z) (v : pyval) :
  has_CellNotFound g0 = true ->
  (key, cfg) ∈ Config.SHEET_CONFIG ->
  open_by_key g0 = true ->
  worksheet g0 (Config.sheet_name cfg) = Some sh ->
  find g0 sh (Config.search_phrase cfg) = Found r c ->
  cell g0 sh r (c + 1)%Z = Some v ->
  cell_cache (boot f g0) !! key
    = Some {| sheet := Some sh; pos := Some (r, (c + 1)%Z); value := v |} /\
  forall trace,
    location <$> cell_cache (run (boot f g0) trace) !! key
      = Some (Some sh, Some (r, (c + 1)%Z)).
Proof.
  intros Hname Hcfg Hopen Hsh Hfind Hv.
  assert (Hboot : cell_cache (boot f g0) !! key
                  = Some {| sheet := Some sh; pos := Some (r, (c + 1)%Z); value := v |}).
  { assert (Hkey : is_Some (cell_cache (fresh f) !! key)).
    { apply fresh_cache_wf. apply list_elem_of_fmap. exists (key, cfg). auto. }
    assert (Hnd : NoDup (map fst Config.SHEET_CONFIG)) by by_deciding.
    pose proof (init_loop_sets g0 Config.SHEET_CONFIG (fresh f) key cfg sh r c v
                  Hname Hnd Hcfg Hkey Hsh Hfind Hv) as Hloop.
    unfold boot, init_cache, initialize_google_sheets, exec in *.
    remember (for_each Config.SHEET_CONFIG (init_key g0)) as loop eqn:Hl. clear Hl.
    remember (fresh f) as w0 eqn:Hw. clear Hw Hkey.
    unfold_M. rewrite Hopen. simpl in *.
    destruct (loop w0) as [[[]|e] w1]; simpl in *; exact Hloop. }
  split; [exact Hboot|].
  intros trace. rewrite run_location, Hboot. reflexivity.
Qed.

(** *** Start-up with a gspread that has no [CellNotFound] *)

Lemma init_key_raises (g : gsheets) (key : string) (cfg : Config.sheet_config) (w : world) :
  has_CellNotFound g = false -> resolves g cfg = false ->
  (exists e, result (init_key g (key, cfg)) w = Raise e) /\
  cell_cache (exec (init_key g (key, cfg)) w) = cell_cache w.
Proof.
  intros Hname Hres. unfold resolves in Hres.
  unfold init_key, cache_get, cache_put. unfold_M. simpl. rewrite Hname.
  destruct (worksheet g (Config.sheet_name cfg)) as [sh|]; simpl; [|eauto].
  destruct (find g sh (Config.search_phrase cfg)) as [r c| | |]; simpl;
    destruct (cell_cache w !! key) as [e|]; simpl; eauto.
  destruct (cell g sh r (c + 1)%Z) as [v|]; simpl; [discriminate | eauto].
Qed.

Lemma init_key_other (g : gsheets) (kc : string * Config.sheet_config) (w : world)
    (key : string) :
  key <> fst kc -> cell_cache (exec (init_key g kc) w) !! key = cell_cache w !! key.
Proof.
  destruct kc as [k0 cfg0]. intros Hne. cbn [fst] in Hne.
  destruct (init_key_effect g k0 cfg0 w) as [_ [->|(sh & r & c & v & _ & _ & _ & ->)]];
    [reflexivity|].
  rewrite lookup_insert_ne; [reflexivity | congruence].
Qed.

Lemma init_loop_stops (g : gsheets) (pre post : list (string * Config.sheet_config))
    (k : string) (cfg : Config.sheet_config) (w : world) (key : string) :
  has_CellNotFound g = false -> resolves g cfg = false ->
  NoDup (map fst (pre ++ (k, cfg) :: post)) ->
  key ∈ k :: map fst post ->
  (exists e, result (for_each (pre ++ (k, cfg) :: post) (init_key g)) w = Raise e) /\
  cell_cache (exec (for_each (pre ++ (k, cfg) :: post) (init_key g)) w) !! key
    = cell_cache w !! key.
Proof.
  intros Hname Hres Hnd Hkey. revert w.
  induction pre as [|[k0 cfg0] pre IH]; intros w.
  - destruct (init_key_raises g k cfg w Hname Hres) as [[e He] Hc].
    destruct (for_each_cons_cases (k, cfg) post (init_key g) w)
      as [[Hr _]|(e' & _ & Hunfold)]; [congruence|].
    simpl app. unfold exec, result in *. rewrite Hunfold. cbn [fst snd].
    split; [eauto | by rewrite Hc].
  - simpl in Hnd. apply NoDup_cons in Hnd as [Hk0 Hnd].
    assert (Hne : key <> k0).
    { intros ->. apply Hk0. rewrite map_app. apply elem_of_app. right. exact Hkey. }
    pose proof (init_key_other g (k0, cfg0) w key Hne) as Hhead.
    destruct (for_each_cons_cases (k0, cfg0) (pre ++ (k, cfg) :: post) (init_key g) w)
      as [[_ Hunfold]|(e' & _ & Hunfold)];
      simpl app; unfold exec, result in *; rewrite Hunfold.
    + destruct (IH Hnd (snd (init_key g (k0, cfg0) w))) as [Hr Hc].
      split; [exact Hr | by rewrite Hc].
    + cbn [fst snd]. split; [eauto | exact Hhead].
Qed.

(** X21. With a gspread that has no [CellNotFound] (6.0 and later),
    the first key whose resolution fails ends start-up: evaluating the
    first [except] clause raises, the loop is left and the failure is
    logged by the outer handler.  That key and every key listed after
    it, resolvable or not, stay as created for the life of the
    process. *)
Theorem first_failure_ends_start_up (f : file_state) (g0 : gsheets)
    (pre post : list (string * Config.sheet_config)) (k : string) (cfg : Config.sheet_config) :
  has_CellNotFound g0 = false ->
  Config.SHEET_CONFIG = pre ++ (k, cfg) :: post ->
  resolves g0 cfg = false ->
  last (log (boot f g0)) = Some init_error /\
  forall key, key ∈ k :: map fst post ->
    forall trace,
      cell_cache (run (boot f g0) trace) !! key = cell_cache (fresh f) !! key.
Proof.
  intros Hname Hcfg Hres.
  assert (Hnd : NoDup (map fst (pre ++ (k, cfg) :: post))).
  { rewrite <- Hcfg. by_deciding. }
  assert (Hboot : last (log (boot f g0)) = Some init_error /\
                  forall key, key ∈ k :: map fst post ->
                              cell_cache (boot f g0) !! key = cell_cache (fresh f) !! key).
  { assert (Hloop : forall key, key ∈ k :: map fst post ->
              (exists e, result (for_each Config.SHEET_CONFIG (init_key g0)) (fresh f) = Raise e) /\
              cell_cache (exec (for_each Config.SHEET_CONFIG (init_key g0)) (fresh f)) !! key
                = cell_cache (fresh f) !! key).
    { intros key Hkey. rewrite Hcfg.
      apply init_loop_stops; assumption. }
    unfold boot, init_cache, initialize_google_sheets, exec, result in *.
    remember (for_each Config.SHEET_CONFIG (init_key g0)) as loop eqn:Hl. clear Hl.
    remember (fresh f) as w0 eqn:Hw.
    assert (Hlog0 : log w0 = []) by (subst w0; reflexivity). clear Hw.
    unfold_M. destruct (open_by_key g0); simpl in *.
    - destruct (Hloop k ltac:(by left)) as [[e He] _].
      destruct (loop w0) as [[[]|e'] w1] eqn:Hrun; simpl in *; [discriminate|].
      split; [apply last_snoc|].
      intros key Hkey. destruct (Hloop key Hkey) as [_ Hc]. exact Hc.
    - split; [apply last_snoc | reflexivity]. }
  destruct Hboot as [Hlog Hkeys].
  split; [exact Hlog|].
  intros key Hkey trace.
  assert (Hin : key ∈ map fst Config.SHEET_CONFIG).
  { rewrite Hcfg, map_app. apply elem_of_app. right. exact Hkey. }
  destruct (fresh_cache_wf f key Hin) as [e He].
  destruct (fresh_unset f key e He) as [Hloc _]. inversion Hloc as [[Hsh Hpos]].
  rewrite He. apply run_unresolved; [|by left].
  rewrite Hkeys by exact Hkey. exact He.
Qed.

(** *** A refresh that fails part way *)

Lemma for_each_app_ok {A} (xs ys : list A) (body : A -> M unit) (w : world) :
  result (for_each xs body) w = Ret () ->
  for_each (xs ++ ys) body w = for_each ys body (exec (for_each xs body) w).
Proof.
  revert w. induction xs as [|x xs IH]; intros w Hr; [reflexivity|].
  unfold exec, result in *. simpl in *. unfold mbind, M_bind in *.
  destruct (body x w) as [[[]|e] w1]; simpl in *; [|discriminate].
  apply IH, Hr.
Qed.

Lemma for_each_update_prefix (g : gsheets) (pre : list string) (w : world) :
  NoDup pre ->
  (forall k, k ∈ pre ->
     exists e, cell_cache w !! k = Some e /\
               forall sh r c, sheet e = Some sh -> pos e = Some (r, c) ->
                              is_Some (cell g sh r c)) ->
  result (for_each pre (update_key g)) w = Ret () /\
  (forall k, k ∉ pre -> cell_cache (exec (for_each pre (update_key g)) w) !! k
                        = cell_cache w !! k) /\
  (forall k e sh r c v,
     k ∈ pre -> cell_cache w !! k = Some e -> sheet e = Some sh -> pos e = Some (r, c) ->
     cell g sh r c = Some v ->
     cell_cache (exec (for_each pre (update_key g)) w) !! k = Some (set_value v e)).
Proof.
  revert w. induction pre as [|k0 pre IH]; intros w Hnd Hpre.
  { split; [reflexivity|]. split; [reflexivity|]. intros k e sh r c v Hin. inversion Hin. }
  apply NoDup_cons in Hnd as [Hk0 Hnd].
  assert (Hhead : result (update_key g k0) w = Ret ()).
  { unfold result. rewrite update_key_eq.
    destruct (Hpre k0) as (e0 & He0 & Hread); [by left|]. rewrite He0.
    destruct (pos e0) as [[r c]|] eqn:Hpos; [|reflexivity].
    destruct (sheet e0) as [sh|] eqn:Hsh; [|reflexivity].
    destruct (Hread sh r c eq_refl eq_refl) as [v Hv]. rewrite Hv. reflexivity. }
  pose proof (for_each_cons_ok k0 pre (update_key g) w Hhead) as Hunfold.
  destruct (IH (exec (update_key g k0) w) Hnd) as (Hr & Hout & Hin).
  { intros k Hk. destruct (Hpre k) as (e & He & Hread); [by right|].
    exists e. split; [|exact Hread].
    rewrite update_key_other; [exact He|]. intros ->. contradiction. }
  unfold exec, result in *. rewrite Hunfold.
  split; [exact Hr|]. split.
  - intros k Hk. apply not_elem_of_cons in Hk as [Hne Hk].
    rewrite (Hout k Hk). pose proof (update_key_other g k0 k w) as Ho. unfold exec in Ho.
    apply Ho. congruence.
  - intros k e sh r c v Hk He Hsh Hpos Hv.
    apply elem_of_cons in Hk as [->|Hk].
    + rewrite (Hout k0 Hk0). rewrite update_key_eq, He, Hpos, Hsh, Hv. simpl.
      apply lookup_insert_eq.
    + eapply Hin; eauto.
      pose proof (update_key_other g k0 k w) as Ho. unfold exec in Ho.
      rewrite Ho; [exact He|]. intros ->. contradiction.
Qed.

(** X13. A run of [update_cache] in which the read for one key fails
    keeps what it did before the failure: the resolved keys that come
    earlier in [SHEET_CONFIG] hold the values just read, the failing
    key and every key after it hold what they held, and one error is
    logged. *)
Theorem refresh_keeps_the_keys_before_the_failure (g : gsheets) (w : world)
    (pre post : list string) (k : string) (e : cache_entry) (sh : string) (r c : Z) :
  map fst Config.SHEET_CONFIG = pre ++ k :: post ->
  (forall k', k' ∈ pre ->
     exists e', cell_cache w !! k' = Some e' /\
                forall sh' r' c', sheet e' = Some sh' -> pos e' = Some (r', c') ->
                                  is_Some (cell g sh' r' c')) ->
  cell_cache w !! k = Some e -> sheet e = Some sh -> pos e = Some (r, c) ->
  cell g sh r c = None ->
  let w' := exec (update_cache g) w in
  (forall k' e' sh' r' c' v,
     k' ∈ pre -> cell_cache w !! k' = Some e' -> sheet e' = Some sh' -> pos e' = Some (r', c') ->
     cell g sh' r' c' = Some v ->
     cell_cache w' !! k' = Some (set_value v e')) /\
  (forall k', k' ∉ pre -> cell_cache w' !! k' = cell_cache w !! k') /\
  log w' = log w ++ [refresh_error].
Proof.
  intros Hkeys Hpre He Hsh Hpos Hv. cbv zeta.
  assert (Hnd : NoDup (pre ++ k :: post)) by (rewrite <- Hkeys; by_deciding).
  apply NoDup_app in Hnd as (Hnd & Hdisj & _).
  assert (Hk : k ∉ pre) by (intros Hin; apply (Hdisj k Hin); by left).
  destruct (for_each_update_prefix g pre w Hnd Hpre) as (Hr & Hout & Hin).
  pose proof (for_each_app_ok pre (k :: post) (update_key g) w Hr) as Happ.
  assert (Hlog : log (exec (for_each pre (update_key g)) w) = log w).
  { clear. revert w. induction pre as [|k0 pre IH]; intros w; [reflexivity|].
    unfold exec in *. simpl. unfold mbind, M_bind.
    assert (Hl : log (update_key g k0 w).2 = log w).
    { rewrite update_key_eq. destruct (cell_cache w !! k0) as [e|]; [|reflexivity].
      destruct (pos e) as [[r c]|]; [|reflexivity]. destruct (sheet e); [|reflexivity].
      destruct (cell g _ r c); reflexivity. }
    destruct (update_key g k0 w) as [[[]|] w1]; simpl in *; [|exact Hl].
    rewrite IH. exact Hl. }
  assert (Hfail : update_key g k (exec (for_each pre (update_key g)) w)
                  = (Raise APIError, exec (for_each pre (update_key g)) w)).
  { rewrite update_key_eq, (Hout k Hk), He, Hpos, Hsh, Hv. reflexivity. }
  assert (Hrun : update_cache g w
                 = (Ret (), set_log (log w ++ [refresh_error])
                              (exec (for_each pre (update_key g)) w))).
  { unfold update_cache, try_except, exec in *. rewrite Hkeys, Happ.
    simpl for_each. unfold mbind at 1, M_bind at 1. rewrite Hfail.
    simpl. unfold logging, modify. rewrite Hlog. reflexivity. }
  unfold exec in *. rewrite Hrun. simpl. split; [exact Hin|]. split; [exact Hout|reflexivity].
Qed.

(** *** Dispatch *)

Lemma button_is_text (u : update) (button : string) :
  button <> "" -> text u = button -> (TEXT u && Regex button u)%bool = true.
Proof.
  intros Hne Htext. unfold TEXT, Regex. rewrite Htext, String.eqb_refl. simpl.
  destruct (String.eqb button "") eqn:E; [apply String.eqb_eq in E; contradiction | reflexivity].
Qed.

(** X14. The administrator check of [handle_buttons] is never reached:
    whenever the dispatch of [main] hands an update to [handle_buttons],
    its text is neither the add nor the remove button, because the
    conversation handler, first in the group, has taken those.  What
    [handle_buttons] then does is [get_result] for the query button and
    nothing for any other text. *)
Theorem admin_guard_is_never_reached (w : world) (u : update) :
  conv_check_update w u = None ->
  (TEXT u && negb (COMMAND u))%bool = true ->
  (text u <> Config.add_button /\ text u <> Config.remove_button) /\
  handle_buttons u w
    = (load_users ≫= fun _ =>
         if bool_decide (text u = Config.main_button) then get_result u else mret RetNone) w.
Proof.
  intros Hconv Hplain.
  assert (Hnot : text u <> Config.add_button /\ text u <> Config.remove_button).
  { unfold conv_check_update in Hconv.
    destruct (conversations w !! conv_key u) as [s|].
    - rewrite first_match_states, Hplain in Hconv. discriminate.
    - unfold first_match, entry_points, MessageHandler in Hconv. simpl in Hconv.
      split; intros Htext.
      + rewrite (button_is_text u Config.add_button) in Hconv by (discriminate || exact Htext).
        discriminate.
      + rewrite (button_is_text u Config.remove_button) in Hconv
          by (discriminate || exact Htext).
        destruct (TEXT u && Regex Config.add_button u)%bool; discriminate. }
  split; [exact Hnot|]. destruct Hnot as [Hadd Hrm].
  unfold handle_buttons. unfold mbind, M_bind.
  destruct (load_users w) as [[data|e] w1]; [|reflexivity].
  assert (Hguard : bool_decide (text u ∈ [Config.add_button; Config.remove_button]) = false).
  { apply bool_decide_eq_false_2. intros Hin.
    apply elem_of_cons in Hin as [?|Hin]; [contradiction|].
    apply elem_of_cons in Hin as [?|Hin]; [contradiction|]. inversion Hin. }
  rewrite Hguard. simpl.
  rewrite (bool_decide_eq_false_2 _ Hadd), (bool_decide_eq_false_2 _ Hrm).
  destruct (bool_decide (text u = Config.main_button)); reflexivity.
Qed.


Lemma cancel_run (w : world) (u : update) :
  result (cancel u) w = Raise (NameError "keyboard") /\
  chat_data (exec (cancel u) w) = delete (chat_id u) (chat_data w) /\
  users_file (exec (cancel u) w) = users_file w /\
  conversations (exec (cancel u) w) = conversations w /\
  outbox (exec (cancel u) w) = outbox w.
Proof.
  run_handler. destruct (chat_data w !! chat_id u) eqn:Hs; simpl; rewrite ?Hs; simpl.
  - repeat split.
  - repeat split. symmetry. by apply delete_id.
Qed.

Lemma cancel_step (w : world) (u : update) (disk : write_outcome) (s : States) :
  conversations w !! conv_key u = Some s ->
  command u = Some "cancel" ->
  let w' := step w (Incoming u disk) in
  chat_data w' = delete (chat_id u) (chat_data w) /\
  users_file w' = users_file w /\
  conversations w' = conversations w /\
  outbox w' = outbox w.
Proof.
  intros Hconv Hcmd. cbv zeta. simpl.
  unfold process_update. unfold_M. unfold conv_check_update. rewrite Hconv.
  rewrite first_match_states.
  assert (Hc : COMMAND u = true).
  { unfold COMMAND. rewrite Hcmd. apply bool_decide_eq_true. eauto. }
  rewrite Hc, andb_false_r.
  unfold first_match, fallbacks, CommandHandler. simpl.
  rewrite bool_decide_eq_true_2 by (rewrite Hcmd; reflexivity).
  unfold conv_handle_update. unfold_M. simpl.
  destruct (cancel_run w u) as (Hr & Hd & Hf & Hv & Ho).
  unfold exec, result in *.
  destruct (cancel u w) as [r w1]. simpl in *. subst r. simpl. auto.
Qed.

(** X16. After [/cancel] in a conversation, the next plain text from
    the same sender in the same chat ends the conversation without
    touching the users file: text that [int] rejects is answered with
    the invalid-format message, an identity with the unknown-state
    message, and the conversation handler drops the conversation. *)
Theorem text_after_cancel_ends_the_conversation (w : world) (uc u : update)
    (disk disk' : write_outcome) (s : States) :
  conversations w !! conv_key uc = Some s ->
  command uc = Some "cancel" ->
  chat_id u = chat_id uc -> user_id u = user_id uc ->
  text u <> "" -> command u = None ->
  let w' := run w [Incoming uc disk; Incoming u disk'] in
  conversations w' !! conv_key u = None /\
  chat_data w' !! chat_id u = None /\
  users_file w' = users_file w /\
  outbox w' = outbox w ++ [answer u (match py_int (text u) with
                                     | Some _ => unknown_state
                                     | None => Config.invalid_id
                                     end) None].
Proof.
  intros Hconv Hcmd Hchat Huser Htext Hplain. cbv zeta.
  change (run w [Incoming uc disk; Incoming u disk'])
    with (step (step w (Incoming uc disk)) (Incoming u disk')).
  destruct (cancel_step w uc disk s Hconv Hcmd) as (Hd & Hf & Hv & Ho).
  set (w1 := step w (Incoming uc disk)) in *.
  assert (Hkey : conv_key u = conv_key uc) by (unfold conv_key; congruence).
  assert (Hconv1 : conversations w1 !! conv_key u = Some s) by (by rewrite Hv, Hkey).
  assert (Hs1 : chat_data w1 !! chat_id u = None).
  { rewrite Hd, Hchat. apply lookup_delete_eq. }
  destruct (py_int (text u)) as [n|] eqn:Hparse.
  - destruct (process_user_id_idle w1 u disk' n Hs1) as (Hr & Ho2 & Hd2 & Hf2 & _).
    unfold exec, result in *.
    assert (Hrun : handle_user_id_input disk' u w1 = (Ret END, (process_user_id disk' u n w1).2)).
    { rewrite handle_user_id_input_valid with (uid := n) by exact Hparse.
      destruct (process_user_id disk' u n w1); simpl in *; congruence. }
    rewrite (step_in_conversation w1 _ u disk' s END Hconv1 Htext Hplain Hrun).
    simpl. rewrite lookup_delete_eq, Hd2, Hf2, Ho2, Hf, Ho. auto.
  - pose proof (handle_user_id_input_invalid w1 u disk' Hparse) as Hrun.
    rewrite Hs1 in Hrun.
    rewrite (step_in_conversation w1 _ u disk' s END Hconv1 Htext Hplain Hrun).
    simpl. rewrite lookup_delete_eq, Hf, Ho. auto.
Qed.

Lemma remove_entry_step (w : world) (u : update) (disk : write_outcome) :
  conversations w !! conv_key u = None ->
  text u = Config.remove_button ->
  let w' := step w (Incoming u disk) in
  chat_data w' = <[chat_id u := AWAIT_USER_ID_REMOVE]> (chat_data w) /\
  conversations w' = <[conv_key u := AWAIT_USER_ID_REMOVE]> (conversations w) /\
  users_file w' = users_file w.
Proof.
  intros Hconv Htext. cbv zeta. simpl.
  unfold process_update. unfold_M. unfold conv_check_update. rewrite Hconv.
  assert (Hfirst : first_match entry_points u
                   = Some (MessageHandler
                             (fun u => TEXT u && Regex Config.remove_button u)%bool
                             (fun _ => remove_user))).
  { unfold first_match, entry_points, TEXT, Regex. simpl. rewrite Htext. reflexivity. }
  rewrite Hfirst. unfold conv_handle_update. unfold_M. simpl.
  destruct (remove_user_effect w u) as (Hr & Hc & Hf & Hcv & _).
  unfold exec, result in Hr, Hc, Hf, Hcv.
  destruct (remove_user u w) as [r w1]. simpl in *. subst r. simpl.
  rewrite Hc, Hcv, Hf. auto.
Qed.

(** X17. The pending action belongs to the chat, not to the sender.  In
    a chat where one user is in a conversation after the add trigger,
    the remove trigger of another user overwrites the chat's stored
    state; the identity the first user then sends is removed from the
    list, not added, and the second user stays in a conversation whose
    chat state is gone. *)
Theorem pending_action_follows_the_chat (w : world) (ua ub : update)
    (disk : write_outcome) (n : Z) (l : list Z) :
  chat_id ua = chat_id ub -> user_id ua <> user_id ub ->
  conversations w !! conv_key ua = Some AWAIT_USER_ID_ADD ->
  conversations w !! conv_key ub = None ->
  text ub = Config.remove_button ->
  text ua <> "" -> command ua = None ->
  py_int (text ua) = Some n ->
  list_remove n (allowed_users (access_list (users_file w))) = Some l ->
  let w' := run w [Incoming ub disk; Incoming ua WriteOk] in
  users_file w'
    = FileJson (Some (admin_id (access_list (users_file w)))) (Some l) /\
  last (outbox w') = Some (answer ua (user_removed n) None) /\
  conversations w' !! conv_key ua = None /\
  conversations w' !! conv_key ub = Some AWAIT_USER_ID_REMOVE /\
  chat_data w' !! chat_id ub = None.
Proof.
  intros Hchat Huser Hca Hcb Htb Hta Hcmd Hparse Hl. cbv zeta.
  change (run w [Incoming ub disk; Incoming ua WriteOk])
    with (step (step w (Incoming ub disk)) (Incoming ua WriteOk)).
  destruct (remove_entry_step w ub disk Hcb Htb) as (Hd1 & Hv1 & Hf1).
  set (w1 := step w (Incoming ub disk)) in *.
  assert (Hkeys : conv_key ub <> conv_key ua).
  { unfold conv_key. intros Heq. inversion Heq. congruence. }
  assert (Hca1 : conversations w1 !! conv_key ua = Some AWAIT_USER_ID_ADD).
  { rewrite Hv1, lookup_insert_ne by exact Hkeys. exact Hca. }
  assert (Hs1 : chat_data w1 !! chat_id ua = Some AWAIT_USER_ID_REMOVE).
  { rewrite Hd1, Hchat. apply lookup_insert_eq. }
  assert (Hl1 : list_remove n (allowed_users (access_list (users_file w1))) = Some l)
    by (by rewrite Hf1).
  destruct (process_user_id_remove_known w1 ua WriteOk n l Hs1 Hl1)
    as (Hr & Ho & Hd & Hf & _ & Hv & _).
  unfold exec, result in *.
  assert (Hrun : handle_user_id_input WriteOk ua w1
                 = (Ret END, (process_user_id WriteOk ua n w1).2)).
  { rewrite handle_user_id_input_valid with (uid := n) by exact Hparse.
    destruct (process_user_id WriteOk ua n w1); simpl in *; congruence. }
  rewrite (step_in_conversation w1 _ ua WriteOk _ END Hca1 Hta Hcmd Hrun).
  simpl. rewrite Hf, Ho, Hv, Hd, Hf1. simpl.
  rewrite lookup_delete_eq, last_snoc.
  rewrite lookup_delete_ne by congruence. rewrite Hv1, lookup_insert_eq.
  rewrite <- Hchat, lookup_delete_eq. auto.
Qed.

(** *** Queries are read-only *)

Lemma query_frame {B} (proj : world -> B) (u : update) :
  (forall o w, proj (set_outbox o w) = proj w) ->
  (forall l w, proj (set_log l w) = proj w) ->
  forall w, proj (exec (start u) w) = proj w /\ proj (exec (get_result u) w) = proj w.
Proof.
  intros Hout Hlog w.
  assert (Hs : preserves (fun w0 => proj w0 = proj w) (start u))
    by preserves_with ltac:(rewrite ?Hout, ?Hlog; assumption).
  assert (Hg : preserves (fun w0 => proj w0 = proj w) (get_result u))
    by preserves_with ltac:(rewrite ?Hout, ?Hlog; assumption).
  split; [apply Hs | apply Hg]; reflexivity.
Qed.

(** X18. [start] and [get_result] are read-only and answer exactly once:
    for every caller and every state they send one reply and leave the
    users file, the cache, the chat states and the conversations as
    they were. *)
Theorem queries_reply_once_and_change_nothing (w : world) (u : update) :
  forall handler, handler = start \/ handler = get_result ->
    let w' := exec (handler u) w in
    users_file w' = users_file w /\ cell_cache w' = cell_cache w /\
    chat_data w' = chat_data w /\ conversations w' = conversations w /\
    exists m, outbox w' = outbox w ++ [m].
Proof.
  intros handler Hh. cbv zeta.
  assert (Hframe : users_file (exec (handler u) w) = users_file w /\
                   cell_cache (exec (handler u) w) = cell_cache w /\
                   chat_data (exec (handler u) w) = chat_data w /\
                   conversations (exec (handler u) w) = conversations w).
  { destruct Hh as [-> | ->]; repeat split;
      first [ apply (query_frame users_file u) | apply (query_frame cell_cache u)
            | apply (query_frame chat_data u) | apply (query_frame conversations u) ];
      reflexivity. }
  destruct Hframe as (Hf & Hc & Hd & Hv). repeat split; try assumption.
  destruct (check_access_run w u) as (Hr & Ho & _).
  unfold exec, result in *.
  destruct (check_access u w) as [r w1] eqn:Hrun. simpl in Hr, Ho. subst r.
  destruct (bool_decide (user_id u = admin_id (access_list (users_file w)))
            || py_in (user_id u) (allowed_users (access_list (users_file w))))%bool.
  - rewrite app_nil_r in Ho.
    destruct (create_keyboard_run w1 (user_id u)) as (Hk & Hko & _).
    unfold exec, result in *.
    destruct (create_keyboard (user_id u) w1) as [r2 w2] eqn:Hkb. simpl in Hk, Hko. subst r2.
    destruct Hh as [-> | ->]; [unfold start | unfold get_result];
      rewrite (bind_run _ _ w w1 true Hrun); change (negb true) with false; cbv iota;
      unfold try_except; rewrite (bind_run _ _ w1 w2 _ Hkb).
    + eexists. simpl. rewrite Hko, Ho. reflexivity.
    + unfold mbind, M_bind. rewrite lines_run.
      destruct (result (map_M result_line Config.SHEET_CONFIG) w2); simpl;
        eexists; rewrite Hko, Ho; reflexivity.
  - destruct Hh as [-> | ->]; [unfold start | unfold get_result];
      rewrite (bind_run _ _ w w1 false Hrun); simpl; eauto.
Qed.

(** X19. A user who has just been added is let in on their next
    request: before the add the access check refuses the identity
    (when it is not the administrator's), after the add, written to
    disk, it lets it in. *)
Theorem added_user_is_let_in (w : world) (u v x : update) (n : Z) :
  chat_id v = chat_id u ->
  py_int (text v) = Some n ->
  n ∉ allowed_users (access_list (users_file w)) ->
  user_id x = n ->
  let w' := exec (handle_user_id_input WriteOk v) (exec (add_user u) w) in
  (n <> admin_id (access_list (users_file w)) -> result (check_access x) w = Ret false) /\
  result (check_access x) w' = Ret true.
Proof.
  intros Hchat Hparse Hnew Hx. cbv zeta. split.
  - intros Hadm. destruct (check_access_run w x) as (Hr & _). rewrite Hr, Hx.
    rewrite (bool_decide_eq_false_2 _ Hadm). apply py_in_spec' in Hnew. rewrite Hnew.
    reflexivity.
  - pose proof (add_user_effect w u) as (_ & Hc1 & Hf1 & _ & _ & _).
    set (w1 := exec (add_user u) w) in *.
    assert (Hs1 : chat_data w1 !! chat_id v = Some AWAIT_USER_ID_ADD).
    { rewrite Hc1, Hchat. apply lookup_insert_eq. }
    assert (Hnew1 : n ∉ allowed_users (access_list (users_file w1))) by (by rewrite Hf1).
    pose proof (process_user_id_add_new w1 v WriteOk n Hs1 Hnew1) as (_ & _ & _ & Hf2 & _).
    unfold exec in Hf2 |- *.
    rewrite handle_user_id_input_valid with (uid := n) by exact Hparse.
    destruct (check_access_run (process_user_id WriteOk v n w1).2 x) as (Hr & _).
    unfold exec, result in *. rewrite Hr, Hf2, Hx. simpl.
    assert (Hin : py_in n (allowed_users (access_list (users_file w1)) ++ [n]) = true).
    { apply py_in_spec. apply elem_of_app. right. by apply list_elem_of_singleton. }
    rewrite Hin, orb_true_r. reflexivity.
Qed.

(** X20. A run of [update_cache] in which no read fails refreshes every
    resolved key of [SHEET_CONFIG] with the value read at its
    location, leaves the keys without a location as they are and
    writes nothing to the log. *)
Theorem clean_refresh_updates_every_resolved_key (g : gsheets) (w : world) :
  cache_wf w -> reads_ok g w ->
  let w' := exec (update_cache g) w in
  log w' = log w /\
  forall key e,
    key ∈ map fst Config.SHEET_CONFIG -> cell_cache w !! key = Some e ->
    (forall sh r c v, sheet e = Some sh -> pos e = Some (r, c) -> cell g sh r c = Some v ->
                      cell_cache w' !! key = Some (set_value v e)) /\
    (sheet e = None \/ pos e = None -> cell_cache w' !! key = Some e).
Proof.
  intros Hwf Hok. cbv zeta.
  destruct (for_each_update_success g (map fst Config.SHEET_CONFIG) w Hwf Hok) as [Hr Hval].
  pose proof (for_each_update_refreshes g (map fst Config.SHEET_CONFIG) w) as Href.
  assert (Hlog : forall ks w0, log (exec (for_each ks (update_key g)) w0) = log w0).
  { clear. induction ks as [|k0 ks IH]; intros w0; [reflexivity|].
    unfold exec in *. simpl. unfold mbind, M_bind.
    assert (Hl : log (update_key g k0 w0).2 = log w0).
    { rewrite update_key_eq. destruct (cell_cache w0 !! k0) as [e|]; [|reflexivity].
      destruct (pos e) as [[r c]|]; [|reflexivity]. destruct (sheet e); [|reflexivity].
      destruct (cell g _ r c); reflexivity. }
    destruct (update_key g k0 w0) as [[[]|] w1]; simpl in *; [|exact Hl].
    rewrite IH. exact Hl. }
  specialize (Hlog (map fst Config.SHEET_CONFIG) w).
  unfold update_cache, try_except, exec, result in *.
  destruct (for_each (map fst Config.SHEET_CONFIG) (update_key g) w) as [[[]|] w1];
    simpl in *; [|discriminate].
  split; [exact Hlog|].
  intros key e Hkey He. split.
  - intros sh r c v Hsh Hpos Hv. eapply Hval; eauto.
  - intros Hloc. destruct Href as (_ & _ & _ & _ & H).
    destruct (H key) as [->|(e0 & sh & r & c & v & He0 & Hsh & Hpos & _)]; [exact He|].
    rewrite He in He0. inversion He0; subst e0. destruct Hloc; congruence.
Qed.

End Further.


(** ** The further properties at sample inputs *)

Lemma default_list_admits_only_admin_witness :
  let w := fresh FileUnreadable in
  users_file w = FileUnreadable /\
  result (check_access (RT := rt) (says 1 1 "x")) w = Ret true /\
  result (check_access (RT := rt) (says 7 7 "x")) w = Ret false.
Proof.
  cbv zeta. split; [reflexivity|]. split.
  - destruct (default_list_admits_only_admin (RT := rt) (fresh FileUnreadable) (says 1 1 "x")
                (or_intror eq_refl)) as (_ & Ht & _).
    apply Ht. reflexivity.
  - destruct (default_list_admits_only_admin (RT := rt) (fresh FileUnreadable) (says 7 7 "x")
                (or_intror eq_refl)) as (_ & _ & Hf & _).
    apply Hf. discriminate.
Defined.

Lemma failed_dump_loses_the_list_witness :
  let w := pending (FileJson (Some 1%Z) (Some [5%Z])) AWAIT_USER_ID_ADD in
  let u := says 1 1 "42" in
  let w' := exec (handle_user_id_input (RT := rt) DumpFails u) w in
  let later := [Job (all_cells "7"); Incoming (says 1 1 Config.add_button) OpenFails;
                Incoming (says 1 1 "7") OpenFails] in
  (chat_data w !! chat_id u = Some AWAIT_USER_ID_ADD /\ @py_int rt (text u) = Some 42%Z /\
   result (check_access (RT := rt) (says 5 5 "x")) w = Ret true /\
   forallb no_write later = true) /\
  outbox w' = [answer u (user_added 42) None] /\
  users_file w' = FileUnreadable /\
  result (check_access (RT := rt) (says 5 5 "x")) w' = Ret false /\
  result (check_access (RT := rt) (says 5 5 "x")) (run (RT := rt) w' later) = Ret false /\
  result (check_access (RT := rt) (says 7 7 "x")) (run (RT := rt) w' later) = Ret false.
Proof.
  cbv zeta.
  assert (H1 : chat_data (pending (FileJson (Some 1%Z) (Some [5%Z])) AWAIT_USER_ID_ADD)
                 !! chat_id (says 1 1 "42") = Some AWAIT_USER_ID_ADD)
    by (vm_compute; reflexivity).
  assert (H2 : @py_int rt (text (says 1 1 "42")) = Some 42%Z) by (vm_compute; reflexivity).
  destruct (failed_dump_loses_the_list (RT := rt) _ _ AWAIT_USER_ID_ADD 42%Z H1 H2)
    as (Ho & Hf & _ & Hdenied & Hlater).
  - intros _. by_deciding.
  - discriminate.
  - split; [split; [exact H1 | split; [exact H2 | split; reflexivity]]|].
    split; [exact Ho|]. split; [exact Hf|].
    split; [apply Hdenied; discriminate|].
    destruct (Hlater [Job (all_cells "7"); Incoming (says 1 1 Config.add_button) OpenFails;
                      Incoming (says 1 1 "7") OpenFails] eq_refl) as (_ & _ & Hkept).
    split; apply Hkept; discriminate.
Defined.

Lemma remove_of_unlisted_changes_nothing_witness :
  let w := fresh (FileJson (Some 1%Z) (Some [5%Z])) in
  let u := says 1 1 Config.remove_button in
  let v := says 1 1 "99" in
  let w' := exec (handle_user_id_input (RT := rt) DumpFails v) (exec (remove_user (RT := rt) u) w) in
  (chat_id v = chat_id u /\ @py_int rt (text v) = Some 99%Z) /\
  last (outbox w') = Some (answer v user_not_found None) /\
  users_file w' = users_file w /\
  chat_data w' !! chat_id u = None.
Proof.
  cbv zeta.
  assert (H2 : @py_int rt (text (says 1 1 "99")) = Some 99%Z) by (vm_compute; reflexivity).
  destruct (remove_of_unlisted_changes_nothing (RT := rt)
              (fresh (FileJson (Some 1%Z) (Some [5%Z])))
              (says 1 1 Config.remove_button) (says 1 1 "99") DumpFails 99%Z
              eq_refl H2 ltac:(by_deciding)) as (_ & Ho & Hf & Hc).
  repeat split; assumption.
Defined.

Lemma add_then_remove_restores_the_list_witness :
  let w := fresh (FileJson (Some 1%Z) (Some [5%Z])) in
  let u := says 1 1 Config.add_button in
  let v := says 1 1 "42" in
  let added := exec (handle_user_id_input (RT := rt) WriteOk v) (exec (add_user (RT := rt) u) w) in
  let removed := exec (handle_user_id_input (RT := rt) WriteOk v)
                   (exec (remove_user (RT := rt) u) added) in
  (chat_id v = chat_id u /\ @py_int rt (text v) = Some 42%Z) /\
  42%Z ∈ allowed_users (access_list (RT := rt) (users_file added)) /\
  access_list (RT := rt) (users_file removed) = access_list (RT := rt) (users_file w).
Proof.
  cbv zeta.
  assert (H2 : @py_int rt (text (says 1 1 "42")) = Some 42%Z) by (vm_compute; reflexivity).
  destruct (add_then_remove_restores_the_list (RT := rt)
              (fresh (FileJson (Some 1%Z) (Some [5%Z])))
              (says 1 1 Config.add_button) (says 1 1 "42") 42%Z
              eq_refl H2 ltac:(by_deciding)) as (Hin & Hsame & _).
  repeat split; assumption.
Defined.

Lemma update_touches_its_own_slots_witness :
  let u := says 1 1 "42" in
  let w' := step (RT := rt) two_chats (Incoming u WriteOk) in
  (2%Z <> chat_id u /\ (2%Z, 2%Z) <> conv_key u) /\
  chat_data w' !! 1%Z = None /\
  chat_data w' !! 2%Z = chat_data two_chats !! 2%Z /\
  conversations w' !! (2%Z, 2%Z) = conversations two_chats !! (2%Z, 2%Z).
Proof.
  cbv zeta.
  destruct (update_touches_its_own_slots (RT := rt) two_chats) as [Hmsg _].
  destruct (Hmsg (says 1 1 "42") WriteOk) as (Hc & Hv & _).
  split; [split; discriminate|].
  split; [vm_compute; reflexivity|].
  split; [apply Hc | apply Hv]; discriminate.
Defined.

Lemma allowed_list_stays_duplicate_free_witness :
  let w := pending (FileJson (Some 1%Z) (Some [5%Z])) AWAIT_USER_ID_ADD in
  let trace := [Incoming (says 1 1 "42") WriteOk; Incoming (says 1 1 Config.add_button) WriteOk;
                Incoming (says 1 1 "42") DumpFails] in
  NoDup (allowed_users (access_list (RT := rt) (users_file w))) /\
  users_file (run (RT := rt) w [Incoming (says 1 1 "42") WriteOk])
    = FileJson (Some 1%Z) (Some [5%Z; 42%Z]) /\
  NoDup (allowed_users (access_list (RT := rt) (users_file (run (RT := rt) w trace)))).
Proof.
  cbv zeta.
  assert (H1 : NoDup (allowed_users (access_list (RT := rt)
                 (users_file (pending (FileJson (Some 1%Z) (Some [5%Z])) AWAIT_USER_ID_ADD)))))
    by by_deciding.
  split; [exact H1|]. split; [vm_compute; reflexivity|].
  apply (allowed_list_stays_duplicate_free (RT := rt)). exact H1.
Defined.

Lemma administrator_is_never_replaced_witness :
  let w := fresh FileMissing in
  let trace := [Incoming (says 7 7 Config.add_button) WriteOk; Incoming (says 7 7 "7") WriteOk] in
  admin_id (access_list (RT := rt) (users_file w)) = @ADMIN_ID rt /\
  users_file (run (RT := rt) w trace) = FileJson (Some 1%Z) (Some [7%Z]) /\
  admin_id (access_list (RT := rt) (users_file (run (RT := rt) w trace))) = @ADMIN_ID rt.
Proof.
  cbv zeta. split; [reflexivity|]. split; [vm_compute; reflexivity|].
  destruct (administrator_is_never_replaced (RT := rt) (fresh FileMissing)
              [Incoming (says 7 7 Config.add_button) WriteOk; Incoming (says 7 7 "7") WriteOk])
    as [_ Hkept].
  apply Hkept. reflexivity.
Defined.

Lemma refused_caller_gets_only_the_refusal_witness :
  let u := says 7 7 Config.main_button in
  let w' := exec (get_result (RT := rt) u) started in
  (user_id u <> admin_id (access_list (RT := rt) (users_file started)) /\
   user_id u ∉ allowed_users (access_list (RT := rt) (users_file started))) /\
  outbox w' = [answer u (Config.access_denied 7) None] /\
  cell_cache w' = cell_cache started.
Proof.
  cbv zeta.
  assert (H1 : user_id (says 7 7 Config.main_button)
               <> admin_id (access_list (RT := rt) (users_file started))) by discriminate.
  assert (H2 : user_id (says 7 7 Config.main_button)
               ∉ allowed_users (access_list (RT := rt) (users_file started))) by by_deciding.
  destruct (refused_caller_gets_only_the_refusal (RT := rt) started _ H1 H2
              get_result (or_intror eq_refl)) as (_ & Ho & _ & Hc & _).
  repeat split; assumption.
Defined.

Lemma start_shows_admin_buttons_to_admin_only_witness :
  let w := fresh (FileJson (Some 1%Z) (Some [5%Z])) in
  let u := says 5 5 "/start" in
  result (check_access (RT := rt) u) w = Ret true /\
  outbox (exec (start (RT := rt) u) w)
    = [answer u Config.start_message (Some [[Config.main_button]])].
Proof.
  cbv zeta.
  assert (H1 : result (check_access (RT := rt) (says 5 5 "/start"))
                 (fresh (FileJson (Some 1%Z) (Some [5%Z]))) = Ret true)
    by (vm_compute; reflexivity).
  destruct (start_shows_admin_buttons_to_admin_only (RT := rt) _ _ H1) as (Ho & _ & Hkb).
  split; [exact H1|]. rewrite Ho, Hkb by discriminate. reflexivity.
Defined.

Lemma get_result_always_answers_witness :
  let w := run (RT := rt) started [Job (first_sheet_down "250")] in
  let u := says 1 1 Config.main_button in
  result (check_access (RT := rt) u) w = Ret true /\
  exists lines,
    Forall2 (fun kc line => exists e, cell_cache w !! kc.1 = Some e /\ line = line_of kc.2 e)
            Config.SHEET_CONFIG lines /\
    outbox (exec (get_result (RT := rt) u) w)
      = outbox w ++ [answer u (join nl lines)
                       (Some (keyboard_of (RT := rt) (access_list (RT := rt) (users_file w))
                                (user_id u)))].
Proof.
  cbv zeta.
  assert (H1 : result (check_access (RT := rt) (says 1 1 Config.main_button))
                 (run (RT := rt) started [Job (first_sheet_down "250")]) = Ret true)
    by (vm_compute; reflexivity).
  split; [exact H1|].
  exact (get_result_always_answers (RT := rt) FileMissing (all_cells "100")
           [Job (first_sheet_down "250")] (says 1 1 Config.main_button) H1).
Defined.

Lemma unresolved_key_reports_placeholder_witness :
  (income ∈ Config.SHEET_CONFIG /\ open_by_key closed = false) /\
  result (result_line income)
    (run (RT := rt) (boot FileMissing closed) [Job (all_cells "5"); Job (all_cells "6")])
    = Ret (Config.response_template "доходы" "Н/Д").
Proof.
  assert (H1 : income ∈ Config.SHEET_CONFIG) by (by left).
  split; [split; [exact H1 | reflexivity]|].
  exact (unresolved_key_reports_placeholder (RT := rt) FileMissing closed
           [Job (all_cells "5"); Job (all_cells "6")] "income" (snd income) H1
           (or_introl eq_refl)).
Defined.

Lemma resolution_is_isolated_per_key_witness :
  let g0 := third_sheet_only "100" in
  (has_CellNotFound g0 = true /\ cash ∈ Config.SHEET_CONFIG /\
   worksheet g0 "Лист1" = None /\ worksheet g0 "Лист3" = Some "Лист3") /\
  cell_cache (boot FileMissing g0) !! "cash"
    = Some {| sheet := Some "Лист3"; pos := Some (3, 2)%Z; value := PyStr "100" |} /\
  location <$> cell_cache (run (RT := rt) (boot FileMissing g0) [Job (all_cells "7")]) !! "cash"
    = Some (Some "Лист3", Some (3, 2)%Z).
Proof.
  cbv zeta.
  assert (H1 : cash ∈ Config.SHEET_CONFIG) by (do 2 right; left).
  destruct (resolution_is_isolated_per_key (RT := rt) FileMissing (third_sheet_only "100")
              "cash" (snd cash) "Лист3" 3 1 (PyStr "100")
              eq_refl H1 eq_refl eq_refl eq_refl eq_refl)
    as [Hboot Hrun].
  split; [split; [reflexivity | split; [exact H1 | split; reflexivity]]|].
  split; [exact Hboot | apply Hrun].
Defined.

Lemma first_failure_ends_start_up_witness :
  let g0 := no_first_sheet "100" in
  (has_CellNotFound g0 = false /\ Config.SHEET_CONFIG = [] ++ income :: tl Config.SHEET_CONFIG /\
   resolves g0 (snd income) = false /\ resolves g0 (snd cash) = true) /\
  last (log (boot FileMissing g0)) = Some init_error /\
  cell_cache (run (RT := rt) (boot FileMissing g0) [Job (all_cells "7")]) !! "cash"
    = cell_cache (fresh FileMissing) !! "cash".
Proof.
  cbv zeta.
  destruct (first_failure_ends_start_up (RT := rt) FileMissing (no_first_sheet "100")
              [] (tl Config.SHEET_CONFIG) "income" (snd income) eq_refl eq_refl eq_refl)
    as [Hlog Hkeys].
  split; [repeat apply conj; reflexivity|].
  split; [exact Hlog|].
  apply Hkeys. by_deciding.
Defined.

Lemma refresh_keeps_the_keys_before_the_failure_witness :
  let g := second_sheet_down "200" in
  let w' := exec (update_cache g) started in
  (map fst Config.SHEET_CONFIG = ["income"] ++ "consumption" :: ["cash"] /\
   cell g "Лист2" 3 2 = None /\ cell g "Лист3" 3 2 = Some (PyStr "200")) /\
  cell_cache w' !! "income"
    = Some {| sheet := Some "Лист1"; pos := Some (3, 2)%Z; value := PyStr "200" |} /\
  cell_cache w' !! "cash" = cell_cache started !! "cash" /\
  log w' = log started ++ [refresh_error].
Proof.
  cbv zeta.
  assert (Hpre : forall k', k' ∈ ["income"] ->
            exists e', cell_cache started !! k' = Some e' /\
              forall sh' r' c', sheet e' = Some sh' -> pos e' = Some (r', c') ->
                                is_Some (cell (second_sheet_down "200") sh' r' c')).
  { intros k' Hk. apply list_elem_of_singleton in Hk. subst k'.
    exists {| sheet := Some "Лист1"; pos := Some (3, 2)%Z; value := PyStr "100" |}.
    split; [vm_compute; reflexivity|].
    intros sh' r' c' Hsh _. inversion Hsh; subst sh'. simpl. eauto. }
  assert (He : cell_cache started !! "consumption"
               = Some {| sheet := Some "Лист2"; pos := Some (3, 2)%Z; value := PyStr "100" |})
    by (vm_compute; reflexivity).
  destruct (refresh_keeps_the_keys_before_the_failure (second_sheet_down "200") started
              ["income"] ["cash"] "consumption" _ "Лист2" 3 2
              eq_refl Hpre He eq_refl eq_refl eq_refl) as (Hdone & Hrest & Hlog).
  split; [split; [reflexivity | split; reflexivity]|].
  split; [|split; [apply Hrest; by_deciding | exact Hlog]].
  apply (Hdone "income" {| sheet := Some "Лист1"; pos := Some (3, 2)%Z; value := PyStr "100" |}
           "Лист1" 3%Z 2%Z (PyStr "200"));
    first [ by left | reflexivity | vm_compute; reflexivity ].
Defined.

Lemma admin_guard_is_never_reached_witness :
  let w := fresh FileMissing in
  let u := says 7 7 "hello" in
  (conv_check_update (RT := rt) w u = None /\ (TEXT u && negb (COMMAND u))%bool = true) /\
  text u <> Config.add_button /\ text u <> Config.remove_button /\
  outbox (exec (handle_buttons (RT := rt) u) w) = [].
Proof.
  cbv zeta.
  assert (H1 : conv_check_update (RT := rt) (fresh FileMissing) (says 7 7 "hello") = None)
    by (vm_compute; reflexivity).
  assert (H2 : (TEXT (says 7 7 "hello") && negb (COMMAND (says 7 7 "hello")))%bool = true)
    by (vm_compute; reflexivity).
  destruct (admin_guard_is_never_reached (RT := rt) _ _ H1 H2) as [[Hadd Hrm] Hrun].
  split; [split; assumption|]. split; [exact Hadd|]. split; [exact Hrm|].
  unfold exec. rewrite Hrun. vm_compute. reflexivity.
Defined.


Lemma text_after_cancel_ends_the_conversation_witness :
  let w := pending (FileJson (Some 1%Z) (Some [5%Z])) AWAIT_USER_ID_ADD in
  let uc := slash 1 1 "cancel" in
  let u := says 1 1 "42" in
  let w' := run (RT := rt) w [Incoming uc WriteOk; Incoming u WriteOk] in
  (conversations w !! conv_key uc = Some AWAIT_USER_ID_ADD /\ command uc = Some "cancel") /\
  conversations w' !! conv_key u = None /\
  users_file w' = users_file w /\
  outbox w' = [answer u unknown_state None].
Proof.
  cbv zeta.
  assert (H1 : conversations (pending (FileJson (Some 1%Z) (Some [5%Z])) AWAIT_USER_ID_ADD)
                 !! conv_key (slash 1 1 "cancel") = Some AWAIT_USER_ID_ADD)
    by (vm_compute; reflexivity).
  destruct (text_after_cancel_ends_the_conversation (RT := rt) _ (slash 1 1 "cancel")
              (says 1 1 "42") WriteOk WriteOk _ H1 eq_refl eq_refl eq_refl
              ltac:(discriminate) eq_refl) as (Hc & _ & Hf & Ho).
  repeat split; assumption.
Defined.

Lemma pending_action_follows_the_chat_witness :
  let ub := says 9 2 Config.remove_button in
  let ua := says 9 1 "7" in
  let w' := run (RT := rt) group_chat [Incoming ub WriteOk; Incoming ua WriteOk] in
  (chat_id ua = chat_id ub /\ user_id ua <> user_id ub /\
   conversations group_chat !! conv_key ua = Some AWAIT_USER_ID_ADD /\
   @py_int rt (text ua) = Some 7%Z) /\
  users_file w' = FileJson (Some 1%Z) (Some [5%Z]) /\
  last (outbox w') = Some (answer ua (user_removed 7) None) /\
  conversations w' !! conv_key ub = Some AWAIT_USER_ID_REMOVE.
Proof.
  cbv zeta.
  assert (H1 : conversations group_chat !! conv_key (says 9 1 "7") = Some AWAIT_USER_ID_ADD)
    by (vm_compute; reflexivity).
  assert (H2 : conversations group_chat !! conv_key (says 9 2 Config.remove_button) = None)
    by (vm_compute; reflexivity).
  assert (H3 : @py_int rt (text (says 9 1 "7")) = Some 7%Z) by (vm_compute; reflexivity).
  destruct (pending_action_follows_the_chat (RT := rt) group_chat (says 9 1 "7")
              (says 9 2 Config.remove_button) WriteOk 7%Z [5%Z]
              eq_refl ltac:(discriminate) H1 H2 eq_refl ltac:(discriminate) eq_refl H3
              ltac:(vm_compute; reflexivity)) as (Hf & Ho & _ & Hb & _).
  split; [split; [reflexivity | split; [discriminate | split; assumption]]|].
  split; [exact Hf|]. split; [exact Ho | exact Hb].
Defined.

Lemma queries_reply_once_and_change_nothing_witness :
  let u := says 1 1 Config.main_button in
  let w' := exec (get_result (RT := rt) u) started in
  users_file w' = users_file started /\ cell_cache w' = cell_cache started /\
  exists m, outbox w' = outbox started ++ [m].
Proof.
  cbv zeta.
  destruct (queries_reply_once_and_change_nothing (RT := rt) started
              (says 1 1 Config.main_button) get_result (or_intror eq_refl))
    as (Hf & Hc & _ & _ & Hm).
  repeat split; assumption.
Defined.

Lemma added_user_is_let_in_witness :
  let w := fresh FileMissing in
  let u := says 1 1 Config.add_button in
  let v := says 1 1 "7" in
  let x := says 7 7 Config.main_button in
  let w' := exec (handle_user_id_input (RT := rt) WriteOk v) (exec (add_user (RT := rt) u) w) in
  (@py_int rt (text v) = Some 7%Z /\ user_id x = 7%Z) /\
  result (check_access (RT := rt) x) w = Ret false /\
  result (check_access (RT := rt) x) w' = Ret true.
Proof.
  cbv zeta.
  assert (H2 : @py_int rt (text (says 1 1 "7")) = Some 7%Z) by (vm_compute; reflexivity).
  destruct (added_user_is_let_in (RT := rt) (fresh FileMissing) (says 1 1 Config.add_button)
              (says 1 1 "7") (says 7 7 Config.main_button) 7%Z
              eq_refl H2 ltac:(by_deciding) eq_refl) as [Hbefore Hafter].
  split; [split; [exact H2 | reflexivity]|].
  split; [apply Hbefore; discriminate | exact Hafter].
Defined.

Lemma clean_refresh_updates_every_resolved_key_witness :
  let g := all_cells "250" in
  let w' := exec (update_cache g) started in
  (cache_wf started /\ reads_ok g started) /\
  log w' = log started /\
  cell_cache w' !! "cash"
    = Some {| sheet := Some "Лист3"; pos := Some (3, 2)%Z; value := PyStr "250" |}.
Proof.
  cbv zeta.
  assert (Hwf : cache_wf started)
    by exact (reachable_cache_wf (RT := rt) FileMissing (all_cells "100") []).
  assert (Hok : reads_ok (all_cells "250") started).
  { intros key e sh r c _ _ _. simpl. eauto. }
  destruct (clean_refresh_updates_every_resolved_key (all_cells "250") started Hwf Hok)
    as [Hlog Hkeys].
  split; [split; assumption|]. split; [exact Hlog|].
  destruct (Hkeys "cash" {| sheet := Some "Лист3"; pos := Some (3, 2)%Z; value := PyStr "100" |})
    as [Hset _].
  - by_deciding.
  - vm_compute. reflexivity.
  - apply (Hset "Лист3" 3%Z 2%Z (PyStr "250")); reflexivity.
Defined.
